(** * V2Device: management plane of a MIDI-class USB device

    A shallow embedding of [src/V2Device.cpp] and [src/V2Device.h]:
    the 7-bit JSON escaper, the EEPROM configuration record, the retained
    boot data, the JSON-over-SysEx request handler and the dual-bank
    firmware update.

    Conventions.  Fixed-width C integers are [Z] with the wrap-around written
    out ([u8], [u16], [u32]); memory is a [list Z] of bytes; a C string is
    the run of bytes before the first NUL.  External libraries (ArduinoJson,
    V2Memory, V2Cryptography, V2MIDI) are interfaces: their calls are either
    fields of the class [Collaborators] or events of the trace.  The virtual
    hook [importConfiguration] of a derived class is such a field too. *)

From Stdlib Require Import ZArith List String Ascii Bool Lia.
Import ListNotations.
Open Scope Z_scope.

(** ** Machine integers and byte memory *)

Definition u8 (x : Z) : Z := x mod 256.
Definition u16 (x : Z) : Z := x mod 65536.
Definition u32 (x : Z) : Z := x mod 4294967296.

(** [p[i]] for a byte pointer into [mem]; reads past the modelled region
    yield 0 (a NUL terminator). *)
Definition byte_at (mem : list Z) (i : Z) : Z := nth (Z.to_nat i) mem 0.

Definition zlength {A} (l : list A) : Z := Z.of_nat (List.length l).

(** ** UnicodeEscaper *)

Module Escaper.

(** The leading-byte classification of [utf8Codepoint]: the [int8_t len],
    or -1. *)
Definition utf8Length (b0 : Z) : Z :=
  if b0 <? 0x80 then 1
  else if Z.land b0 0xe0 =? 0xc0 then 2
  else if Z.land b0 0xf0 =? 0xe0 then 3
  else if Z.land b0 0xf8 =? 0xf0 then 4
  else if Z.land b0 0xfc =? 0xf8 then 5
  else if Z.land b0 0xfe =? 0xfc then 6
  else -1.

(** The [switch (len)] that strips the length marker of the first byte. *)
Definition utf8Lead (len b0 : Z) : Z :=
  if len =? 1 then b0
  else if len =? 2 then Z.land b0 0x1f
  else if len =? 3 then Z.land b0 0x0f
  else if len =? 4 then Z.land b0 0x07
  else if len =? 5 then Z.land b0 0x03
  else Z.land b0 0x01.

(** The [for (i = 1; i < len; i++)] loop over the continuation bytes; [n]
    is the number of iterations left.  [None] is the [return -1]. *)
Fixpoint utf8Continue (utf8 : list Z) (p i : Z) (n : nat) (codepoint : Z)
  : option Z :=
  match n with
  | O => Some codepoint
  | S n' =>
      let b := byte_at utf8 (p + i) in
      if negb (Z.land b 0xc0 =? 0x80) then None
      else utf8Continue utf8 p (i + 1) n'
             (Z.lor (u32 (Z.shiftl codepoint 6)) (Z.land b 0x3f))
  end.

(** [utf8Codepoint(utf8 + p, &codepoint)]: the [int8_t] return value and,
    when the function stores through [codepointp], the stored value. *)
Definition utf8Codepoint (utf8 : list Z) (p : Z) : Z * option Z :=
  let b0 := byte_at utf8 p in
  let len := utf8Length b0 in
  if len =? -1 then (-1, None)
  else
    match utf8Continue utf8 p 1 (Z.to_nat (len - 1)) (utf8Lead len b0) with
    | None => (-1, None)
    | Some codepoint => (len, Some codepoint)
    end.

(** [sprintf("%x")] digits, lower case. *)
Definition hexDigit (d : Z) : Z := if d <? 10 then 48 + d else 87 + d.

(** [sprintf("%04x", v)] for [v < 0x10000], which holds at both call sites
    (the branch condition, and the [uint16_t] type of the surrogates). *)
Definition hex4 (v : Z) : list Z :=
  [hexDigit (v / 4096 mod 16); hexDigit (v / 256 mod 16);
   hexDigit (v / 16 mod 16); hexDigit (v mod 16)].

(** ["\\u%04x"]: backslash, [u], four digits. *)
Definition escapeU (v : Z) : list Z := 92 :: 117 :: hex4 v.

Definition surrogate1 (codepoint : Z) : Z :=
  u16 (Z.shiftr (u32 (codepoint - 0x10000)) 10 + 0xd800).
Definition surrogate2 (codepoint : Z) : Z :=
  u16 (Z.land (u32 (codepoint - 0x10000)) 0x3ff + 0xdc00).

(** What [escapeJSON] hands back: the [uint32_t] return value and the bytes
    it has stored into [buffer] so far. *)
Record Escaped := mkEscaped { esc_len : Z; esc_buffer : list Z }.

(** The [for] loop of [escapeJSON].  [buffer] is what has been written,
    [buffer_len] its length.  [uninit i] is the indeterminate content of the
    local [codepoint] in the iteration at index [i], read when
    [utf8Codepoint] returned without storing.  [None]: out of fuel. *)
Fixpoint escapeLoop (uninit : Z -> Z) (json_buffer : list Z)
  (json_len size : Z) (fuel : nat) (i : Z) (buffer : list Z)
  : option Escaped :=
  match fuel with
  | O => None
  | S fuel' =>
      let buffer_len := zlength buffer in
      if negb (i <? json_len) then Some (mkEscaped buffer_len buffer)
      else if byte_at json_buffer i >? 0x7f then
        let r := utf8Codepoint json_buffer i in
        (* uint8_t len = utf8Codepoint(...) *)
        let len := u8 (fst r) in
        let codepoint := match snd r with Some c => c | None => uninit i end in
        if len <? 0 then
          escapeLoop uninit json_buffer json_len size fuel' (u32 (i + 1)) buffer
        else
          let i := u32 (i + (len - 1)) in
          if codepoint <? 0xffff then
            if u32 (buffer_len + 7) >? size then Some (mkEscaped 0 buffer)
            else escapeLoop uninit json_buffer json_len size fuel' (u32 (i + 1))
                   (buffer ++ escapeU codepoint)
          else
            if u32 (buffer_len + 13) >? size then Some (mkEscaped 0 buffer)
            else escapeLoop uninit json_buffer json_len size fuel' (u32 (i + 1))
                   (buffer ++ escapeU (surrogate1 codepoint)
                           ++ escapeU (surrogate2 codepoint))
      else
        if buffer_len >=? size then Some (mkEscaped 0 buffer)
        else escapeLoop uninit json_buffer json_len size fuel' (u32 (i + 1))
               (buffer ++ [byte_at json_buffer i])
  end.

(** [escapeJSON(json_buffer, json_len, buffer, size)].  Every iteration
    advances [i], so [json_len + 1] rounds always reach a [return]
    ([escapeLoop_returns]); the last case is never taken. *)
Definition escapeJSON (uninit : Z -> Z) (json_buffer : list Z)
  (json_len size : Z) : Escaped :=
  match
    escapeLoop uninit json_buffer json_len size (S (Z.to_nat json_len)) 0 []
  with
  | Some e => e
  | None => mkEscaped 0 []
  end.

End Escaper.


(** ** Strings and C strings *)

Definition bytes_of_string (s : string) : list Z :=
  map (fun c => Z.of_nat (nat_of_ascii c)) (list_ascii_of_string s).

Definition string_of_bytes (l : list Z) : string :=
  string_of_list_ascii (map (fun b => ascii_of_nat (Z.to_nat b)) l).

(** The bytes a [char *] denotes: everything before the first NUL. *)
Fixpoint c_str (mem : list Z) : list Z :=
  match mem with
  | [] => []
  | b :: rest => if b =? 0 then [] else b :: c_str rest
  end.

Definition strlen (s : string) : Z := zlength (c_str (bytes_of_string s)).

(** [memcpy(dst + off, src, |src|)] within [dst]. *)
Definition mem_write (dst : list Z) (off : Z) (src : list Z) : list Z :=
  firstn (Z.to_nat off) dst ++ src
    ++ skipn (Z.to_nat off + List.length src) dst.

Definition mem_read (mem : list Z) (off n : Z) : list Z :=
  firstn (Z.to_nat n) (skipn (Z.to_nat off) mem).

(** Little-endian [uint32_t] (the targets are ARM Cortex-M). *)
Definition le32 (mem : list Z) (off : Z) : Z :=
  byte_at mem off + 256 * byte_at mem (off + 1)
  + 65536 * byte_at mem (off + 2) + 16777216 * byte_at mem (off + 3).

Definition le32_bytes (v : Z) : list Z :=
  [v mod 256; v / 256 mod 256; v / 65536 mod 256; v / 16777216 mod 256].

(** ** JSON documents, as the handler reads them through ArduinoJson *)

Module Json.

#[warnings="-register-all"]
Inductive value :=
| Null
| Bool (b : bool)
| Num (n : Z)
| Str (s : string)
| Arr (items : list value)
| Obj (members : list (string * value)).

Fixpoint lookup (key : string) (members : list (string * value)) : value :=
  match members with
  | [] => Null
  | (k, v) :: rest => if String.eqb k key then v else lookup key rest
  end.

(** [v[key]]: the member, or a null variant when [v] is not an object or
    has no such member. *)
Definition get (v : value) (key : string) : value :=
  match v with
  | Obj members => lookup key members
  | _ => Null
  end.

(** [v.isNull()]: a missing member and a JSON [null] are the same. *)
Definition isNull (v : value) : bool :=
  match v with Null => true | _ => false end.

(** [JsonObject o = v; if (o)]. *)
Definition isObject (v : value) : bool :=
  match v with Obj _ => true | _ => false end.

(** [const char *s = v]: NULL unless [v] holds a string. *)
Definition as_cstr (v : value) : option string :=
  match v with Str s => Some s | _ => None end.

(** [v == "literal"]. *)
Definition eq_str (v : value) (lit : string) : bool :=
  match v with Str s => String.eqb s lit | _ => false end.

(** [v == n] for an unsigned [n]: arithmetic on numbers (a Boolean counts
    as 0 or 1), false for everything else. *)
Definition eq_uint (v : value) (n : Z) : bool :=
  match v with
  | Num m => m =? n
  | Bool b => (if b then 1 else 0) =? n
  | _ => false
  end.

(** [uintN_t x = v]: the number when it fits the type, 0 when it does not;
    a string goes through ArduinoJson's number parser, given as
    [parseNumber]. *)
Definition as_uint (parseNumber : string -> Z) (limit : Z) (v : value) : Z :=
  let n :=
    match v with
    | Num n => n
    | Bool b => if b then 1 else 0
    | Str s => parseNumber s
    | _ => 0
    end in
  if (0 <=? n) && (n <? limit) then n else 0.

End Json.

(** ** The external interfaces

    What V2Memory, V2Cryptography and ArduinoJson contribute.  [Bank] is the
    secondary firmware bank. *)

Class Collaborators := {
  Bank : Type;
  (** [V2Memory::Flash::getBlockSize()] *)
  getBlockSize : Z;
  (** [V2Memory::Firmware::Secondary::writeBlock(offset, block)] *)
  writeBlock : Z -> list Z -> Bank -> Bank;
  (** [V2Memory::Firmware::Secondary::copyBootloader()] *)
  copyBootloader : Bank -> Bank;
  (** [V2Memory::Firmware::Secondary::verify(len, hash)] *)
  verify : Bank -> Z -> string -> bool;
  (** [V2Cryptography::Base64::decode(data, bytes)]: the decoded bytes;
      [data] is NULL when the request has no string there. *)
  base64_decode : option string -> list Z;
  (** [serializeJson(doc, buffer, capacity)]: the bytes written. *)
  serializeJson : Json.value -> Z -> list Z;
  (** [deserializeJson(doc, input, size)]: the document, or an error. *)
  deserializeJson : list Z -> option Json.value;
  (** ArduinoJson's conversion of a string to an unsigned number. *)
  parseNumber : string -> Z;
  (** The hook [importConfiguration(config)] of the derived class: it parses
      the device-specific part of [config] into the data of the registered
      section.  The one of [V2Device] itself is empty (the identity). *)
  importConfiguration : Json.value -> list Z -> list Z
}.

(** ** The device object ([class V2Device]) *)

(** [struct { ... } metadata] *)
Record Metadata := mkMetadata {
  vendor : option string;
  product : option string;
  description : option string;
  home : option string
}.

(** [struct Ports] *)
Record Ports := mkPorts {
  configured : Z;
  announce : Z;
  current : Z;
  reboot : Z
}.

(** [const char *system.name]: NULL, the array [_configuration.name], the
    string of the request being handled (it lives in the JSON document
    local to [handleSystemExclusive]), or what is left of such a pointer
    once that call has returned. *)
Inductive NamePointer :=
| NameNull
| NameOfConfiguration
| NameOfRequest (s : string)
| NameDangling.

(** [struct { magic; size; data } configuration]: the device-specific
    section registered by the owner of the device. *)
Record LocalSection := mkLocalSection {
  local_magic : Z;
  local_size : Z;
  local_data : option (list Z)
}.

(** [V2DeviceMetadata] *)
Record FirmwareMetadata := mkFirmwareMetadata {
  fw_id : string;
  fw_version : Z;
  fw_board : string
}.

Record Device := mkDevice {
  metadata : Metadata;
  system_name : NamePointer;
  system_ports : Ports;
  system_download : option string;
  usb_vid : Z;
  usb_pid : Z;
  configuration : LocalSection;
  (** [struct Configuration _configuration], as its bytes *)
  _configuration : list Z;
  _boot_id : Z;
  _firmware_hash : string
}.

Definition set_system_name (n : NamePointer) (d : Device) : Device :=
  mkDevice (metadata d) n (system_ports d) (system_download d) (usb_vid d)
    (usb_pid d) (configuration d) (_configuration d) (_boot_id d)
    (_firmware_hash d).
Definition set_system_ports (p : Ports) (d : Device) : Device :=
  mkDevice (metadata d) (system_name d) p (system_download d) (usb_vid d)
    (usb_pid d) (configuration d) (_configuration d) (_boot_id d)
    (_firmware_hash d).
Definition set_configuration (c : LocalSection) (d : Device) : Device :=
  mkDevice (metadata d) (system_name d) (system_ports d) (system_download d)
    (usb_vid d) (usb_pid d) c (_configuration d) (_boot_id d)
    (_firmware_hash d).
Definition set__configuration (c : list Z) (d : Device) : Device :=
  mkDevice (metadata d) (system_name d) (system_ports d) (system_download d)
    (usb_vid d) (usb_pid d) (configuration d) c (_boot_id d)
    (_firmware_hash d).
Definition set__boot_id (id : Z) (d : Device) : Device :=
  mkDevice (metadata d) (system_name d) (system_ports d) (system_download d)
    (usb_vid d) (usb_pid d) (configuration d) (_configuration d) id
    (_firmware_hash d).
Definition set__firmware_hash (h : string) (d : Device) : Device :=
  mkDevice (metadata d) (system_name d) (system_ports d) (system_download d)
    (usb_vid d) (usb_pid d) (configuration d) (_configuration d) (_boot_id d)
    h.

Definition set_ports_configured (v : Z) (p : Ports) : Ports :=
  mkPorts v (announce p) (current p) (reboot p).
Definition set_ports_current (v : Z) (p : Ports) : Ports :=
  mkPorts (configured p) (announce p) v (reboot p).
Definition set_ports_reboot (v : Z) (p : Ports) : Ports :=
  mkPorts (configured p) (announce p) (current p) v.

(** *** [struct Configuration]

    Layout on the 32-bit ARM targets: [header.magic] at 0, [header.size] at
    4, [name] at 8, [ports] at 40, three bytes of padding, [local.magic] at
    44, [local.size] at 48. *)
Module Configuration.

Definition sizeof_Header : Z := 8.
Definition sizeof : Z := 52.
Definition magic_default : Z := 0x7ed63a89.

Definition header_magic (c : list Z) : Z := le32 c 0.
Definition header_size (c : list Z) : Z := le32 c 4.
Definition name (c : list Z) : list Z := c_str (skipn 8 c).
Definition ports (c : list Z) : Z := byte_at c 40.
Definition local_magic (c : list Z) : Z := le32 c 44.
Definition local_size (c : list Z) : Z := le32 c 48.

Definition set_header_size (v : Z) (c : list Z) := mem_write c 4 (le32_bytes v).
Definition set_ports (v : Z) (c : list Z) := mem_write c 40 [v].
Definition set_local_magic (v : Z) (c : list Z) := mem_write c 44 (le32_bytes v).
Definition set_local_size (v : Z) (c : list Z) := mem_write c 48 (le32_bytes v).

(** The member initialisers of the header file. *)
Definition default : list Z :=
  le32_bytes magic_default ++ le32_bytes sizeof ++ repeat 0 32
    ++ [1; 0; 0; 0] ++ le32_bytes 0 ++ le32_bytes 0.

End Configuration.

(** The object as constructed: the member initialisers of the header file,
    and what the owner of the device supplies. *)
Definition V2Device_new (md : Metadata) (download : option string)
  (vid pid : Z) (announce : Z) (section : LocalSection) : Device :=
  mkDevice md NameNull (mkPorts 1 announce 1 0) download vid pid section
    Configuration.default 0 EmptyString.

(** ** Retained memory ([class BootData], section [.noinit]) *)

Record BootData := mkBootData { n_ports : Z; _magic : Z }.

Definition BootData_magic : Z := 0x8f734e41.

Definition BootData_clear (b : BootData) : BootData := mkBootData 0 (_magic b).

(** The constructor, run on the memory content found at startup. *)
Definition BootData_new (found : BootData) : BootData :=
  if _magic found =? BootData_magic then found
  else mkBootData 0 BootData_magic.

(** ** The world around the device object *)

(** Calls that leave the class, in the order they are made. *)
Inductive Event :=
| SendSystemExclusive (message : list Z)
| EEPROM_erase
| EEPROM_write (offset : Z) (bytes : list Z)
| Firmware_reboot
| Secondary_writeBlock (offset : Z) (block : list Z)
| Secondary_copyBootloader
| Secondary_verify (len : Z) (hash : string) (matches : bool)
| Secondary_activate
| FlushSystemExclusive
| SwitchChannel (channel : Z)
| LED (high : bool)
| Delay (ms : Z)
| USB_setConfigurationBuffer (size : Z)
| USB_setDeviceVersion (bcd : Z)
| USB_setProductDescriptor (s : string)
| USB_setPorts (ports : Z)
| USB_setID (vid pid : Z)
| USB_begin
| SetSleepModeIdle.

(** [_statistics.input] and [_statistics.output] of the MIDI port. *)
Record Counters := mkCounters {
  note : Z; note_off : Z; aftertouch : Z; control : Z; program : Z;
  aftertouch_channel : Z; pitchbend : Z;
  system_exclusive : Z; system_reset : Z; system_clock_tick : Z
}.

(** What the hardware and the runtime report when asked. *)
Record Readings := mkReadings {
  (** [V2DeviceMetadata] *)
  firmware : FirmwareMetadata;
  (** [readSerial] *)
  serial : string;
  (** the board entry [addBootloaderMetadata] finds, if any *)
  bootloader_board : option Json.value;
  firmware_start : Z;
  firmware_size : Z;
  ram_size : Z;
  ram_free : Z;
  flash_size : Z;
  eeprom_size : Z;
  (** [millis() / 1000] *)
  uptime : Z;
  statistics_input : Counters;
  statistics_output : Counters;
  (** the indeterminate content of the local [codepoint] of [escapeJSON] *)
  uninitialized : Z -> Z;
  (** what a read through a dangling [system.name] finds *)
  dangling_name : string
}.

(** The C string behind [system.name].  A pointer into the document of a
    request that has returned is read all the same; what is found there is
    not the program's to say. *)
Definition name_string (r : Readings) (d : Device) : option string :=
  match system_name d with
  | NameNull => None
  | NameOfConfiguration =>
      Some (string_of_bytes (Configuration.name (_configuration d)))
  | NameOfRequest s => Some (string_of_bytes (c_str (bytes_of_string s)))
  | NameDangling => Some (dangling_name r)
  end.

(** When [handleSystemExclusive] returns, its JSON document is gone: a
    [system.name] that points into it is left dangling. *)
Definition expire (d : Device) : Device :=
  match system_name d with
  | NameOfRequest _ => set_system_name NameDangling d
  | _ => d
  end.

Section Device.

Context {C : Collaborators}.

Record World := mkWorld {
  device : Device;
  bootData : BootData;
  eeprom : list Z;
  secondary : Bank;
  readings : Readings;
  trace : list Event
}.

Definition set_device (d : Device) (w : World) : World :=
  mkWorld d (bootData w) (eeprom w) (secondary w) (readings w) (trace w).
Definition set_bootData (b : BootData) (w : World) : World :=
  mkWorld (device w) b (eeprom w) (secondary w) (readings w) (trace w).
Definition set_eeprom (e : list Z) (w : World) : World :=
  mkWorld (device w) (bootData w) e (secondary w) (readings w) (trace w).
Definition set_secondary (b : Bank) (w : World) : World :=
  mkWorld (device w) (bootData w) (eeprom w) b (readings w) (trace w).
Definition log (e : Event) (w : World) : World :=
  mkWorld (device w) (bootData w) (eeprom w) (secondary w) (readings w)
    (trace w ++ [e]).

(** *** Control: a call returns, or the device resets and it never does,
    or it writes past the end of a local array, from where on the C program
    has no defined behaviour *)

Inductive Result (A : Type) :=
| Returns (a : A) (w : World)
| Resets (w : World)
| Overruns (w : World).
Arguments Returns {A} a w.
Arguments Resets {A} w.
Arguments Overruns {A} w.

Definition M (A : Type) : Type := World -> Result A.

Definition ret {A} (a : A) : M A := fun w => Returns a w.

Definition bind {A B} (m : M A) (k : A -> M B) : M B :=
  fun w => match m w with
           | Returns a w' => k a w'
           | Resets w' => Resets w'
           | Overruns w' => Overruns w'
           end.

Definition world_of {A} (r : Result A) : World :=
  match r with Returns _ w => w | Resets w => w | Overruns w => w end.

Definition returned {A} (r : Result A) : bool :=
  match r with
  | Returns _ _ => true
  | Resets _ => false
  | Overruns _ => false
  end.

Definition get : M World := fun w => Returns w w.
Definition modify (f : World -> World) : M unit := fun w => Returns tt (f w).
Definition call (e : Event) : M unit := modify (log e).
Definition update_device (f : Device -> Device) : M unit :=
  modify (fun w => set_device (f (device w)) w).

End Device.

Arguments Returns {C A} a w.
Arguments Resets {C A} w.
Arguments Overruns {C A} w.

Declare Scope device_scope.
Delimit Scope device_scope with device.
Notation "x <- m ;; k" := (bind m (fun x => k))
  (at level 61, m at next level, right associativity) : device_scope.
Notation "m ;; k" := (bind m (fun _ => k))
  (at level 61, right associativity) : device_scope.

Section Operations.

Context {C : Collaborators}.
Local Open Scope string_scope.
Local Open Scope list_scope.
Local Open Scope Z_scope.
Local Open Scope device_scope.

Definition sysex_max_size : Z := 12 * 1024.

(** [V2MIDI::Packet::Status::SystemExclusive] and [SystemExclusiveEnd]. *)
Definition SystemExclusive : Z := 0xf0.
Definition SystemExclusiveEnd : Z := 0xf7.

Definition as_uint8 : Json.value -> Z := Json.as_uint parseNumber 256.
Definition as_uint32 : Json.value -> Z := Json.as_uint parseNumber 4294967296.

(** *** ConfigurationStore *)

Definition readEEPROM (eeprom : list Z) (d : Device) : Device :=
  if negb (Configuration.header_magic eeprom
           =? Configuration.header_magic (_configuration d)) then d
  else if Configuration.header_size eeprom <=? Configuration.sizeof_Header
  then d
  else if Configuration.header_size eeprom >? Configuration.sizeof then d
  else
    let d :=
      set__configuration
        (mem_write (_configuration d) 0
           (mem_read eeprom 0 (Configuration.header_size eeprom))) d in
    let d :=
      if negb (byte_at (_configuration d) 8 =? 0)
      then set_system_name NameOfConfiguration d else d in
    let d :=
      if Configuration.ports (_configuration d) >? 1
      then set_system_ports
             (set_ports_configured (Configuration.ports (_configuration d))
                (system_ports d)) d
      else d in
    (* Device-specific section. *)
    match local_data (configuration d) with
    | None => d
    | Some data =>
        if negb (Configuration.local_magic eeprom
                 =? local_magic (configuration d)) then d
        else if Configuration.local_size eeprom =? 0 then d
        else if Configuration.local_size eeprom >? local_size (configuration d)
        then d
        else
          set_configuration
            (mkLocalSection (local_magic (configuration d))
               (local_size (configuration d))
               (Some (mem_write data 0
                        (mem_read eeprom (Configuration.header_size eeprom)
                           (Configuration.local_size eeprom))))) d
    end.

(** [V2Memory::EEPROM::write(offset, data, size)] *)
Definition EEPROM_store (offset : Z) (bytes : list Z) : M unit :=
  modify (fun w =>
    log (EEPROM_write offset bytes)
      (set_eeprom (mem_write (eeprom w) offset bytes) w)).

Definition writeConfiguration : M unit :=
  update_device (fun d =>
    set__configuration
      (Configuration.set_local_size (local_size (configuration d))
         (Configuration.set_local_magic (local_magic (configuration d))
            (Configuration.set_header_size Configuration.sizeof
               (_configuration d)))) d) ;;
  w <- get ;;
  EEPROM_store 0 (_configuration (device w)) ;;
  if local_size (configuration (device w)) >? 0 then
    EEPROM_store Configuration.sizeof
      (mem_read
         (match local_data (configuration (device w)) with
          | Some data => data
          | None => []
          end) 0 (local_size (configuration (device w))))
  else ret tt.

(** *** Replies *)

Definition sendSystemExclusive (message : list Z) : M unit :=
  call (SendSystemExclusive message).

Definition firmwareStatusDocument (token : Z) (status : string) : Json.value :=
  Json.Obj [("com.versioduo.device",
    Json.Obj [("token", Json.Num token);
              ("firmware", Json.Obj [("status", Json.Str status)])])].

(** The buffer [sendFirmwareStatus] hands to the transport. *)
Definition firmwareStatusMessage (token : Z) (status : string) : list Z :=
  [SystemExclusive; 0x7d]
    ++ serializeJson (firmwareStatusDocument token status) 1024
    ++ [SystemExclusiveEnd].

Definition sendFirmwareStatus (status : string) : M unit :=
  w <- get ;;
  sendSystemExclusive (firmwareStatusMessage (_boot_id (device w)) status).

Definition optional (key : string) (v : option string)
  : list (string * Json.value) :=
  match v with Some s => [(key, Json.Str s)] | None => [] end.

Definition countersDocument (c : Counters) : Json.value :=
  Json.Obj [("note", Json.Num (note c));
            ("noteOff", Json.Num (note_off c));
            ("aftertouch", Json.Num (aftertouch c));
            ("control", Json.Num (control c));
            ("program", Json.Num (program c));
            ("aftertouchChannel", Json.Num (aftertouch_channel c));
            ("pitchbend", Json.Num (pitchbend c));
            ("system",
             Json.Obj [("exclusive", Json.Num (system_exclusive c));
                       ("reset", Json.Num (system_reset c));
                       ("clock",
                        Json.Obj [("tick", Json.Num (system_clock_tick c))])])].

(** The document [sendReply] builds; the export hooks of the base class add
    nothing. *)
Definition replyDocument (d : Device) (r : Readings) : Json.value :=
  let p := system_ports d in
  let json_meta :=
    Json.Obj (optional "vendor" (vendor (metadata d))
              ++ optional "product" (product (metadata d))
              ++ optional "description" (description (metadata d))
              ++ optional "home" (home (metadata d))
              ++ [("serial", Json.Str (serial r));
                  ("version", Json.Num (fw_version (firmware r)))]) in
  let json_system :=
    Json.Obj (optional "name" (name_string r d)
              ++ match bootloader_board r with
                 | Some b => [("board", b)]
                 | None => []
                 end
              ++ [("usb", Json.Obj [("vid", Json.Num (usb_vid d));
                                    ("pid", Json.Num (usb_pid d))])]
              ++ (if announce p >? 0
                  then [("ports",
                         Json.Obj [("configured", Json.Num (configured p));
                                   ("announce", Json.Num (announce p));
                                   ("current", Json.Num (current p))])]
                  else [])
              ++ [("firmware",
                   Json.Obj (optional "download" (system_download d)
                             ++ [("id", Json.Str (fw_id (firmware r)));
                                 ("board", Json.Str (fw_board (firmware r)));
                                 ("hash", Json.Str (_firmware_hash d));
                                 ("start", Json.Num (firmware_start r));
                                 ("size", Json.Num (firmware_size r))]));
                  ("ram", Json.Obj [("size", Json.Num (ram_size r));
                                    ("free", Json.Num (ram_free r))]);
                  ("flash", Json.Obj [("size", Json.Num (flash_size r))]);
                  ("eeprom", Json.Obj [("size", Json.Num (eeprom_size r))]);
                  ("boot", Json.Obj [("uptime", Json.Num (uptime r));
                                     ("id", Json.Num (_boot_id d))]);
                  ("input", countersDocument (statistics_input r));
                  ("output", countersDocument (statistics_output r))]) in
  let json_usb :=
    Json.Obj ([("#name", Json.Str "The device name");
               ("name",
                Json.Str (string_of_bytes
                            (Configuration.name (_configuration d))))]
              ++ (if announce p >? 0
                  then [("#ports", Json.Str "The number of MIDI ports");
                        ("ports",
                         Json.Num (Configuration.ports (_configuration d)))]
                  else [])) in
  Json.Obj [("com.versioduo.device",
    Json.Obj [("token", Json.Num (_boot_id d));
              ("metadata", json_meta);
              ("system", json_system);
              ("settings", Json.Arr []);
              ("configuration",
               Json.Obj [("#usb", Json.Str "The USB Settings");
                         ("usb", json_usb)]);
              ("input", Json.Obj []);
              ("output", Json.Obj [])])].

(** The buffer [sendReply] hands to the transport for a serialised document
    [json_buffer]: [reply[0 .. len)]. *)
Definition replyMessage (uninit : Z -> Z) (json_buffer : list Z) : list Z :=
  let len := 2 in
  let json_len := zlength json_buffer in
  let e :=
    Escaper.escapeJSON uninit json_buffer json_len (sysex_max_size - len) in
  [SystemExclusive; 0x7d]
    ++ firstn (Z.to_nat (Escaper.esc_len e)) (Escaper.esc_buffer e)
    ++ [SystemExclusiveEnd].

Definition sendReply : M unit :=
  w <- get ;;
  let json := replyDocument (device w) (readings w) in
  let json_buffer := serializeJson json sysex_max_size in
  sendSystemExclusive (replyMessage (uninitialized (readings w)) json_buffer).

(** *** RequestDispatcher and FirmwareUpdateController *)

(** [V2Memory::Firmware::reboot()] and [Secondary::activate()] reset the
    device: control does not come back. *)
Definition Firmware_reset : M unit := fun w => Resets (log Firmware_reboot w).
Definition Secondary_reset : M unit :=
  fun w => Resets (log Secondary_activate w).

(** A write past the end of a local array. *)
Definition overrun : M unit := fun w => Overruns w.

Definition Secondary_write (offset : Z) (block : list Z) : M unit :=
  modify (fun w =>
    log (Secondary_writeBlock offset block)
      (set_secondary (writeBlock offset block (secondary w)) w)).

Definition Secondary_copy : M unit :=
  modify (fun w =>
    log Secondary_copyBootloader
      (set_secondary (copyBootloader (secondary w)) w)).

Definition Secondary_check (len : Z) (hash : string) : M bool :=
  fun w =>
    let ok := verify (secondary w) len hash in
    Returns ok (log (Secondary_verify len hash ok) w).

(** The [writeConfiguration] method, from [JsonObject config] on. *)
Definition handleWriteConfiguration (json_device : Json.value) : M unit :=
  let config := Json.get json_device "configuration" in
  (if Json.isObject config then
     let json_usb := Json.get config "usb" in
     (if Json.isObject json_usb then
        (match Json.as_cstr (Json.get json_usb "name") with
         | Some n =>
             if (strlen n >? 1) && (strlen n <? 32) then
               update_device (fun d =>
                 set__configuration
                   (mem_write (_configuration d) 8
                      (c_str (bytes_of_string n) ++ [0]))
                   (set_system_name (NameOfRequest n) d))
             else
               update_device (fun d =>
                 set__configuration
                   (mem_write (_configuration d) 8 (repeat 0 32))
                   (set_system_name NameNull d))
         | None => ret tt
         end) ;;
        (if negb (Json.isNull (Json.get json_usb "ports")) then
           let p := as_uint8 (Json.get json_usb "ports") in
           if (p >=? 1) && (p <=? 16) then
             update_device (fun d =>
               set__configuration
                 (Configuration.set_ports p (_configuration d))
                 (set_system_ports
                    (set_ports_configured p (system_ports d)) d))
           else ret tt
         else ret tt)
      else ret tt) ;;
     (* Device-specific section. *)
     w <- get ;;
     (if local_size (configuration (device w)) >? 0 then
        update_device (fun d =>
          set_configuration
            (mkLocalSection (local_magic (configuration d))
               (local_size (configuration d))
               (option_map (importConfiguration config)
                  (local_data (configuration d)))) d)
      else ret tt) ;;
     writeConfiguration
   else ret tt) ;;
  (* Reply with the updated configuration. *)
  sendReply.

(** The [writeFirmware] method, from [JsonObject firmware] on. *)
Definition handleWriteFirmware (json_device : Json.value) : M unit :=
  let firmware := Json.get json_device "firmware" in
  if Json.isObject firmware then
    let offset := as_uint32 (Json.get firmware "offset") in
    if negb (offset mod getBlockSize =? 0) then
      sendFirmwareStatus "invalidOffset"
    else
      let data := Json.as_cstr (Json.get firmware "data") in
      let bytes := base64_decode data in
      (* [uint8_t bytes[getBlockSize()]] has room for one block *)
      if zlength bytes >? getBlockSize then overrun
      else
      let block_len := u32 (zlength bytes) in
      let block :=
        bytes ++ repeat 0xff (Z.to_nat (getBlockSize - block_len)) in
      call (LED true) ;;
      Secondary_write offset block ;;
      call (LED false) ;;
      (* The final message contains our hash over the entire image. *)
      match Json.as_cstr (Json.get firmware "hash") with
      | Some hash =>
          Secondary_copy ;;
          ok <- Secondary_check (u32 (offset + block_len)) hash ;;
          (if ok then
             sendFirmwareStatus "success" ;;
             call FlushSystemExclusive ;;
             call (LED true) ;;
             call (Delay 100) ;;
             Secondary_reset
           else ret tt) ;;
          sendFirmwareStatus "hashMismatch"
      | None => sendFirmwareStatus "success"
      end
  else ret tt.

(** The chain of [if (json_device["method"] == ...)] of
    [handleSystemExclusive]. *)
Definition handleMethod (json_device : Json.value) : M unit :=
  let method := Json.get json_device "method" in
  if Json.eq_str method "getAll" then sendReply
  else if Json.eq_str method "eraseConfiguration" then
    (* Wipe the entire EEPROM area. *)
    modify (fun w =>
      log EEPROM_erase (set_eeprom (repeat 0xff (List.length (eeprom w))) w)) ;;
    Firmware_reset
  else if Json.eq_str method "switchChannel" then
    (if negb (Json.isNull (Json.get json_device "channel")) then
       call (SwitchChannel (as_uint8 (Json.get json_device "channel")))
     else ret tt) ;;
    sendReply
  else if Json.eq_str method "reboot" then
    (if negb (Json.isNull (Json.get (Json.get json_device "reboot") "ports"))
     then
       modify (fun w =>
         set_bootData
           (mkBootData
              (as_uint8 (Json.get (Json.get json_device "reboot") "ports"))
              (_magic (bootData w))) w)
     else ret tt) ;;
    Firmware_reset
  else if Json.eq_str method "writeConfiguration" then
    handleWriteConfiguration json_device
  else if Json.eq_str method "writeFirmware" then
    handleWriteFirmware json_device
  else ret tt.

(** [handleSystemExclusive], from the parsed message [json] on: the
    interface and token checks, then the methods. *)
Definition handleRequest (json : Json.value) : M unit :=
  (* Only handle requests for our interface. *)
  let json_device := Json.get json "com.versioduo.device" in
  if negb (Json.isObject json_device) then ret tt
  else
    w <- get ;;
    (* Requests and replies contain the device's current bootID. *)
    if negb (Json.isNull (Json.get json_device "token"))
       && negb (Json.eq_uint (Json.get json_device "token")
                  (_boot_id (device w)))
    then ret tt
    else handleMethod json_device.

(** The return from [handleSystemExclusive] once the document exists, and
    a request from its parsed document to that return. *)
Definition release : M unit := update_device expire.

Definition handleDocument (json : Json.value) : M unit :=
  handleRequest json ;; release.

(** [handleSystemExclusive(transport, buffer, len)]. *)
Definition handleSystemExclusive (buffer : list Z) (len : Z) : M unit :=
  if len <? 24 then ret tt
  (* 0x7d == SysEx prototype/research/private ID *)
  else if negb (byte_at buffer 1 =? 0x7d) then ret tt
  (* Handle only JSON messages. *)
  else if negb (byte_at buffer 2 =? 123) || negb (byte_at buffer (len - 2) =? 125)
  then ret tt
  else
    match deserializeJson (mem_read buffer 2 (len - 1)) with
    | None => ret tt
    | Some json => handleDocument json
    end.

(** *** Startup *)

(** The two-digit BCD loop of [begin]; [n] iterations are left. *)
Fixpoint bcdLoop (n : nat) (shift version bcd : Z) : Z :=
  match n with
  | O => bcd
  | S n' =>
      bcdLoop n' (u8 (shift + 4)) (version / 10)
        (u16 (bcd + Z.shiftl (version mod 10) shift))
  end.

Definition bcdVersion (version : Z) : Z := bcdLoop 4 0 (u16 version) 0.

(** What [begin] obtains from its collaborators. *)
Record Startup := mkStartup {
  (** [V2Memory::Flash::UserPage::update()] *)
  userPage_updated : bool;
  (** [V2Cryptography::Random::read()] *)
  random : Z;
  (** [V2Memory::Firmware::calculateHash(...)] *)
  running_hash : string
}.

Definition begin (s : Startup) : M unit :=
  (if userPage_updated s then
     (* Reboot to enable the new settings. *)
     call (Delay 100) ;; Firmware_reset
   else ret tt) ;;
  update_device (set__boot_id (random s)) ;;
  update_device (set__firmware_hash (running_hash s)) ;;
  (* Read a possible config from the previous boot cycle. *)
  w <- get ;;
  (if n_ports (bootData w) >? 1 then
     update_device (fun d =>
       set_system_ports
         (set_ports_reboot (n_ports (bootData w)) (system_ports d)) d)
   else ret tt) ;;
  modify (fun w => set_bootData (BootData_clear (bootData w)) w) ;;
  call (USB_setConfigurationBuffer 1024) ;;
  w <- get ;;
  call (USB_setDeviceVersion (bcdVersion (fw_version (firmware (readings w))))) ;;
  modify (fun w => set_device (readEEPROM (eeprom w) (device w)) w) ;;
  (* handleInit() of the base class is empty *)
  w <- get ;;
  (match name_string (readings w) (device w) with
   | Some n => call (USB_setProductDescriptor n)
   | None =>
       match product (metadata (device w)) with
       | Some p => call (USB_setProductDescriptor p)
       | None => ret tt
       end
   end) ;;
  (* Set USB MIDI ports. *)
  let p := system_ports (device w) in
  let ports :=
    if reboot p >? 1 then reboot p
    else if configured p >? 1 then configured p
    else 1 in
  (if ports >? 1 then
     update_device (fun d =>
       set_system_ports (set_ports_current ports (system_ports d)) d) ;;
     call (USB_setPorts ports)
   else ret tt) ;;
  call (USB_setID (usb_vid (device w)) (u16 (usb_pid (device w) + ports - 1))) ;;
  call USB_begin ;;
  call SetSleepModeIdle.

(** A reset: the program starts over with a freshly constructed device
    object [d0]; the retained memory, the EEPROM and the flash keep their
    content. *)
Definition restart (d0 : Device) (s : Startup) (w : World) : Result unit :=
  begin s
    (mkWorld d0 (BootData_new (bootData w)) (eeprom w) (secondary w)
       (readings w) (trace w)).

(** *** Vocabulary of the properties *)

(** The calls made while [r] was computed from [w]. *)
Definition events {A} (w : World) (r : Result A) : list Event :=
  skipn (List.length (trace w)) (trace (world_of r)).

(** The messages handed to the transport. *)
Definition sent (l : list Event) : list (list Z) :=
  flat_map (fun e => match e with
                     | SendSystemExclusive m => [m]
                     | _ => []
                     end) l.

Definition json_device_of (json : Json.value) : Json.value :=
  Json.get json "com.versioduo.device".

Definition method_is (json : Json.value) (name : string) : bool :=
  Json.eq_str (Json.get (json_device_of json) "method") name.

(** The request passes the interface and token checks. *)
Definition accepted (json : Json.value) (w : World) : bool :=
  Json.isObject (json_device_of json)
  && (Json.isNull (Json.get (json_device_of json) "token")
      || Json.eq_uint (Json.get (json_device_of json) "token")
           (_boot_id (device w))).

(** The record as [writeConfiguration()] stamps it before the write. *)
Definition stamped (section : LocalSection) (c : list Z) : list Z :=
  Configuration.set_local_size (local_size section)
    (Configuration.set_local_magic (local_magic section)
       (Configuration.set_header_size Configuration.sizeof c)).

(** The full-state reply [sendReply] transmits in [w]. *)
Definition fullStateMessage (w : World) : list Z :=
  replyMessage (uninitialized (readings w))
    (serializeJson (replyDocument (device w) (readings w)) sysex_max_size).

End Operations.

(** What one iteration of [escapeJSON] writes for [codepoint], and the room
    it asks for. *)
Definition rendering (codepoint : Z) : list Z :=
  if codepoint <? 0xffff then Escaper.escapeU codepoint
  else Escaper.escapeU (Escaper.surrogate1 codepoint)
         ++ Escaper.escapeU (Escaper.surrogate2 codepoint).

Definition room (codepoint : Z) : Z := if codepoint <? 0xffff then 7 else 13.

(** ** A reference platform

    A small concrete instance of the external interfaces, on which the model
    runs: a byte-array bank with an additive checksum in place of the
    cryptographic hash, a Base64 decoder and a compact JSON writer. *)

Module Reference.

Local Open Scope string_scope.
Local Open Scope list_scope.
Local Open Scope Z_scope.

Definition base64_value (c : Z) : option Z :=
  if (65 <=? c) && (c <=? 90) then Some (c - 65)
  else if (97 <=? c) && (c <=? 122) then Some (c - 71)
  else if (48 <=? c) && (c <=? 57) then Some (c + 4)
  else if c =? 43 then Some 62
  else if c =? 47 then Some 63
  else None.

Fixpoint base64_sextets (l : list Z) : list Z :=
  match l with
  | [] => []
  | c :: rest =>
      match base64_value c with
      | Some v => v :: base64_sextets rest
      | None => []
      end
  end.

Fixpoint base64_bytes (s : list Z) : list Z :=
  match s with
  | a :: b :: c :: d :: rest =>
      [a * 4 + b / 16; b mod 16 * 16 + c / 4; c mod 4 * 64 + d]
        ++ base64_bytes rest
  | [a; b; c] => [a * 4 + b / 16; b mod 16 * 16 + c / 4]
  | [a; b] => [a * 4 + b / 16]
  | _ => []
  end.

Definition decode (data : option string) : list Z :=
  match data with
  | Some s => base64_bytes (base64_sextets (bytes_of_string s))
  | None => []
  end.

Definition checksum (bytes : list Z) : string :=
  string_of_bytes (Escaper.hex4 (fold_left Z.add bytes 0 mod 65536)).

Fixpoint decimal_digits (fuel : nat) (n : Z) (acc : list Z) : list Z :=
  match fuel with
  | O => acc
  | S fuel' =>
      let acc' := (48 + n mod 10) :: acc in
      if n / 10 =? 0 then acc' else decimal_digits fuel' (n / 10) acc'
  end.

Definition decimal (n : Z) : list Z :=
  if n <? 0 then 45 :: decimal_digits 40 (- n) []
  else decimal_digits 40 n [].

Definition quote (s : string) : list Z :=
  [34]
    ++ flat_map (fun c => if (c =? 34) || (c =? 92) then [92; c] else [c])
         (bytes_of_string s)
    ++ [34].

Fixpoint serialize (v : Json.value) : list Z :=
  match v with
  | Json.Null => bytes_of_string "null"
  | Json.Bool b => bytes_of_string (if b then "true" else "false")
  | Json.Num n => decimal n
  | Json.Str s => quote s
  | Json.Arr items =>
      [91]
        ++ (fix go (l : list Json.value) : list Z :=
              match l with
              | [] => []
              | x :: rest =>
                  serialize x
                    ++ match rest with [] => [] | _ => 44 :: go rest end
              end) items
        ++ [93]
  | Json.Obj members =>
      [123]
        ++ (fix go (l : list (string * Json.value)) : list Z :=
              match l with
              | [] => []
              | (k, x) :: rest =>
                  quote k ++ [58] ++ serialize x
                    ++ match rest with [] => [] | _ => 44 :: go rest end
              end) members
        ++ [125]
  end.

Definition parse_decimal (s : string) : Z :=
  fold_left
    (fun acc c => if (48 <=? c) && (c <=? 57) then acc * 10 + (c - 48) else acc)
    (bytes_of_string s) 0.

(** The bank is its bytes; the bootloader copy leaves the image bytes
    alone; there is no parser, requests are given as documents; the import
    hook is the empty one of [V2Device]. *)
#[export] Instance platform : Collaborators := {|
  Bank := list Z;
  getBlockSize := 8192;
  writeBlock := fun offset block bank => mem_write bank offset block;
  copyBootloader := fun bank => bank;
  verify := fun bank len hash =>
    String.eqb hash (checksum (mem_read bank 0 len));
  base64_decode := decode;
  serializeJson := fun doc capacity =>
    firstn (Z.to_nat capacity) (serialize doc);
  deserializeJson := fun _ => None;
  parseNumber := parse_decimal;
  importConfiguration := fun _ data => data
|}.

Definition counters0 : Counters := mkCounters 0 0 0 0 0 0 0 0 0 0.

Definition readings0 : Readings :=
  mkReadings (mkFirmwareMetadata "com.example.device" 815 "example:samd:board")
    "0123456789ABCDEF0123456789ABCDEF" None 16384 65536 196608 100000
    524288 4096 7 counters0 counters0 (fun _ => 0) "(gone)".

Definition device0 : Device :=
  V2Device_new (mkMetadata (Some "Example") (Some "Device") None None)
    None 0x1209 0xe000 1 (mkLocalSection 0 0 None).

(** A device in its first session after a cold start, token 12345. *)
Definition world0 : World :=
  mkWorld (set__boot_id 12345 device0) (mkBootData 0 BootData_magic)
    (repeat 0xff (Z.to_nat 4096)) (repeat 0xff (Z.to_nat 16384)) readings0 [].

Definition request (members : list (string * Json.value)) : Json.value :=
  Json.Obj [("com.versioduo.device", Json.Obj members)].

(** *** Requests and worlds for the runs *)

(** A final chunk at offset 0 carrying the four bytes [ABCD] and their
    checksum. *)
Definition final_chunk_good : Json.value :=
  request [("token", Json.Num 12345);
           ("method", Json.Str "writeFirmware");
           ("firmware", Json.Obj [("offset", Json.Num 0);
                                  ("data", Json.Str "QUJDRA==");
                                  ("hash", Json.Str "010a")])].

Definition final_chunk_bad : Json.value :=
  request [("method", Json.Str "writeFirmware");
           ("firmware", Json.Obj [("offset", Json.Num 8192);
                                  ("data", Json.Str "QUJDRA==");
                                  ("hash", Json.Str "ffff")])].

Definition misaligned_chunk : Json.value :=
  request [("method", Json.Str "writeFirmware");
           ("firmware", Json.Obj [("offset", Json.Num 100);
                                  ("data", Json.Str "QUJDRA==");
                                  ("hash", Json.Str "010a")])].


(** The status reply of the session 12345 as the compact writer gives it,
    byte by byte: F0 7D, the document (the token member, then the firmware
    member with its one status member), F7.  [status] is the text of the
    status member. *)
Definition status_reply (status : string) : list Z :=
  [240; 125; 123; 34; 99; 111; 109; 46; 118; 101; 114; 115; 105; 111; 100;
   117; 111; 46; 100; 101; 118; 105; 99; 101; 34; 58; 123; 34; 116; 111;
   107; 101; 110; 34; 58; 49; 50; 51; 52; 53; 44; 34; 102; 105; 114; 109;
   119; 97; 114; 101; 34; 58; 123; 34; 115; 116; 97; 116; 117; 115; 34;
   58; 34]
    ++ bytes_of_string status ++ [34; 125; 125; 125; 247].

(** A chunk whose offset does not fit 32 bits: 4294967297 is not a multiple
    of the block size. *)
Definition offset_beyond_32_bits : Json.value :=
  request [("method", Json.Str "writeFirmware");
           ("firmware", Json.Obj [("offset", Json.Num 4294967297);
                                  ("data", Json.Str "QUJDRA==")])].

(** A final chunk of a full block (8192 zero bytes, 10923 letters A in
    Base64) at the last block-aligned offset of 32 bits. *)
Definition full_block_data : string :=
  string_of_bytes (repeat 65 (Z.to_nat 10923)).

Definition wrapping_chunk : Json.value :=
  request [("method", Json.Str "writeFirmware");
           ("firmware", Json.Obj [("offset", Json.Num 0xffffe000);
                                  ("data", Json.Str full_block_data);
                                  ("hash", Json.Str "0000")])].

(** A device that stores four ports, is then asked to reboot with two, and
    restarts twice. *)
Definition stored_four : World :=
  world_of
    (handleRequest
       (request [("method", Json.Str "writeConfiguration");
                 ("configuration",
                  Json.Obj [("usb", Json.Obj [("ports", Json.Num 4)])])])
       world0).

Definition reboot_with_two : Json.value :=
  request [("token", Json.Num 12345);
           ("method", Json.Str "reboot");
           ("reboot", Json.Obj [("ports", Json.Num 2)])].

(** A device whose description holds 1100 times U+1F600 (the bytes
    F0 9F 98 80): the serialised reply document fits a message, its escaped
    form does not. *)
Definition verbose : World :=
  mkWorld
    (set__boot_id 12345
       (V2Device_new
          (mkMetadata (Some "Example") (Some "Device")
             (Some (string_of_bytes
                      (List.concat (repeat [0xf0; 0x9f; 0x98; 0x80]
                                 (Z.to_nat 1100))))) None)
          None 0x1209 0xe000 1 (mkLocalSection 0 0 None)))
    (mkBootData 0 BootData_magic) (repeat 0xff (Z.to_nat 4096))
    (repeat 0xff (Z.to_nat 16384)) readings0 [].

(** [writeConfiguration] with a name. *)
Definition name_request (n : string) : Json.value :=
  request [("method", Json.Str "writeConfiguration");
           ("configuration",
            Json.Obj [("usb", Json.Obj [("name", Json.Str n)])])].

(** The name field after the requests [l], handled one after the other
    from [world0] on. *)
Definition name_after (l : list Json.value) : list Z :=
  Configuration.name
    (_configuration
       (device
          (fold_left (fun w json => world_of (handleDocument json w)) l
             world0))).

End Reference.

(** ** Further vocabulary *)

(** The marker bits a lead byte of length [len] carries. *)
Definition leadMarker (len : Z) : Z :=
  if len =? 1 then 0
  else if len =? 2 then 0xc0
  else if len =? 3 then 0xe0
  else if len =? 4 then 0xf0
  else if len =? 5 then 0xf8
  else 0xfc.

(** The value a lead payload and its continuation bytes denote: six more
    bits per byte. *)
Definition utf8Value (lead : Z) (continuation : list Z) : Z :=
  fold_left (fun acc b => acc * 64 + (b - 0x80)) continuation lead.

(** Reading escapes back, as a JSON parser does (RFC 8259, section 7): a
    hexadecimal digit in either case; backslash, u and four of them; and the
    codepoint of one escape that is not a surrogate, or of a high surrogate
    (D800..DBFF) followed by a low one (DC00..DFFF).  Anything else is not
    the escape of a codepoint. *)
Definition unhexDigit (c : Z) : option Z :=
  if (48 <=? c) && (c <=? 57) then Some (c - 48)
  else if (97 <=? c) && (c <=? 102) then Some (c - 87)
  else if (65 <=? c) && (c <=? 70) then Some (c - 55)
  else None.

Definition unescapeU (l : list Z) : option Z :=
  match l with
  | [92; 117; a; b; c; d] =>
      match unhexDigit a, unhexDigit b, unhexDigit c, unhexDigit d with
      | Some a, Some b, Some c, Some d =>
          Some (a * 4096 + b * 256 + c * 16 + d)
      | _, _, _, _ => None
      end
  | _ => None
  end.

Definition unescape (l : list Z) : option Z :=
  if (List.length l =? 6)%nat then
    match unescapeU l with
    | Some v => if (0xd800 <=? v) && (v <=? 0xdfff) then None else Some v
    | None => None
    end
  else if (List.length l =? 12)%nat then
    match unescapeU (firstn 6 l), unescapeU (skipn 6 l) with
    | Some high, Some low =>
        if (0xd800 <=? high) && (high <=? 0xdbff)
           && (0xdc00 <=? low) && (low <=? 0xdfff)
        then Some (0x10000 + (high - 0xd800) * 1024 + (low - 0xdc00))
        else None
    | _, _ => None
    end
  else None.

(** [readSerial]: the four words of the chip's serial number, each printed
    most significant byte first with [%02X].  [memory] is the address
    space. *)
Definition hexDigitUpper (d : Z) : Z := if d <? 10 then 48 + d else 55 + d.

Definition hex2Upper (b : Z) : list Z :=
  [hexDigitUpper (b / 16 mod 16); hexDigitUpper (b mod 16)].

Definition serialWords : list Z :=
  [0x008061FC; 0x00806010; 0x00806014; 0x00806018].

Definition readSerial (memory : Z -> Z) : list Z :=
  flat_map
    (fun bytes =>
       hex2Upper (memory (bytes + 3)) ++ hex2Upper (memory (bytes + 2))
         ++ hex2Upper (memory (bytes + 1)) ++ hex2Upper (memory bytes))
    serialWords.

(** Well-formed input, item by item: a byte below 0x80, or a lead byte with
    the continuation bytes its length asks for; and what [escapeJSON] writes
    for an item. *)
Definition wellFormedItem (item : list Z) : Prop :=
  match item with
  | [] => False
  | b0 :: continuation =>
      0 <= b0 < 256
      /\ Escaper.utf8Length b0 <> -1
      /\ Z.of_nat (List.length continuation) = Escaper.utf8Length b0 - 1
      /\ Forall (fun b => 0x80 <= b <= 0xbf) continuation
  end.

Definition itemCodepoint (item : list Z) : Z :=
  match item with
  | [] => 0
  | b0 :: continuation =>
      utf8Value (b0 - leadMarker (Escaper.utf8Length b0)) continuation
  end.

Definition itemOutput (item : list Z) : list Z :=
  match item with
  | [] => []
  | b0 :: _ => if b0 <? 0x80 then [b0] else rendering (itemCodepoint item)
  end.

(** A message in the frame of the protocol: F0, the research ID 7D, a
    payload, F7. *)
Definition framed (m : list Z) : Prop :=
  exists payload,
    m = SystemExclusive :: 0x7d :: payload ++ [SystemExclusiveEnd].

(** What one request leaves in the trace: at most one message, framed; an
    activation only after a verification that matched; a verification only
    after the copy of the bootloader. *)
Definition orderly (l : list Event) : Prop :=
  (List.length (sent l) <= 1)%nat
  /\ (forall m, In m (sent l) -> framed m)
  /\ (In Secondary_activate l ->
      exists len hash, In (Secondary_verify len hash true) l)
  /\ (forall len hash ok, In (Secondary_verify len hash ok) l ->
      In Secondary_copyBootloader l).

(** A digit or one of the letters A to F. *)
Definition upperHex (c : Z) : bool :=
  ((48 <=? c) && (c <=? 57)) || ((65 <=? c) && (c <=? 70)).

(** ** Inputs of the further runs *)

Module Samples.
Import Reference.
Local Open Scope string_scope.
Local Open Scope list_scope.
Local Open Scope Z_scope.

(** The letter A, the euro sign (U+20AC), U+1F600 and the letter B. *)
Definition text_items : list (list Z) :=
  [[65]; [0xe2; 0x82; 0xac]; [0xf0; 0x9f; 0x98; 0x80]; [66]].

(** A device that registers a device-specific section of four bytes. *)
Definition sectioned : World :=
  mkWorld
    (set__boot_id 12345
       (V2Device_new (mkMetadata (Some "Example") (Some "Device") None None)
          None 0x1209 0xe000 1
          (mkLocalSection 0x1234 4 (Some [1; 2; 3; 4]))))
    (mkBootData 0 BootData_magic) (repeat 0xff (Z.to_nat 4096))
    (repeat 0xff (Z.to_nat 16384)) readings0 [].

(** A stored record that declares 41 bytes: the header, the name abc and
    the ports byte 5. *)
Definition short_record : list Z :=
  le32_bytes Configuration.magic_default ++ le32_bytes 41
    ++ bytes_of_string "abc" ++ repeat 0 29 ++ [5] ++ repeat 0xff 100.

Definition get_all : Json.value := request [("method", Json.Str "getAll")].

Definition unknown_method : Json.value :=
  request [("method", Json.Str "frobnicate")].

Definition erase : Json.value :=
  request [("method", Json.Str "eraseConfiguration")].

Definition four_ports : Json.value :=
  request [("method", Json.Str "writeConfiguration");
           ("configuration",
            Json.Obj [("usb", Json.Obj [("ports", Json.Num 4)])])].

(** A chunk at offset 8192 that is not the final one. *)
Definition middle_chunk : Json.value :=
  request [("method", Json.Str "writeFirmware");
           ("firmware", Json.Obj [("offset", Json.Num 8192);
                                  ("data", Json.Str "QUJDRA==")])].

(** The device of [stored_four] before a startup: the object as
    constructed, the EEPROM as the request left it; and the same with
    retained memory that lost its content. *)
Definition before_startup : World :=
  mkWorld device0 (mkBootData 0 BootData_magic) (eeprom stored_four)
    (secondary stored_four) readings0 [].

Definition powered_on : World :=
  mkWorld device0 (mkBootData 7 0) (eeprom stored_four)
    (secondary stored_four) readings0 [].

(** Two address spaces that agree from 0x00806000 on. *)
Definition serial_memory (a : Z) : Z := a mod 256.
Definition other_memory (a : Z) : Z :=
  if a <? 0x00806000 then 0 else a mod 256.

End Samples.

(** * Properties *)

(** ** The escaper *)

Module EscaperFacts.
Import Escaper.

Ltac split_if :=
  match goal with
  | |- context [if ?c then _ else _] => destruct c eqn:?
  end.

Lemma zlength_app {A} (a b : list A) : zlength (a ++ b) = zlength a + zlength b.
Proof. unfold zlength. rewrite length_app. lia. Qed.

Lemma zlength_nonneg {A} (a : list A) : 0 <= zlength a.
Proof. unfold zlength. lia. Qed.

Lemma zlength_escapeU v : zlength (escapeU v) = 6.
Proof. reflexivity. Qed.

Lemma utf8Length_range b : utf8Length b = -1 \/ 1 <= utf8Length b <= 6.
Proof. unfold utf8Length. repeat split_if; lia. Qed.

Lemma utf8Codepoint_range buf p :
  fst (utf8Codepoint buf p) = -1 \/ 1 <= fst (utf8Codepoint buf p) <= 6.
Proof.
  unfold utf8Codepoint.
  destruct (utf8Length_range (byte_at buf p)) as [H | H].
  - rewrite H. left. reflexivity.
  - destruct (Z.eqb_spec (utf8Length (byte_at buf p)) (-1)) as [E | E].
    + left. reflexivity.
    + destruct utf8Continue; cbn [fst]; [right; exact H | left; reflexivity].
Qed.

(** The [uint8_t] that receives the result is never negative: a failed
    decode arrives as 255. *)
Lemma len_as_uint8 buf p :
  let len := u8 (fst (utf8Codepoint buf p)) in 1 <= len <= 255.
Proof.
  cbv zeta. unfold u8.
  destruct (utf8Codepoint_range buf p) as [H | H].
  - rewrite H. change (-1 mod 256) with 255. lia.
  - rewrite Z.mod_small; lia.
Qed.

Lemma u32_small x : 0 <= x < 4294967296 -> u32 x = x.
Proof. intros H. unfold u32. apply Z.mod_small. exact H. Qed.

(** Termination of the loop: the fuel [escapeJSON] supplies is enough. *)
Lemma escapeLoop_returns uninit buf json_len size :
  json_len <= 4294967040 ->
  forall fuel i out,
    0 <= i -> Z.max 0 (json_len - i) < Z.of_nat fuel ->
    escapeLoop uninit buf json_len size fuel i out <> None.
Proof.
  intros Hlen. induction fuel as [| fuel IH]; intros i out Hi Hf.
  - lia.
  - cbn [escapeLoop].
    destruct (Z.ltb_spec i json_len) as [Hlt | Hge]; cbn [negb];
      [| discriminate].
    pose proof (len_as_uint8 buf i) as Hl. cbv zeta in Hl.
    destruct (byte_at buf i >? 127).
    + assert (Hn : u32 (u32 (i + (u8 (fst (utf8Codepoint buf i)) - 1)) + 1)
                   = i + u8 (fst (utf8Codepoint buf i))).
      { rewrite (u32_small (i + _)) by lia. rewrite u32_small by lia. lia. }
      repeat split_if; try discriminate;
        try (rewrite Hn; apply IH; lia).
      rewrite u32_small by lia. apply IH; lia.
    + split_if; [discriminate |].
      rewrite u32_small by lia. apply IH; lia.
Qed.

Lemma escapeJSON_returns uninit buf json_len size :
  0 <= json_len <= 4294967040 ->
  escapeLoop uninit buf json_len size (S (Z.to_nat json_len)) 0 []
  = Some (escapeJSON uninit buf json_len size).
Proof.
  intros H. unfold escapeJSON.
  destruct (escapeLoop uninit buf json_len size (S (Z.to_nat json_len)) 0 [])
    eqn:E; [reflexivity |].
  exfalso. revert E. apply escapeLoop_returns; lia.
Qed.

(** A result of non-zero length does not depend on the room: it is the
    whole output, never a prefix. *)
Lemma escapeLoop_grow uninit buf json_len size size' :
  size <= size' ->
  forall fuel i out e,
    escapeLoop uninit buf json_len size fuel i out = Some e ->
    esc_len e <> 0 ->
    escapeLoop uninit buf json_len size' fuel i out = Some e.
Proof.
  intros Hs. induction fuel as [| fuel IH]; intros i out e; cbn [escapeLoop].
  - discriminate.
  - destruct (negb (i <? json_len)); [tauto |].
    destruct (byte_at buf i >? 127).
    + destruct (u8 (fst (utf8Codepoint buf i)) <? 0); [apply IH |].
      destruct (_ <? 65535).
      * destruct (Z.gtb_spec (u32 (zlength out + 7)) size) as [G | G];
          [intros [= <-]; cbn; congruence |].
        destruct (Z.gtb_spec (u32 (zlength out + 7)) size'); [lia | apply IH].
      * destruct (Z.gtb_spec (u32 (zlength out + 13)) size) as [G | G];
          [intros [= <-]; cbn; congruence |].
        destruct (Z.gtb_spec (u32 (zlength out + 13)) size'); [lia | apply IH].
    + destruct (Z.geb_spec (zlength out) size) as [G | G];
        [intros [= <-]; cbn; congruence |].
      destruct (Z.geb_spec (zlength out) size'); [lia | apply IH].
Qed.

(** A result of non-zero length is the length of what was written, and
    fits. *)
Lemma escapeLoop_fits uninit buf json_len size :
  0 <= size <= 4294967282 ->
  forall fuel i out e,
    zlength out <= size ->
    escapeLoop uninit buf json_len size fuel i out = Some e ->
    esc_len e = 0 \/ (esc_len e = zlength (esc_buffer e) /\ esc_len e <= size).
Proof.
  intros Hs. induction fuel as [| fuel IH]; intros i out e Ho;
    cbn [escapeLoop].
  - discriminate.
  - pose proof (zlength_nonneg out) as Hp.
    destruct (negb (i <? json_len)).
    { intros [= <-]. right. cbn. lia. }
    destruct (byte_at buf i >? 127).
    + destruct (u8 (fst (utf8Codepoint buf i)) <? 0); [apply IH; exact Ho |].
      destruct (_ <? 65535).
      * rewrite (u32_small (zlength out + 7)) by lia.
        destruct (Z.gtb_spec (zlength out + 7) size) as [G | G];
          [intros [= <-]; left; reflexivity |].
        apply IH. rewrite zlength_app, zlength_escapeU. lia.
      * rewrite (u32_small (zlength out + 13)) by lia.
        destruct (Z.gtb_spec (zlength out + 13) size) as [G | G];
          [intros [= <-]; left; reflexivity |].
        apply IH. rewrite !zlength_app, !zlength_escapeU. lia.
    + destruct (Z.geb_spec (zlength out) size) as [G | G];
        [intros [= <-]; left; reflexivity |].
      apply IH. rewrite zlength_app. change (zlength [byte_at buf i]) with 1.
      lia.
Qed.

End EscaperFacts.

Module EscaperClaims.
Import Escaper EscaperFacts.
Local Open Scope list_scope.

Lemma hexDigit_range d :
  0 <= d < 16 -> 48 <= hexDigit d <= 57 \/ 97 <= hexDigit d <= 102.
Proof. intros H. unfold hexDigit. destruct (Z.ltb_spec d 10); lia. Qed.

(** An escape consists of a backslash, [u] and lower-case hex digits. *)
Lemma escapeU_chars v c :
  In c (escapeU v) -> c = 92 \/ c = 117 \/ 48 <= c <= 57 \/ 97 <= c <= 102.
Proof.
  unfold escapeU, hex4. cbn [In].
  pose proof (hexDigit_range (v / 4096 mod 16)).
  pose proof (hexDigit_range (v / 256 mod 16)).
  pose proof (hexDigit_range (v / 16 mod 16)).
  pose proof (hexDigit_range (v mod 16)).
  pose proof (Z.mod_pos_bound (v / 4096) 16).
  pose proof (Z.mod_pos_bound (v / 256) 16).
  pose proof (Z.mod_pos_bound (v / 16) 16).
  pose proof (Z.mod_pos_bound v 16).
  intuition lia.
Qed.

Lemma rendering_chars v c :
  In c (rendering v) -> c = 92 \/ c = 117 \/ 48 <= c <= 57 \/ 97 <= c <= 102.
Proof.
  unfold rendering. destruct (v <? 65535).
  - apply escapeU_chars.
  - intros [H | H]%in_app_or; revert H; apply escapeU_chars.
Qed.

Lemma zlength_rendering v : zlength (rendering v) = room v - 1.
Proof. unfold rendering, room. destruct (v <? 65535); reflexivity. Qed.

(** One iteration at a byte above 0x7f.  Whatever [utf8Codepoint] returns,
    an escape is written: of the decoded codepoint, or of the uninitialised
    local when nothing was decoded; the index advances by the [uint8_t]
    length, 255 after a failed decode. *)
Lemma escapeLoop_above_0x7f uninit buf json_len size fuel i out :
  0 <= i < json_len -> json_len <= 4294967040 ->
  (byte_at buf i >? 0x7f) = true ->
  escapeLoop uninit buf json_len size (S fuel) i out
  = let r := utf8Codepoint buf i in
    let codepoint := match snd r with Some c => c | None => uninit i end in
    if u32 (zlength out + room codepoint) >? size then Some (mkEscaped 0 out)
    else escapeLoop uninit buf json_len size fuel (i + u8 (fst r))
           (out ++ rendering codepoint).
Proof.
  intros Hi Hlen Hb. cbn [escapeLoop]. cbv zeta.
  destruct (Z.ltb_spec i json_len) as [_ | ?]; [| lia]. cbn [negb].
  rewrite Hb.
  pose proof (len_as_uint8 buf i) as Hl. cbv zeta in Hl.
  destruct (Z.ltb_spec (u8 (fst (utf8Codepoint buf i))) 0) as [? | _]; [lia |].
  rewrite (u32_small (i + _)) by lia. rewrite (u32_small (_ + 1)) by lia.
  replace (i + (u8 (fst (utf8Codepoint buf i)) - 1) + 1)
    with (i + u8 (fst (utf8Codepoint buf i))) by lia.
  unfold room, rendering.
  destruct (_ <? 65535); reflexivity.
Qed.

(** One iteration at a byte below 0x80: it passes through unchanged. *)
Lemma escapeLoop_below_0x80 uninit buf json_len size fuel i out :
  0 <= i < json_len -> json_len <= 4294967040 ->
  (byte_at buf i >? 0x7f) = false ->
  escapeLoop uninit buf json_len size (S fuel) i out
  = if zlength out >=? size then Some (mkEscaped 0 out)
    else escapeLoop uninit buf json_len size fuel (i + 1)
           (out ++ [byte_at buf i]).
Proof.
  intros Hi Hlen Hb. cbn [escapeLoop]. cbv zeta.
  destruct (Z.ltb_spec i json_len) as [_ | ?]; [| lia]. cbn [negb].
  rewrite Hb. rewrite u32_small by lia. reflexivity.
Qed.

(** Codepoints below 0xffff: one escape. *)
Lemma rendering_single codepoint :
  codepoint < 0xffff -> rendering codepoint = escapeU codepoint.
Proof.
  intros H. unfold rendering.
  destruct (Z.ltb_spec codepoint 65535); [reflexivity | lia].
Qed.

(** Codepoints of the supplementary planes: the UTF-16 surrogate pair. *)
Lemma rendering_pair codepoint :
  0x10000 <= codepoint <= 0x10ffff ->
  rendering codepoint
  = escapeU (Z.shiftr (codepoint - 0x10000) 10 + 0xd800)
      ++ escapeU (Z.land (codepoint - 0x10000) 0x3ff + 0xdc00).
Proof.
  intros H. unfold rendering, surrogate1, surrogate2.
  destruct (Z.ltb_spec codepoint 65535); [lia |].
  rewrite (u32_small (codepoint - 65536)) by lia.
  change 1023 with (Z.ones 10).
  rewrite Z.land_ones, Z.shiftr_div_pow2 by lia.
  change (2 ^ 10) with 1024.
  pose proof (Z.mod_pos_bound (codepoint - 65536) 1024).
  assert (0 <= (codepoint - 65536) / 1024 <= 1023).
  { split; [apply Z.div_pos; lia |].
    apply Z.lt_succ_r, Z.div_lt_upper_bound; lia. }
  unfold u16. rewrite !Z.mod_small by lia. reflexivity.
Qed.

(** C7, at the codepoint where the code and the specification part: U+FFFF, the
    bytes EF BF BF, is below 0x10000 but is written as the two escapes
    d7ff and dfff, not as the single escape ffff. *)
Theorem C7_U_FFFF_is_written_as_a_pair uninit :
  utf8Codepoint [0xef; 0xbf; 0xbf] 0 = (3, Some 0xffff)
  /\ escapeJSON uninit [0xef; 0xbf; 0xbf] 3 100
     = mkEscaped 12 (escapeU 0xd7ff ++ escapeU 0xdfff)
  /\ escapeU 0xd7ff ++ escapeU 0xdfff <> escapeU 0xffff.
Proof.
  split; [reflexivity |]. split; [reflexivity |]. discriminate.
Qed.

(** C8, at a malformed input: [A], a lone continuation byte 0x80, [B].
    The malformed byte is not skipped: an escape of the uninitialised local
    takes its place, the index jumps 255 bytes ahead, and the [B] that
    follows never reaches the output. *)
Theorem C8_malformed_byte_is_substituted uninit :
  let input := [65; 128; 66] in
  let e := escapeJSON uninit input 3 100 in
  utf8Codepoint input 1 = (-1, None)
  /\ e = mkEscaped (1 + (room (uninit 1) - 1)) (65 :: rendering (uninit 1))
  /\ ~ In 66 (esc_buffer e)
  /\ esc_buffer e <> [65; 66].
Proof.
  cbv zeta.
  assert (E : escapeJSON uninit [65; 128; 66] 3 100
              = mkEscaped (1 + (room (uninit 1) - 1))
                  (65 :: rendering (uninit 1))).
  { unfold escapeJSON. change (S (Z.to_nat 3)) with 4%nat.
    rewrite escapeLoop_below_0x80 by (reflexivity || lia).
    change (zlength [] >=? 100) with false. cbv iota.
    rewrite escapeLoop_above_0x7f by (reflexivity || lia).
    change (utf8Codepoint [65; 128; 66] (0 + 1)) with (-1, @None Z).
    cbv zeta. cbn [fst snd app]. change (0 + 1) with 1.
    change (byte_at [65; 128; 66] 0) with 65.
    change (u8 (-1)) with 255.
    assert (R : (u32 (zlength [65] + room (uninit 1)) >? 100) = false)
      by (unfold room; destruct (_ <? 65535); reflexivity).
    rewrite R. cbn [escapeLoop]. change (negb (1 + 255 <? 3)) with true.
    cbv iota. f_equal.
    change (65 :: rendering (uninit 1)) with ([65] ++ rendering (uninit 1)).
    rewrite zlength_app, zlength_rendering. reflexivity. }
  rewrite E. cbn [esc_buffer].
  split; [reflexivity |]. split; [reflexivity |]. split.
  - intros [H | H]; [lia |]. apply rendering_chars in H. lia.
  - intros H. injection H as H.
    assert (In 66 (rendering (uninit 1))) as I by (rewrite H; left; reflexivity).
    apply rendering_chars in I. lia.
Qed.

End EscaperClaims.

(** ** Replies *)

Section ReplyFacts.

Context {C : Collaborators}.
Import Escaper EscaperFacts.
Local Open Scope string_scope.
Local Open Scope list_scope.
Local Open Scope Z_scope.

Lemma events_log {A} (w : World) (l : list Event) (r : Result A) :
  trace (world_of r) = trace w ++ l -> events w r = l.
Proof.
  intros H. unfold events. rewrite H.
  rewrite skipn_app, skipn_all, Nat.sub_diag. reflexivity.
Qed.

(** [sendReply] always hands one message to the transport. *)
Lemma sendReply_sends (w : World) :
  sendReply w = Returns tt (log (SendSystemExclusive (fullStateMessage w)) w).
Proof. reflexivity. Qed.

Lemma sendFirmwareStatus_sends (status : string) (w : World) :
  sendFirmwareStatus status w
  = Returns tt
      (log (SendSystemExclusive
              (firmwareStatusMessage (_boot_id (device w)) status)) w).
Proof. reflexivity. Qed.

(** If the escaped document is longer than the room [size] it is given,
    [escapeJSON] returns 0. *)
Lemma escapeJSON_overflow uninit buf json_len size size' :
  0 <= size <= 4294967282 -> size <= size' ->
  esc_len (escapeJSON uninit buf json_len size') > size ->
  esc_len (escapeJSON uninit buf json_len size) = 0.
Proof.
  intros Hs Hle Hbig.
  destruct (Z.eq_dec (esc_len (escapeJSON uninit buf json_len size)) 0)
    as [E | E]; [exact E | exfalso].
  unfold escapeJSON in *.
  destruct (escapeLoop uninit buf json_len size _ 0 []) as [e |] eqn:L;
    [| cbn in E; congruence].
  pose proof (escapeLoop_grow uninit buf json_len size size' Hle _ _ _ _ L E)
    as L'.
  rewrite L' in Hbig.
  assert (H0 : zlength (@nil Z) <= size) by (unfold zlength; cbn; lia).
  destruct (escapeLoop_fits uninit buf json_len size Hs _ _ _ _ H0 L)
    as [Z0 | [_ F]]; [congruence | lia].
Qed.

(** C6, as the code has it.  When the escaped reply document is longer than
    the room left in the message, the escaper returns length 0, not a
    prefix of its output; [sendReply] does not look at that result and
    hands the bare frame F0 7D F7 to the transport. *)
Theorem C6_overflow_sends_the_bare_frame (w : World) (size' : Z) :
  let uninit := uninitialized (readings w) in
  let json_buffer :=
    serializeJson (replyDocument (device w) (readings w)) sysex_max_size in
  sysex_max_size - 2 <= size' ->
  esc_len (escapeJSON uninit json_buffer (zlength json_buffer) size')
  > sysex_max_size - 2 ->
  esc_len (escapeJSON uninit json_buffer (zlength json_buffer)
             (sysex_max_size - 2)) = 0
  /\ sendReply w
     = Returns tt
         (log (SendSystemExclusive [SystemExclusive; 0x7d; SystemExclusiveEnd])
            w)
  /\ sent (events w (sendReply w))
     = [[SystemExclusive; 0x7d; SystemExclusiveEnd]].
Proof.
  intros uninit json_buffer Hle Hbig.
  assert (E : esc_len (escapeJSON uninit json_buffer (zlength json_buffer)
                         (sysex_max_size - 2)) = 0).
  { apply escapeJSON_overflow with (size' := size'); try assumption.
    unfold sysex_max_size. lia. }
  assert (R : fullStateMessage w
              = [SystemExclusive; 0x7d; SystemExclusiveEnd]).
  { unfold fullStateMessage, replyMessage. fold uninit json_buffer.
    cbv zeta. rewrite E. reflexivity. }
  split; [exact E |].
  rewrite sendReply_sends, R. split; [reflexivity |].
  rewrite (events_log w
             [SendSystemExclusive [SystemExclusive; 0x7d; SystemExclusiveEnd]])
    by reflexivity.
  reflexivity.
Qed.

End ReplyFacts.

(** ** The request handler *)

Section HandlerFacts.

Context {C : Collaborators}.
Local Open Scope string_scope.
Local Open Scope list_scope.
Local Open Scope Z_scope.

Lemma eq_str_other (v : Json.value) (a b : string) :
  Json.eq_str v a = true -> a <> b -> Json.eq_str v b = false.
Proof.
  destruct v; cbn; try discriminate.
  intros ->%String.eqb_eq H. apply String.eqb_neq. exact H.
Qed.

(** A request that passes the interface and token checks reaches the
    methods. *)
Lemma accepted_dispatch (json : Json.value) (w : World) :
  accepted json w = true ->
  handleRequest json w = handleMethod (json_device_of json) w.
Proof.
  unfold accepted, handleRequest, json_device_of.
  intros [H1 H2]%andb_true_iff. rewrite H1. cbn [negb].
  unfold bind, get.
  destruct (Json.isNull _); [reflexivity |].
  cbn in H2. rewrite H2. reflexivity.
Qed.

Lemma method_writeFirmware (json : Json.value) (w : World) :
  method_is json "writeFirmware" = true ->
  handleMethod (json_device_of json) w
  = handleWriteFirmware (json_device_of json) w.
Proof.
  unfold method_is, handleMethod. intros H. cbv zeta.
  rewrite (eq_str_other _ _ "getAll" H) by discriminate.
  rewrite (eq_str_other _ _ "eraseConfiguration" H) by discriminate.
  rewrite (eq_str_other _ _ "switchChannel" H) by discriminate.
  rewrite (eq_str_other _ _ "reboot" H) by discriminate.
  rewrite (eq_str_other _ _ "writeConfiguration" H) by discriminate.
  rewrite H. reflexivity.
Qed.

Lemma trace_log e (w : World) : trace (log e w) = trace w ++ [e].
Proof. reflexivity. Qed.
Lemma trace_set_secondary b (w : World) : trace (set_secondary b w) = trace w.
Proof. reflexivity. Qed.
Lemma trace_set_device d (w : World) : trace (set_device d w) = trace w.
Proof. reflexivity. Qed.
Lemma trace_set_bootData b (w : World) : trace (set_bootData b w) = trace w.
Proof. reflexivity. Qed.
Lemma trace_set_eeprom e (w : World) : trace (set_eeprom e w) = trace w.
Proof. reflexivity. Qed.

Ltac run :=
  unfold Secondary_write, Secondary_copy, Secondary_check, Secondary_reset,
    Firmware_reset, sendFirmwareStatus, sendSystemExclusive, call,
    update_device, modify, get, bind, ret;
  cbn [world_of returned trace device secondary bootData eeprom readings
       log set_secondary set_device set_bootData set_eeprom].

Ltac traced :=
  cbn [world_of];
  repeat first [rewrite trace_log | rewrite trace_set_secondary
               | rewrite trace_set_device | rewrite trace_set_bootData
               | rewrite trace_set_eeprom];
  rewrite <- ?app_assoc; cbn [app];
  first [reflexivity | symmetry; apply app_nil_r].

Lemma as_uint_range (limit : Z) (v : Json.value) :
  0 < limit -> 0 <= Json.as_uint parseNumber limit v < limit.
Proof.
  intros H. unfold Json.as_uint. cbv zeta.
  destruct (_ && _) eqn:E; [| lia].
  apply andb_true_iff in E. destruct E as [E1 E2]. lia.
Qed.

Lemma nth_repeat_inside (x d : Z) (n i : nat) :
  (i < n)%nat -> nth i (repeat x n) d = x.
Proof.
  revert i. induction n as [| n IH]; intros [| i] H; cbn [repeat nth];
    try lia; try reflexivity. apply IH. lia.
Qed.

(** What a final chunk does, whatever the outcome of the verification. *)
Lemma final_chunk (json : Json.value) (w : World) (hash : string) :
  let firmware := Json.get (json_device_of json) "firmware" in
  let offset := as_uint32 (Json.get firmware "offset") in
  let bytes := base64_decode (Json.as_cstr (Json.get firmware "data")) in
  let block :=
    bytes ++ repeat 0xff (Z.to_nat (getBlockSize - u32 (zlength bytes))) in
  let len := u32 (offset + u32 (zlength bytes)) in
  let bank := copyBootloader (writeBlock offset block (secondary w)) in
  let status := firmwareStatusMessage (_boot_id (device w)) in
  let r := handleRequest json w in
  accepted json w = true ->
  method_is json "writeFirmware" = true ->
  Json.isObject firmware = true ->
  offset mod getBlockSize = 0 ->
  Json.as_cstr (Json.get firmware "hash") = Some hash ->
  zlength bytes <= getBlockSize ->
  returned r = negb (verify bank len hash)
  /\ events w r
     = [LED true; Secondary_writeBlock offset block; LED false;
        Secondary_copyBootloader;
        Secondary_verify len hash (verify bank len hash)]
       ++ (if verify bank len hash
           then [SendSystemExclusive (status "success");
                 FlushSystemExclusive; LED true; Delay 100;
                 Secondary_activate]
           else [SendSystemExclusive (status "hashMismatch")]).
Proof.
  intros firmware offset bytes block len bank status r Ha Hm Hf Ho Hh Hfit.
  subst r. rewrite accepted_dispatch, method_writeFirmware by assumption.
  unfold handleWriteFirmware. fold firmware. cbv zeta. rewrite Hf.
  fold offset. rewrite Ho, Z.eqb_refl. cbn [negb]. rewrite Hh.
  fold bytes.
  destruct (Z.gtb_spec (zlength bytes) getBlockSize) as [? | _]; [lia |].
  fold block. fold len.
  run. fold bank.
  destruct (verify bank len hash); run;
    (erewrite events_log by traced); split; reflexivity.
Qed.

(** A chunk whose decoded data is larger than a block does not get that
    far: the decoder writes past the end of the block buffer, before
    anything is written, verified or sent. *)
Lemma oversized_chunk_overruns (json : Json.value) (w : World) :
  let firmware := Json.get (json_device_of json) "firmware" in
  let offset := as_uint32 (Json.get firmware "offset") in
  let bytes := base64_decode (Json.as_cstr (Json.get firmware "data")) in
  accepted json w = true ->
  method_is json "writeFirmware" = true ->
  Json.isObject firmware = true ->
  offset mod getBlockSize = 0 ->
  getBlockSize < zlength bytes ->
  handleRequest json w = Overruns w.
Proof.
  intros firmware offset bytes Ha Hm Hf Ho Hbig.
  rewrite accepted_dispatch, method_writeFirmware by assumption.
  unfold handleWriteFirmware. fold firmware. cbv zeta. rewrite Hf.
  fold offset. rewrite Ho, Z.eqb_refl. cbn [negb]. fold bytes.
  destruct (Z.gtb_spec (zlength bytes) getBlockSize) as [_ | ?]; [| lia].
  reflexivity.
Qed.

(** C1.  A final chunk (one with a [hash]) that reaches the verification,
    its data fitting the block buffer: when the hash over the secondary bank
    matches, the one reply is the status document with [success] and the
    last call is the activation, from which control does not come back; when
    it does not match, the one reply is the status document with
    [hashMismatch] and the activation is not called. *)
Theorem C1_final_chunk_activates_only_on_match
  (json : Json.value) (w : World) (hash : string) :
  let firmware := Json.get (json_device_of json) "firmware" in
  let offset := as_uint32 (Json.get firmware "offset") in
  let bytes := base64_decode (Json.as_cstr (Json.get firmware "data")) in
  let block :=
    bytes ++ repeat 0xff (Z.to_nat (getBlockSize - u32 (zlength bytes))) in
  let len := u32 (offset + u32 (zlength bytes)) in
  let bank := copyBootloader (writeBlock offset block (secondary w)) in
  let reply (status : string) :=
    [0xf0; 0x7d]
      ++ serializeJson
           (Json.Obj [("com.versioduo.device",
              Json.Obj [("token", Json.Num (_boot_id (device w)));
                        ("firmware",
                         Json.Obj [("status", Json.Str status)])])])
           1024
      ++ [0xf7] in
  let r := handleRequest json w in
  accepted json w = true ->
  method_is json "writeFirmware" = true ->
  Json.isObject firmware = true ->
  offset mod getBlockSize = 0 ->
  Json.as_cstr (Json.get firmware "hash") = Some hash ->
  zlength bytes <= getBlockSize ->
  (verify bank len hash = true ->
   sent (events w r) = [reply "success"]
   /\ (exists before,
         events w r
         = before ++ [SendSystemExclusive (reply "success");
                      FlushSystemExclusive; LED true; Delay 100;
                      Secondary_activate])
   /\ returned r = false)
  /\ (verify bank len hash = false ->
      sent (events w r) = [reply "hashMismatch"]
      /\ ~ In Secondary_activate (events w r)
      /\ returned r = true).
Proof.
  intros firmware offset bytes block len bank reply r Ha Hm Hf Ho Hh Hfit.
  destruct (final_chunk json w hash Ha Hm Hf Ho Hh Hfit) as [Hr He].
  fold firmware offset bytes block len bank r in Hr, He.
  split; intros Hv; rewrite Hv in Hr, He; rewrite He.
  - split; [reflexivity |]. split; [| exact Hr].
    eexists. reflexivity.
  - split; [reflexivity |]. split; [| exact Hr].
    cbn. intuition discriminate.
Qed.

(** C10.  The length handed to the verification of a final chunk is the
    sum of the offset and the number of decoded bytes as a [uint32_t], and
    the block written at [offset] is those bytes followed by the 0xFF
    padding.  When the sum does not wrap it is the offset plus the number of
    decoded bytes, and every padding byte lies at or after the end of the
    hashed range. *)
Theorem C10_hashed_length_excludes_padding
  (json : Json.value) (w : World) (hash : string) :
  let firmware := Json.get (json_device_of json) "firmware" in
  let offset := as_uint32 (Json.get firmware "offset") in
  let bytes := base64_decode (Json.as_cstr (Json.get firmware "data")) in
  let block :=
    bytes ++ repeat 0xff (Z.to_nat (getBlockSize - u32 (zlength bytes))) in
  let len := u32 (offset + u32 (zlength bytes)) in
  let r := handleRequest json w in
  accepted json w = true ->
  method_is json "writeFirmware" = true ->
  Json.isObject firmware = true ->
  offset mod getBlockSize = 0 ->
  Json.as_cstr (Json.get firmware "hash") = Some hash ->
  zlength bytes <= getBlockSize ->
  In (Secondary_writeBlock offset block) (events w r)
  /\ (exists matches, In (Secondary_verify len hash matches) (events w r))
  /\ (forall n h matches,
        In (Secondary_verify n h matches) (events w r) -> n = len /\ h = hash)
  /\ (offset + zlength bytes < 4294967296 ->
      len = offset + zlength bytes
      /\ forall k, zlength bytes <= k < zlength block ->
           byte_at block k = 0xff /\ len <= offset + k).
Proof.
  intros firmware offset bytes block len r Ha Hm Hf Ho Hh Hfit.
  destruct (final_chunk json w hash Ha Hm Hf Ho Hh Hfit) as [_ He].
  fold firmware offset bytes block len r in He.
  rewrite He. split; [| split; [| split]].
  - cbn. auto.
  - eexists. cbn. do 4 right. left. reflexivity.
  - intros n h m H. apply in_app_or in H. destruct H as [H | H].
    + cbn in H. intuition (try discriminate); congruence.
    + destruct (verify _ _ _); cbn in H; intuition discriminate.
  - intros Hsum.
    assert (0 <= offset < 4294967296) as Hoff
      by (apply as_uint_range; reflexivity).
    pose proof (EscaperFacts.zlength_nonneg bytes) as Hb.
    assert (El : len = offset + zlength bytes).
    { unfold len. rewrite (EscaperFacts.u32_small (zlength bytes)) by lia.
      apply EscaperFacts.u32_small. lia. }
    split; [exact El |]. intros k Hk. split; [| lia].
    unfold byte_at. unfold zlength in Hk. subst block.
    rewrite length_app, repeat_length in Hk.
    rewrite app_nth2 by lia. apply nth_repeat_inside. lia.
Qed.

(** C2.  A [writeFirmware] request whose offset, as the handler reads it
    into a [uint32_t], is not a multiple of the block size: the only thing
    that happens is the reply, the status document with [invalidOffset]; no
    block is written and the secondary bank is as it was. *)
Theorem C2_misaligned_offset_is_rejected (json : Json.value) (w : World) :
  let firmware := Json.get (json_device_of json) "firmware" in
  let offset := as_uint32 (Json.get firmware "offset") in
  let reply (status : string) :=
    [0xf0; 0x7d]
      ++ serializeJson
           (Json.Obj [("com.versioduo.device",
              Json.Obj [("token", Json.Num (_boot_id (device w)));
                        ("firmware",
                         Json.Obj [("status", Json.Str status)])])])
           1024
      ++ [0xf7] in
  let r := handleRequest json w in
  accepted json w = true ->
  method_is json "writeFirmware" = true ->
  Json.isObject firmware = true ->
  offset mod getBlockSize <> 0 ->
  r = Returns tt (log (SendSystemExclusive (reply "invalidOffset")) w)
  /\ sent (events w r) = [reply "invalidOffset"]
  /\ (forall o block, ~ In (Secondary_writeBlock o block) (events w r))
  /\ secondary (world_of r) = secondary w.
Proof.
  intros firmware offset reply r Ha Hm Hf Ho.
  assert (E : r = Returns tt
                    (log (SendSystemExclusive (reply "invalidOffset")) w)).
  { subst r. rewrite accepted_dispatch, method_writeFirmware by assumption.
    unfold handleWriteFirmware. fold firmware. cbv zeta. rewrite Hf.
    fold offset. destruct (Z.eqb_spec (offset mod getBlockSize) 0); [tauto |].
    reflexivity. }
  rewrite E. rewrite (events_log w [SendSystemExclusive (reply "invalidOffset")])
    by reflexivity.
  split; [reflexivity |]. split; [reflexivity |]. split; [| reflexivity].
  intros o block [H | []]. discriminate.
Qed.

Lemma method_writeConfiguration (json : Json.value) (w : World) :
  method_is json "writeConfiguration" = true ->
  handleMethod (json_device_of json) w
  = handleWriteConfiguration (json_device_of json) w.
Proof.
  unfold method_is, handleMethod. intros H. cbv zeta.
  rewrite (eq_str_other _ _ "getAll" H) by discriminate.
  rewrite (eq_str_other _ _ "eraseConfiguration" H) by discriminate.
  rewrite (eq_str_other _ _ "switchChannel" H) by discriminate.
  rewrite (eq_str_other _ _ "reboot" H) by discriminate.
  rewrite H. reflexivity.
Qed.

Lemma method_reboot (json : Json.value) (w : World) :
  method_is json "reboot" = true ->
  handleMethod (json_device_of json) w
  = (if negb (Json.isNull
                (Json.get (Json.get (json_device_of json) "reboot") "ports"))
     then
       Resets
         (log Firmware_reboot
            (set_bootData
               (mkBootData
                  (as_uint8
                     (Json.get (Json.get (json_device_of json) "reboot")
                        "ports"))
                  (_magic (bootData w))) w))
     else Resets (log Firmware_reboot w)).
Proof.
  unfold method_is, handleMethod. intros H. cbv zeta.
  rewrite (eq_str_other _ _ "getAll" H) by discriminate.
  rewrite (eq_str_other _ _ "eraseConfiguration" H) by discriminate.
  rewrite (eq_str_other _ _ "switchChannel" H) by discriminate.
  rewrite H. destruct (negb _); reflexivity.
Qed.

Ltac innermost_case :=
  match goal with
  | |- context [if ?c then _ else _] =>
      lazymatch c with
      | context [if _ then _ else _] => fail
      | context [match _ with Some _ => _ | None => _ end] => fail
      | _ => destruct c eqn:?
      end
  | |- context [match Json.as_cstr ?v with Some _ => _ | None => _ end] =>
      destruct (Json.as_cstr v) eqn:?
  end.

Ltac run_all :=
  unfold writeConfiguration, EEPROM_store, overrun; run;
  rewrite ?sendReply_sends;
  cbn [world_of returned trace device secondary bootData eeprom readings
       log set_secondary set_device set_bootData set_eeprom
       configuration _configuration system_ports system_name _boot_id
       set__configuration set_system_name set_system_ports set_configuration
       set_ports_configured local_size local_magic local_data].

(** [writeConfiguration] always returns, and its one message is the
    full-state reply of the state it leaves. *)
Lemma handleWriteConfiguration_replies (json_device : Json.value) (w : World) :
  let r := handleWriteConfiguration json_device w in
  returned r = true /\ sent (events w r) = [fullStateMessage (world_of r)].
Proof.
  unfold handleWriteConfiguration. cbv zeta. run_all.
  repeat (innermost_case; run_all);
    (erewrite events_log by traced); split; reflexivity.
Qed.

(** A [writeFirmware] request with a firmware object and data that fits
    the block buffer is answered by one status document. *)
Lemma handleWriteFirmware_replies (json_device : Json.value) (w : World) :
  let firmware := Json.get json_device "firmware" in
  let r := handleWriteFirmware json_device w in
  Json.isObject firmware = true ->
  zlength (base64_decode (Json.as_cstr (Json.get firmware "data")))
  <= getBlockSize ->
  exists status,
    sent (events w r) = [firmwareStatusMessage (_boot_id (device w)) status].
Proof.
  intros firmware r Hf Hfit. subst r. unfold handleWriteFirmware.
  fold firmware. cbv zeta. rewrite Hf.
  destruct (negb _); run_all;
    [eexists; erewrite events_log by traced; reflexivity |].
  destruct (Z.gtb_spec (zlength (base64_decode
                                   (Json.as_cstr (Json.get firmware "data"))))
              getBlockSize) as [? | _]; [lia |].
  run_all.
  repeat (innermost_case; run_all);
    eexists; (erewrite events_log by traced); reflexivity.
Qed.

(** C4.  A request whose [token] is there (not null) and is not the token of
    this session: nothing is sent and the world is as it was.  A request
    without a [token]: the check is passed over and the method has its
    effect: [getAll] and [switchChannel] send the full-state reply,
    [eraseConfiguration] erases and resets, [reboot] resets,
    [writeConfiguration] replies with the state it leaves, [writeFirmware]
    answers with a status document. *)
Theorem C4_stale_token_is_dropped (json : Json.value) (w : World) :
  let token := Json.get (json_device_of json) "token" in
  let firmware := Json.get (json_device_of json) "firmware" in
  let reply (status : string) :=
    [0xf0; 0x7d]
      ++ serializeJson
           (Json.Obj [("com.versioduo.device",
              Json.Obj [("token", Json.Num (_boot_id (device w)));
                        ("firmware",
                         Json.Obj [("status", Json.Str status)])])])
           1024
      ++ [0xf7] in
  let r := handleRequest json w in
  (Json.isNull token = false ->
   Json.eq_uint token (_boot_id (device w)) = false ->
   handleRequest json w = Returns tt w
   /\ events w (handleRequest json w) = [])
  /\ (Json.isObject (json_device_of json) = true ->
      Json.isNull token = true ->
      (method_is json "getAll" = true ->
       r = Returns tt (log (SendSystemExclusive (fullStateMessage w)) w))
      /\ (method_is json "eraseConfiguration" = true ->
          returned r = false
          /\ events w r = [EEPROM_erase; Firmware_reboot])
      /\ (method_is json "switchChannel" = true ->
          returned r = true /\ sent (events w r) = [fullStateMessage w])
      /\ (method_is json "reboot" = true ->
          returned r = false /\ events w r = [Firmware_reboot])
      /\ (method_is json "writeConfiguration" = true ->
          returned r = true
          /\ sent (events w r) = [fullStateMessage (world_of r)])
      /\ (method_is json "writeFirmware" = true ->
          Json.isObject firmware = true ->
          zlength (base64_decode (Json.as_cstr (Json.get firmware "data")))
          <= getBlockSize ->
          exists status, sent (events w r) = [reply status])).
Proof.
  intros token firmware reply r. split.
  - intros Hn He.
    assert (E : handleRequest json w = Returns tt w).
    { unfold handleRequest. fold (json_device_of json). cbv zeta.
      destruct (Json.isObject (json_device_of json)); [| reflexivity].
      cbn [negb]. unfold bind, get. fold token. rewrite Hn, He. reflexivity. }
    split; [exact E |]. rewrite E. apply events_log. cbn.
    rewrite app_nil_r. reflexivity.
  - intros Ho Hn.
    assert (Ha : accepted json w = true).
    { unfold accepted. fold token. rewrite Ho, Hn. reflexivity. }
    subst r. rewrite (accepted_dispatch json w Ha).
    split; [| split; [| split; [| split; [| split]]]].
    + intros H. unfold method_is in H. unfold handleMethod. cbv zeta.
      rewrite H. reflexivity.
    + intros H. unfold method_is in H. unfold handleMethod. cbv zeta.
      rewrite (eq_str_other _ _ "getAll" H) by discriminate.
      rewrite H. run_all. split; [reflexivity |].
      apply events_log. traced.
    + intros H. unfold method_is in H. unfold handleMethod. cbv zeta.
      rewrite (eq_str_other _ _ "getAll" H) by discriminate.
      rewrite (eq_str_other _ _ "eraseConfiguration" H) by discriminate.
      rewrite H. run_all.
      destruct (negb _); run_all; (erewrite events_log by traced);
        split; reflexivity.
    + intros H. rewrite (method_reboot json w H).
      destruct (negb _); (erewrite events_log by traced); split; reflexivity.
    + intros H. rewrite (method_writeConfiguration json w H).
      apply handleWriteConfiguration_replies.
    + intros H Hf Hfit. rewrite (method_writeFirmware json w H).
      exact (handleWriteFirmware_replies (json_device_of json) w Hf Hfit).
Qed.

(** C5, where the code and the specification part: a name of one character.  The
    request [writeConfiguration] with [usb.name = "A"] does not store the
    name: [system.name] becomes NULL and the name field of the record is
    zeroed, as for an empty name; the record is then written to the EEPROM
    and the full-state reply is sent. *)
Theorem C5_name_of_one_character_is_cleared (w : World) :
  let json :=
    Json.Obj [("com.versioduo.device",
      Json.Obj [("method", Json.Str "writeConfiguration");
                ("configuration",
                 Json.Obj [("usb", Json.Obj [("name", Json.Str "A")])])])] in
  let r := handleRequest json w in
  let cleared :=
    stamped (configuration (device w))
      (mem_write (_configuration (device w)) 8 (repeat 0 32)) in
  strlen "A" = 1
  /\ returned r = true
  /\ system_name (device (world_of r)) = NameNull
  /\ _configuration (device (world_of r)) = cleared
  /\ exists rest,
       events w r
       = EEPROM_write 0 cleared
           :: rest ++ [SendSystemExclusive (fullStateMessage (world_of r))].
Proof.
  cbv zeta. split; [reflexivity |].
  rewrite accepted_dispatch by reflexivity.
  rewrite method_writeConfiguration by reflexivity.
  unfold handleWriteConfiguration, json_device_of. cbn [Json.get Json.lookup
    String.eqb Ascii.eqb Bool.eqb Json.isObject Json.as_cstr Json.isNull negb].
  change ((strlen "A" >? 1) && (strlen "A" <? 32)) with false. cbv iota.
  unfold writeConfiguration, EEPROM_store, sendReply. run.
  cbn [device configuration _configuration system_name set__configuration
       set_system_name set_device set_configuration local_size local_magic
       local_data].
  destruct (local_size (configuration (device w)) >? 0) eqn:El; run;
    cbn [device configuration _configuration system_name set__configuration
         set_system_name set_device set_configuration local_size local_magic
         local_data];
    rewrite ?El; run;
    cbn [device configuration _configuration system_name set__configuration
         set_system_name set_device set_configuration local_size local_magic
         local_data];
    fold (stamped (configuration (device w))
            (mem_write (_configuration (device w)) 8 (repeat 0 32)));
    (split; [reflexivity |]); (split; [reflexivity |]);
    (split; [reflexivity |]); eexists; (erewrite events_log by traced);
    cbn [app]; f_equal.
  - instantiate (1 := [_]). reflexivity.
  - instantiate (1 := []). reflexivity.
Qed.

End HandlerFacts.

(** ** The configuration store and the startup *)

Section StartupFacts.

Context {C : Collaborators}.
Local Open Scope string_scope.
Local Open Scope list_scope.
Local Open Scope Z_scope.

Lemma default_header_magic :
  Configuration.header_magic Configuration.default
  = Configuration.magic_default.
Proof. reflexivity. Qed.

(** The three guards of [readEEPROM]: each one leaves the object alone. *)
Lemma readEEPROM_rejects (eeprom : list Z) (d : Device) :
  Configuration.header_magic eeprom
  <> Configuration.header_magic (_configuration d)
  \/ Configuration.header_size eeprom <= Configuration.sizeof_Header
  \/ Configuration.header_size eeprom > Configuration.sizeof ->
  readEEPROM eeprom d = d.
Proof.
  intros H. unfold readEEPROM.
  destruct (Z.eqb_spec (Configuration.header_magic eeprom)
              (Configuration.header_magic (_configuration d)));
    cbn [negb]; [| reflexivity].
  destruct (Z.leb_spec (Configuration.header_size eeprom)
              Configuration.sizeof_Header); [reflexivity |].
  destruct (Z.gtb_spec (Configuration.header_size eeprom)
              Configuration.sizeof); [reflexivity |].
  lia.
Qed.

(** C3.  A stored record with a foreign magic, or a declared size that is
    not above the header size, or above the size of the structure, is not
    copied: the record, [system.name] and [system.ports.configured] of a
    newly constructed device keep the values of their initialisers. *)
Theorem C3_rejected_record_keeps_defaults (eeprom : list Z)
  (md : Metadata) (download : option string) (vid pid ports_announce : Z)
  (section : LocalSection) :
  let d0 := V2Device_new md download vid pid ports_announce section in
  Configuration.header_magic eeprom <> Configuration.magic_default
  \/ Configuration.header_size eeprom <= Configuration.sizeof_Header
  \/ Configuration.header_size eeprom > Configuration.sizeof ->
  readEEPROM eeprom d0 = d0
  /\ _configuration (readEEPROM eeprom d0) = Configuration.default
  /\ system_name (readEEPROM eeprom d0) = NameNull
  /\ configured (system_ports (readEEPROM eeprom d0)) = 1.
Proof.
  intros d0 H.
  assert (E : readEEPROM eeprom d0 = d0)
    by (apply readEEPROM_rejects; exact H).
  rewrite E. repeat split.
Qed.

Ltac readEEPROM_cases :=
  cbv beta iota zeta delta
    [readEEPROM set__configuration set_system_name set_system_ports
     set_configuration set__boot_id set__firmware_hash set_ports_configured
     set_ports_reboot _configuration configuration system_ports system_name
     local_data local_magic local_size configured announce current reboot
     metadata system_download usb_vid usb_pid _boot_id _firmware_hash];
  repeat match goal with
         | |- context [if ?c then _ else _] =>
             lazymatch c with
             | context [if _ then _ else _] => fail
             | _ => destruct c
             end
         end;
  reflexivity.

(** [readEEPROM] touches [system.ports] only in [configured]. *)
Lemma readEEPROM_system_ports (eeprom : list Z) (d : Device) :
  system_ports (readEEPROM eeprom d)
  = set_ports_configured (configured (system_ports (readEEPROM eeprom d)))
      (system_ports d).
Proof. destruct d as [md n [c a u r] dl v p [lm ls [ld |]] cfg id h]; readEEPROM_cases. Qed.

(** It does not look at the token, the hash or the other port fields. *)
Lemma readEEPROM_set__boot_id (eeprom : list Z) (id : Z) (d : Device) :
  readEEPROM eeprom (set__boot_id id d) = set__boot_id id (readEEPROM eeprom d).
Proof. destruct d as [md n [c a u r] dl v p [lm ls [ld |]] cfg id0 h]; readEEPROM_cases. Qed.

Lemma readEEPROM_set__firmware_hash (eeprom : list Z) (h : string)
  (d : Device) :
  readEEPROM eeprom (set__firmware_hash h d)
  = set__firmware_hash h (readEEPROM eeprom d).
Proof. destruct d as [md n [c a u r] dl v p [lm ls [ld |]] cfg id0 h0]; readEEPROM_cases. Qed.

Lemma readEEPROM_set_ports_reboot (eeprom : list Z) (rb : Z) (d : Device) :
  readEEPROM eeprom (set_system_ports (set_ports_reboot rb (system_ports d)) d)
  = set_system_ports
      (set_ports_reboot rb (system_ports (readEEPROM eeprom d)))
      (readEEPROM eeprom d).
Proof. destruct d as [md n [c a u r] dl v p [lm ls [ld |]] cfg id0 h0]; readEEPROM_cases. Qed.


Ltac run :=
  unfold Firmware_reset, sendSystemExclusive, call, update_device, modify,
    get, bind, ret;
  cbn [world_of returned trace device secondary bootData eeprom readings
       log set_secondary set_device set_bootData set_eeprom].

(** What a startup that is not cut short by a user-page update leaves
    behind: the retained record is cleared, the EEPROM is as it was, and the
    port fields are set from the retained override and the stored record. *)
Lemma begin_ports (s : Startup) (w : World) :
  userPage_updated s = false ->
  let r := begin s w in
  let p0 := system_ports (readEEPROM (eeprom w) (device w)) in
  let rb :=
    if n_ports (bootData w) >? 1 then n_ports (bootData w) else reboot p0 in
  let ports :=
    if rb >? 1 then rb else if configured p0 >? 1 then configured p0 else 1 in
  returned r = true
  /\ bootData (world_of r) = BootData_clear (bootData w)
  /\ eeprom (world_of r) = eeprom w
  /\ system_ports (device (world_of r))
     = mkPorts (configured p0) (announce p0)
         (if ports >? 1 then ports else current p0) rb.
Proof.
  intros Hs. cbv zeta. unfold begin. rewrite Hs. run.
  destruct (n_ports (bootData w) >? 1) eqn:Hn; run;
    rewrite ?readEEPROM_set_ports_reboot,
      ?readEEPROM_set__firmware_hash, ?readEEPROM_set__boot_id;
    repeat match goal with
           | |- context [match ?c with Some _ => _ | None => _ end] =>
               destruct c; run
           end;
    cbn [system_ports set_system_ports set__firmware_hash set__boot_id];
    destruct (system_ports (readEEPROM (eeprom w) (device w)))
      as [c a u rb0] eqn:E;
    cbn [set_ports_reboot set_ports_configured set_ports_current
         configured announce current reboot];
    try rewrite Hn;
    repeat match goal with
           | |- context [if ?c then _ else _] =>
               lazymatch c with
               | context [if _ then _ else _] => fail
               | _ => destruct c eqn:?; run
               end
           end;
    cbn [system_ports set_system_ports set__firmware_hash set__boot_id
         set_ports_reboot set_ports_configured set_ports_current
         configured announce current reboot];
    rewrite ?E; repeat split; try reflexivity; try congruence.
Qed.


(** C9.  A port count above one stashed by [reboot] is the current port
    count after the next startup, which also clears the retained record;
    after one more startup the current port count is the configured one
    read from the EEPROM (1 when nothing valid is stored). *)
Theorem C9_reboot_ports_apply_to_one_startup
  (json : Json.value) (w : World) (md : Metadata) (download : option string)
  (vid pid ports_announce : Z) (section : LocalSection)
  (s1 s2 : Startup) :
  let d0 := V2Device_new md download vid pid ports_announce section in
  let ports := Json.get (Json.get (json_device_of json) "reboot") "ports" in
  let r := handleRequest json w in
  let r1 := restart d0 s1 (world_of r) in
  let r2 := restart d0 s2 (world_of r1) in
  let persisted := configured (system_ports (readEEPROM (eeprom w) d0)) in
  accepted json w = true ->
  method_is json "reboot" = true ->
  Json.isNull ports = false ->
  as_uint8 ports > 1 ->
  _magic (bootData w) = BootData_magic ->
  userPage_updated s1 = false ->
  userPage_updated s2 = false ->
  (returned r = false
   /\ n_ports (bootData (world_of r)) = as_uint8 ports
   /\ eeprom (world_of r) = eeprom w)
  /\ (returned r1 = true
      /\ current (system_ports (device (world_of r1))) = as_uint8 ports
      /\ n_ports (bootData (world_of r1)) = 0)
  /\ (returned r2 = true
      /\ current (system_ports (device (world_of r2))) = persisted
      /\ configured (system_ports (device (world_of r2))) = persisted
      /\ n_ports (bootData (world_of r2)) = 0).
Proof.
  intros d0 ports r r1 r2 persisted Ha Hm Hn Hp Hmagic Hs1 Hs2.
  assert (Er : r = Resets
                     (log Firmware_reboot
                        (set_bootData
                           (mkBootData (as_uint8 ports) (_magic (bootData w)))
                           w))).
  { subst r. rewrite accepted_dispatch, method_reboot by assumption.
    fold ports. rewrite Hn. reflexivity. }
  assert (Hd0 : system_ports (readEEPROM (eeprom w) d0)
                = mkPorts persisted ports_announce 1 0).
  { rewrite readEEPROM_system_ports. reflexivity. }
  split.
  { rewrite Er. repeat split. }
  pose proof (begin_ports s1
                (mkWorld d0 (BootData_new (bootData (world_of r)))
                   (eeprom (world_of r)) (secondary (world_of r))
                   (readings (world_of r)) (trace (world_of r))) Hs1)
    as B1.
  cbv zeta in B1. fold (restart d0 s1 (world_of r)) in B1. fold r1 in B1.
  cbn [eeprom bootData device] in B1.
  assert (Eb : BootData_new (bootData (world_of r))
               = mkBootData (as_uint8 ports) BootData_magic).
  { rewrite Er. cbn. unfold BootData_new. cbn. rewrite Hmagic.
    rewrite Z.eqb_refl. reflexivity. }
  assert (Ee : eeprom (world_of r) = eeprom w) by (rewrite Er; reflexivity).
  rewrite Eb, Ee, Hd0 in B1. cbn [n_ports configured announce current reboot]
    in B1.
  assert (Hgt : (as_uint8 ports >? 1) = true) by (apply Z.gtb_lt; lia).
  rewrite !Hgt in B1.
  destruct B1 as (R1 & D1 & E1 & P1).
  split.
  { rewrite P1, D1. repeat split; assumption || reflexivity. }
  pose proof (begin_ports s2
                (mkWorld d0 (BootData_new (bootData (world_of r1)))
                   (eeprom (world_of r1)) (secondary (world_of r1))
                   (readings (world_of r1)) (trace (world_of r1))) Hs2)
    as B2.
  cbv zeta in B2. fold (restart d0 s2 (world_of r1)) in B2. fold r2 in B2.
  cbn [eeprom bootData device] in B2.
  rewrite D1, E1, Hd0 in B2.
  change (BootData_new
            (BootData_clear (mkBootData (as_uint8 ports) BootData_magic)))
    with (mkBootData 0 BootData_magic) in B2.
  cbn [n_ports configured announce current reboot] in B2.
  destruct B2 as (R2 & D2 & _ & P2).
  rewrite P2, D2. cbn [configured current n_ports BootData_clear].
  do 2 (change (0 >? 1) with false; cbv iota).
  repeat split; try assumption; try reflexivity.
  destruct (Z.gtb_spec persisted 1) as [G | G].
  - destruct (Z.gtb_spec persisted 1); [reflexivity | lia].
  - change (1 >? 1) with false. cbv iota.
    (* nothing above one is stored: the configured count is the default *)
    revert G. subst persisted.
    unfold readEEPROM, d0, V2Device_new.
    cbv beta iota zeta delta
      [set__configuration set_system_name set_system_ports
       set_configuration set_ports_configured _configuration configuration
       system_ports system_name local_data configured].
    repeat match goal with
           | |- context [if ?c then _ else _] =>
               lazymatch c with
               | context [if _ then _ else _] => fail
               | _ => destruct c eqn:?
               end
           | |- context [match ?c with Some _ => _ | None => _ end] =>
               destruct c
           end; intros; try reflexivity; lia.
Qed.

End StartupFacts.

(** ** The name field *)

Section NameFacts.

Context {C : Collaborators}.
Local Open Scope string_scope.
Local Open Scope list_scope.
Local Open Scope Z_scope.

Lemma c_str_nonzero (mem : list Z) (b : Z) : In b (c_str mem) -> b <> 0.
Proof.
  induction mem as [| x mem IH]; cbn; [tauto |].
  destruct (Z.eqb_spec x 0); cbn; [tauto |].
  intros [<- | H]; [assumption | apply IH; exact H].
Qed.

(** A C string is read up to its terminator, whatever follows. *)
Lemma c_str_terminated (a rest : list Z) :
  (forall b, In b a -> b <> 0) -> c_str (a ++ 0 :: rest) = a.
Proof.
  induction a as [| x a IH]; intros H; cbn; [reflexivity |].
  destruct (Z.eqb_spec x 0) as [E | _].
  - exfalso. apply (H x); [left; reflexivity | exact E].
  - f_equal. apply IH. intros b Hb. apply H. right. exact Hb.
Qed.

Lemma length_mem_write (dst : list Z) (off : Z) (src : list Z) :
  (Z.to_nat off + List.length src <= List.length dst)%nat ->
  List.length (mem_write dst off src) = List.length dst.
Proof.
  intros H. unfold mem_write.
  rewrite !length_app, length_firstn, length_skipn. lia.
Qed.

(** A write that ends before offset 8 leaves the bytes from 8 on alone. *)
Lemma skipn_8_mem_write_before (dst : list Z) (off : Z) (src : list Z) :
  (Z.to_nat off + List.length src = 8)%nat ->
  (8 <= List.length dst)%nat ->
  skipn 8 (mem_write dst off src) = skipn 8 dst.
Proof.
  intros H Hd. unfold mem_write. rewrite app_assoc.
  rewrite skipn_app.
  rewrite (skipn_all2 (n := 8)) by (rewrite length_app, length_firstn; lia).
  rewrite length_app, length_firstn.
  replace (8 - (Nat.min (Z.to_nat off) (List.length dst) + List.length src))%nat
    with 0%nat by lia.
  rewrite H. reflexivity.
Qed.

(** A write that starts after a prefix of the bytes from 8 on keeps that
    prefix. *)
Lemma skipn_8_mem_write_after (dst : list Z) (off : Z) (src prefix tail : list Z) :
  skipn 8 dst = prefix ++ tail ->
  (8 + List.length prefix <= Z.to_nat off)%nat ->
  (Z.to_nat off <= List.length dst)%nat ->
  exists tail', skipn 8 (mem_write dst off src) = prefix ++ tail'.
Proof.
  intros Hp Ho Hd. unfold mem_write.
  rewrite skipn_app, length_firstn.
  replace (8 - Nat.min (Z.to_nat off) (List.length dst))%nat with 0%nat by lia.
  rewrite skipn_O, skipn_firstn_comm, Hp.
  rewrite firstn_app.
  rewrite firstn_all2 by lia.
  rewrite <- app_assoc. eexists. reflexivity.
Qed.

(** [strcpy(_configuration.name, n)], then the stamping of
    [writeConfiguration()]: the name field reads back as [n]. *)
Lemma name_after_strcpy (section : LocalSection) (c : list Z) (n : string) :
  List.length c = 52%nat ->
  strlen n < 32 ->
  Configuration.name
    (stamped section (mem_write c 8 (c_str (bytes_of_string n) ++ [0])))
  = c_str (bytes_of_string n).
Proof.
  intros Hc Hn. unfold strlen, zlength in Hn.
  set (N := c_str (bytes_of_string n)) in *.
  assert (HN : (List.length (N ++ [0%Z]) <= 32)%nat)
    by (rewrite length_app; cbn; lia).
  set (c1 := mem_write c 8 (N ++ [0])).
  assert (L1 : List.length c1 = 52%nat).
  { unfold c1. rewrite length_mem_write; [exact Hc |].
    change (Z.to_nat 8) with 8%nat. lia. }
  assert (S1 : exists t, skipn 8 c1 = (N ++ [0]) ++ t).
  { unfold c1, mem_write. change (Z.to_nat 8) with 8%nat.
    rewrite skipn_app, length_firstn, Nat.min_l, Nat.sub_diag by lia.
    rewrite skipn_all2 by (rewrite length_firstn; lia).
    cbn [skipn app]. eexists. reflexivity. }
  destruct S1 as [t1 S1].
  unfold stamped, Configuration.name.
  unfold Configuration.set_local_size, Configuration.set_local_magic,
    Configuration.set_header_size.
  set (c2 := mem_write c1 4 (le32_bytes Configuration.sizeof)).
  assert (L2 : List.length c2 = 52%nat).
  { unfold c2. rewrite length_mem_write; [exact L1 |].
    rewrite L1. change (Z.to_nat 4) with 4%nat.
    change (List.length (le32_bytes Configuration.sizeof)) with 4%nat. lia. }
  assert (S2 : skipn 8 c2 = (N ++ [0]) ++ t1).
  { unfold c2. rewrite skipn_8_mem_write_before; [exact S1 | reflexivity | lia]. }
  set (c3 := mem_write c2 44 (le32_bytes (local_magic section))).
  assert (L3 : List.length c3 = 52%nat).
  { unfold c3. rewrite length_mem_write; [exact L2 |].
    rewrite L2. change (Z.to_nat 44) with 44%nat.
    change (List.length (le32_bytes (local_magic section))) with 4%nat.
    lia. }
  destruct (skipn_8_mem_write_after c2 44
              (le32_bytes (local_magic section)) _ _ S2) as [t3 S3];
    [change (Z.to_nat 44) with 44%nat; lia
    | change (Z.to_nat 44) with 44%nat; lia |].
  fold c3 in S3.
  destruct (skipn_8_mem_write_after c3 48
              (le32_bytes (local_size section)) _ _ S3) as [t4 S4];
    [change (Z.to_nat 48) with 48%nat; lia
    | change (Z.to_nat 48) with 48%nat; lia |].
  rewrite S4, <- app_assoc. cbn [app].
  apply c_str_terminated. intros b Hb. apply (c_str_nonzero _ _ Hb).
Qed.

(** A name of 2 to 31 characters is stored: [system.name] points at it and
    the name field of the record holds it. *)
Lemma name_of_2_to_31_is_stored (w : World) (n : string) :
  let json :=
    Json.Obj [("com.versioduo.device",
      Json.Obj [("method", Json.Str "writeConfiguration");
                ("configuration",
                 Json.Obj [("usb", Json.Obj [("name", Json.Str n)])])])] in
  let r := handleRequest json w in
  List.length (_configuration (device w)) = 52%nat ->
  1 < strlen n < 32 ->
  system_name (device (world_of r)) = NameOfRequest n
  /\ Configuration.name (_configuration (device (world_of r)))
     = c_str (bytes_of_string n).
Proof.
  intros json r Hc Hn. subst r json.
  rewrite accepted_dispatch by reflexivity.
  rewrite method_writeConfiguration by reflexivity.
  unfold handleWriteConfiguration, json_device_of. cbn [Json.get Json.lookup
    String.eqb Ascii.eqb Bool.eqb Json.isObject Json.as_cstr Json.isNull negb].
  destruct (Z.gtb_spec (strlen n) 1) as [_ | ?]; [| lia].
  destruct (Z.ltb_spec (strlen n) 32) as [_ | ?]; [| lia].
  cbn [andb].
  unfold writeConfiguration, EEPROM_store, sendReply.
  unfold sendSystemExclusive, call, update_device, modify, get, bind, ret.
  cbn [world_of device set_device log set_eeprom configuration _configuration
       system_name set__configuration set_system_name set_configuration
       local_size local_magic local_data].
  destruct (local_size (configuration (device w)) >? 0) eqn:El;
    cbn [world_of device set_device log set_eeprom configuration _configuration
       system_name set__configuration set_system_name set_configuration
       local_size local_magic local_data];
    rewrite ?El;
    cbn [world_of device set_device log set_eeprom configuration _configuration
       system_name set__configuration set_system_name set_configuration
       local_size local_magic local_data];
    fold (stamped (configuration (device w))
            (mem_write (_configuration (device w)) 8
               (c_str (bytes_of_string n) ++ [0])));
    (split; [reflexivity |]); apply name_after_strcpy; (exact Hc || lia).
Qed.


(** Once the handler has returned, the document the name lives in is gone:
    the record holds the name, [system.name] dangles, and what a later reply
    reports as the name is whatever is found there. *)
Lemma name_dangles_after_the_request (w : World) (n : string) :
  let json :=
    Json.Obj [("com.versioduo.device",
      Json.Obj [("method", Json.Str "writeConfiguration");
                ("configuration",
                 Json.Obj [("usb", Json.Obj [("name", Json.Str n)])])])] in
  let w' := world_of (handleDocument json w) in
  List.length (_configuration (device w)) = 52%nat ->
  1 < strlen n < 32 ->
  system_name (device w') = NameDangling
  /\ name_string (readings w') (device w')
     = Some (dangling_name (readings w'))
  /\ Configuration.name (_configuration (device w'))
     = c_str (bytes_of_string n).
Proof.
  intros json w' Hc Hn.
  destruct (name_of_2_to_31_is_stored w n Hc Hn) as [S N].
  cbv zeta in S, N. fold json in S, N.
  assert (R : returned (handleRequest json w) = true).
  { rewrite accepted_dispatch by reflexivity.
    rewrite method_writeConfiguration by reflexivity.
    apply handleWriteConfiguration_replies. }
  subst w'. unfold handleDocument, bind.
  destruct (handleRequest json w) as [[] w1 | w1 | w1]; try discriminate R.
  cbn [world_of] in S, N.
  unfold release, update_device, modify, expire. rewrite S.
  cbn [world_of device set_device readings]. unfold name_string.
  cbn [system_name set_system_name _configuration].
  split; [reflexivity |]. split; [reflexivity | exact N].
Qed.

(** [memset(_configuration.name, 0, 32)], then the stamping: the name field
    reads back empty. *)
Lemma name_after_memset (section : LocalSection) (c : list Z) :
  List.length c = 52%nat ->
  Configuration.name (stamped section (mem_write c 8 (repeat 0 32))) = [].
Proof.
  intros Hc.
  set (c1 := mem_write c 8 (repeat 0 32)).
  assert (L1 : List.length c1 = 52%nat).
  { unfold c1. rewrite length_mem_write; [exact Hc |].
    rewrite repeat_length. change (Z.to_nat 8) with 8%nat. lia. }
  assert (S1 : exists t, skipn 8 c1 = [0] ++ t).
  { unfold c1, mem_write. change (Z.to_nat 8) with 8%nat.
    rewrite skipn_app, length_firstn, Nat.min_l, Nat.sub_diag by lia.
    rewrite skipn_all2 by (rewrite length_firstn; lia).
    cbn [skipn app repeat]. eexists. reflexivity. }
  destruct S1 as [t1 S1].
  unfold stamped, Configuration.name.
  unfold Configuration.set_local_size, Configuration.set_local_magic,
    Configuration.set_header_size.
  set (c2 := mem_write c1 4 (le32_bytes Configuration.sizeof)).
  assert (L2 : List.length c2 = 52%nat).
  { unfold c2. rewrite length_mem_write; [exact L1 |].
    rewrite L1. change (Z.to_nat 4) with 4%nat.
    change (List.length (le32_bytes Configuration.sizeof)) with 4%nat. lia. }
  assert (S2 : skipn 8 c2 = [0] ++ t1).
  { unfold c2. rewrite skipn_8_mem_write_before; [exact S1 | reflexivity | lia]. }
  set (c3 := mem_write c2 44 (le32_bytes (local_magic section))).
  assert (L3 : List.length c3 = 52%nat).
  { unfold c3. rewrite length_mem_write; [exact L2 |].
    rewrite L2. change (Z.to_nat 44) with 44%nat.
    change (List.length (le32_bytes (local_magic section))) with 4%nat.
    lia. }
  destruct (skipn_8_mem_write_after c2 44
              (le32_bytes (local_magic section)) _ _ S2) as [t3 S3];
    [change (Z.to_nat 44) with 44%nat; cbn; lia
    | change (Z.to_nat 44) with 44%nat; lia |].
  fold c3 in S3.
  destruct (skipn_8_mem_write_after c3 48
              (le32_bytes (local_size section)) _ _ S3) as [t4 S4];
    [change (Z.to_nat 48) with 48%nat; cbn; lia
    | change (Z.to_nat 48) with 48%nat; lia |].
  rewrite S4. reflexivity.
Qed.

(** Any other length, the empty name included, clears the name. *)
Lemma name_of_other_length_is_cleared (w : World) (n : string) :
  let json :=
    Json.Obj [("com.versioduo.device",
      Json.Obj [("method", Json.Str "writeConfiguration");
                ("configuration",
                 Json.Obj [("usb", Json.Obj [("name", Json.Str n)])])])] in
  let r := handleRequest json w in
  List.length (_configuration (device w)) = 52%nat ->
  strlen n <= 1 \/ 32 <= strlen n ->
  system_name (device (world_of r)) = NameNull
  /\ Configuration.name (_configuration (device (world_of r))) = [].
Proof.
  intros json r Hc Hn. subst r json.
  rewrite accepted_dispatch by reflexivity.
  rewrite method_writeConfiguration by reflexivity.
  unfold handleWriteConfiguration, json_device_of. cbn [Json.get Json.lookup
    String.eqb Ascii.eqb Bool.eqb Json.isObject Json.as_cstr Json.isNull negb].
  assert (G : (strlen n >? 1) && (strlen n <? 32) = false).
  { destruct (Z.gtb_spec (strlen n) 1); [| reflexivity].
    destruct (Z.ltb_spec (strlen n) 32); [lia | reflexivity]. }
  rewrite G.
  unfold writeConfiguration, EEPROM_store, sendReply.
  unfold sendSystemExclusive, call, update_device, modify, get, bind, ret.
  cbn [world_of device set_device log set_eeprom configuration _configuration
       system_name set__configuration set_system_name set_configuration
       local_size local_magic local_data].
  destruct (local_size (configuration (device w)) >? 0) eqn:El;
    cbn [world_of device set_device log set_eeprom configuration _configuration
       system_name set__configuration set_system_name set_configuration
       local_size local_magic local_data];
    rewrite ?El;
    cbn [world_of device set_device log set_eeprom configuration _configuration
       system_name set__configuration set_system_name set_configuration
       local_size local_magic local_data];
    fold (stamped (configuration (device w))
            (mem_write (_configuration (device w)) 8 (repeat 0 32)));
    (split; [reflexivity |]); apply name_after_memset; exact Hc.
Qed.

End NameFacts.

(** ** Framing, and the stored port count *)

Section FramingAndStorage.

Context {C : Collaborators}.
Local Open Scope string_scope.
Local Open Scope list_scope.
Local Open Scope Z_scope.

(** A well-framed message whose payload parses is handled as a request;
    a short one is ignored. *)
Lemma framed_request (buffer : list Z) (len : Z) (json : Json.value) :
  24 <= len ->
  byte_at buffer 1 = 0x7d ->
  byte_at buffer 2 = 123 ->
  byte_at buffer (len - 2) = 125 ->
  deserializeJson (mem_read buffer 2 (len - 1)) = Some json ->
  handleSystemExclusive buffer len = handleDocument json.
Proof.
  intros Hl H1 H2 H3 Hj. unfold handleSystemExclusive.
  destruct (Z.ltb_spec len 24); [lia |].
  rewrite H1, H2, H3, Hj. reflexivity.
Qed.

Lemma short_message_ignored (buffer : list Z) (len : Z) (w : World) :
  len < 24 -> handleSystemExclusive buffer len w = Returns tt w.
Proof.
  intros Hl. unfold handleSystemExclusive.
  destruct (Z.ltb_spec len 24); [reflexivity | lia].
Qed.

(** The configured port count a new device reads from a stored record of
    full size: the stored byte when it is above one, the default 1
    otherwise. *)
Lemma configured_from_stored_record (eeprom : list Z)
  (md : Metadata) (download : option string) (vid pid ports_announce : Z)
  (section : LocalSection) :
  Configuration.header_magic eeprom = Configuration.magic_default ->
  Configuration.header_size eeprom = Configuration.sizeof ->
  (52 <= List.length eeprom)%nat ->
  configured
    (system_ports
       (readEEPROM eeprom
          (V2Device_new md download vid pid ports_announce section)))
  = if byte_at eeprom 40 >? 1 then byte_at eeprom 40 else 1.
Proof.
  intros Hm Hs Hl.
  assert (E : mem_write Configuration.default 0
                (mem_read eeprom 0 (Configuration.header_size eeprom))
              = firstn 52 eeprom).
  { rewrite Hs. unfold mem_write, mem_read. cbn [Z.to_nat skipn firstn app].
    change (Z.to_nat Configuration.sizeof) with 52%nat.
    rewrite length_firstn, Nat.min_l by exact Hl.
    change (skipn (Pos.to_nat 1 * 0 + 52) Configuration.default) with (@nil Z).
    apply app_nil_r. }
  assert (P : Configuration.ports (firstn 52 eeprom) = byte_at eeprom 40).
  { unfold Configuration.ports, byte_at. change (Z.to_nat 40) with 40%nat.
    rewrite nth_firstn. reflexivity. }
  unfold readEEPROM, V2Device_new. cbn [_configuration].
  rewrite default_header_magic, Hm, Z.eqb_refl, Hs. cbn [negb].
  change (Configuration.sizeof <=? Configuration.sizeof_Header) with false.
  change (Configuration.sizeof >? Configuration.sizeof) with false.
  cbv iota zeta. rewrite <- Hs, E.
  cbn [set__configuration _configuration].
  destruct (negb (byte_at (firstn 52 eeprom) 8 =? 0));
    cbn [set__configuration set_system_name set_system_ports
         set_configuration set_ports_configured _configuration configuration
         system_ports system_name metadata system_download usb_vid usb_pid
         _boot_id _firmware_hash];
    rewrite P;
    destruct (byte_at eeprom 40 >? 1);
    cbn [set__configuration set_system_name set_system_ports
         set_configuration set_ports_configured _configuration configuration
         system_ports system_name metadata system_download usb_vid usb_pid
         _boot_id _firmware_hash];
    destruct (local_data section); try reflexivity;
    repeat match goal with
           | |- context [if ?c then _ else _] => destruct c
           end; reflexivity.
Qed.

End FramingAndStorage.

(** ** The properties on the reference platform *)

Module Runs.
Import Reference.
Local Open Scope string_scope.
Local Open Scope list_scope.
Local Open Scope Z_scope.

Lemma C1_witness :
  let w := world0 in
  let r := handleRequest final_chunk_good w in
  sent (events w r) = [status_reply "success"]
  /\ (exists before,
        events w r
        = before ++ [SendSystemExclusive (status_reply "success");
                     FlushSystemExclusive; LED true; Delay 100;
                     Secondary_activate])
  /\ returned r = false.
Proof.
  refine (proj1 (C1_final_chunk_activates_only_on_match
                   final_chunk_good world0 "010a" _ _ _ _ _ _) _);
    vm_compute; (reflexivity || discriminate).
Defined.

Lemma C2_witness :
  let w := world0 in
  let r := handleRequest misaligned_chunk w in
  r = Returns tt
        (log (SendSystemExclusive (status_reply "invalidOffset")) w)
  /\ sent (events w r) = [status_reply "invalidOffset"]
  /\ (forall o block, ~ In (Secondary_writeBlock o block) (events w r))
  /\ secondary (world_of r) = secondary w.
Proof.
  refine (C2_misaligned_offset_is_rejected misaligned_chunk world0 _ _ _ _);
    vm_compute; (reflexivity || discriminate).
Defined.

(** C2 as the specification words it does not hold: the offset 4294967297
    is not a multiple of the block size, it does not fit the [uint32_t] the
    handler reads it into and reads as 0; the chunk is written at 0 and
    answered with [success]. *)
Lemma C2_offset_beyond_32_bits_is_written :
  let r := handleRequest offset_beyond_32_bits world0 in
  4294967297 mod getBlockSize <> 0
  /\ In (Secondary_writeBlock 0
           ([65; 66; 67; 68] ++ repeat 0xff (Z.to_nat 8188)))
       (events world0 r)
  /\ sent (events world0 r) = [status_reply "success"]
  /\ sent (events world0 r) <> [status_reply "invalidOffset"].
Proof.
  vm_compute. split; [discriminate |]. split; [auto |].
  split; [reflexivity | discriminate].
Defined.

Lemma C3_witness :
  let eeprom := repeat 0xff (Z.to_nat 4096) in
  let d0 :=
    V2Device_new (mkMetadata None None None None) None 0x1209 0xe000 1
      (mkLocalSection 0 0 None) in
  Configuration.header_magic eeprom = 0xffffffff
  /\ readEEPROM eeprom d0 = d0
  /\ _configuration (readEEPROM eeprom d0) = Configuration.default
  /\ system_name (readEEPROM eeprom d0) = NameNull
  /\ configured (system_ports (readEEPROM eeprom d0)) = 1.
Proof.
  split; [reflexivity |].
  refine (C3_rejected_record_keeps_defaults _ _ _ _ _ _ _ _).
  left. vm_compute. discriminate.
Defined.

(** The scenario of the specification, token 999 against the session
    token 12345; and the same request without a token. *)
Lemma C4_witness :
  let stale :=
    request [("token", Json.Num 999); ("method", Json.Str "getAll")] in
  let bare := request [("method", Json.Str "getAll")] in
  (handleRequest stale world0 = Returns tt world0
   /\ events world0 (handleRequest stale world0) = [])
  /\ handleRequest bare world0
     = Returns tt
         (log (SendSystemExclusive (fullStateMessage world0)) world0).
Proof.
  split.
  - refine (proj1 (C4_stale_token_is_dropped _ world0) _ _); reflexivity.
  - refine (proj1 (proj2 (C4_stale_token_is_dropped _ world0) _ _) _);
      reflexivity.
Defined.

Lemma C10_witness :
  let w := world0 in
  let r := handleRequest final_chunk_bad w in
  let block := [65; 66; 67; 68] ++ repeat 0xff (Z.to_nat (8192 - 4)) in
  In (Secondary_writeBlock 8192 block) (events w r)
  /\ (exists matches,
        In (Secondary_verify (8192 + 4) "ffff" matches) (events w r))
  /\ (forall n h matches,
        In (Secondary_verify n h matches) (events w r) ->
        n = 8192 + 4 /\ h = "ffff")
  /\ (8192 + 4 < 4294967296 ->
      8192 + 4 = 8192 + 4
      /\ forall k, 4 <= k < 8192 ->
           byte_at block k = 0xff /\ 8192 + 4 <= 8192 + k).
Proof.
  refine (C10_hashed_length_excludes_padding final_chunk_bad world0 "ffff"
            _ _ _ _ _ _); vm_compute; (reflexivity || discriminate).
Defined.

(** C10 as the specification words it does not hold: the sum is a
    [uint32_t].  For a full block at the offset 0xFFFFE000 the offset plus
    the number of decoded bytes is 2^32, and the length handed to the
    verification is 0. *)
Lemma C10_hashed_length_wraps :
  let r := handleRequest wrapping_chunk world0 in
  zlength (base64_decode (Some full_block_data)) = 8192
  /\ 0xffffe000 mod getBlockSize = 0
  /\ (exists matches,
        In (Secondary_verify 0 "0000" matches) (events world0 r))
  /\ (forall n h matches,
        In (Secondary_verify n h matches) (events world0 r) -> n = 0)
  /\ 0 <> 0xffffe000 + 8192.
Proof.
  cbv zeta.
  assert (L : zlength (base64_decode (Some full_block_data)) = 8192)
    by (vm_compute; reflexivity).
  assert (Ha : accepted wrapping_chunk world0 = true) by reflexivity.
  assert (Hm : method_is wrapping_chunk "writeFirmware" = true)
    by reflexivity.
  assert (Hf : Json.isObject
                 (Json.get (json_device_of wrapping_chunk) "firmware")
               = true) by reflexivity.
  assert (Ho : as_uint32
                 (Json.get
                    (Json.get (json_device_of wrapping_chunk) "firmware")
                    "offset") mod getBlockSize = 0)
    by (vm_compute; reflexivity).
  assert (Hh : Json.as_cstr
                 (Json.get
                    (Json.get (json_device_of wrapping_chunk) "firmware")
                    "hash") = Some "0000") by reflexivity.
  assert (Hfit : zlength
                   (base64_decode
                      (Json.as_cstr
                         (Json.get
                            (Json.get (json_device_of wrapping_chunk)
                               "firmware") "data"))) <= getBlockSize)
    by (vm_compute; discriminate).
  destruct (final_chunk wrapping_chunk world0 "0000" Ha Hm Hf Ho Hh Hfit)
    as [_ He].
  cbv zeta in He.
  assert (E : u32
                (as_uint32
                   (Json.get
                      (Json.get (json_device_of wrapping_chunk) "firmware")
                      "offset")
                 + u32
                     (zlength
                        (base64_decode
                           (Json.as_cstr
                              (Json.get
                                 (Json.get (json_device_of wrapping_chunk)
                                    "firmware") "data"))))) = 0)
    by (vm_compute; reflexivity).
  rewrite E in He.
  set (matches := verify _ _ _) in He. clearbody matches.
  set (block := _ ++ repeat 0xff _) in He. clearbody block.
  rewrite He.
  split; [exact L |]. split; [reflexivity |].
  clear L Ha Hm Hf Ho Hh Hfit He E.
  split; [| split].
  - exists matches. cbn [In app]. do 4 right. left. reflexivity.
  - intros n h m H. apply in_app_or in H. destruct H as [H | H].
    + cbn [In] in H.
      destruct H as [H | [H | [H | [H | [H | []]]]]];
        try discriminate H.
      injection H as <- _ _. reflexivity.
    + destruct matches; cbn [In] in H;
        repeat (destruct H as [H | H]; try discriminate H); contradiction.
  - intros H. discriminate H.
Defined.

Lemma C9_witness :
  let s1 := mkStartup false 777 "aa" in
  let s2 := mkStartup false 888 "aa" in
  let r := handleRequest reboot_with_two stored_four in
  let r1 := restart device0 s1 (world_of r) in
  let r2 := restart device0 s2 (world_of r1) in
  configured (system_ports (readEEPROM (eeprom stored_four) device0)) = 4
  /\ (returned r = false
      /\ n_ports (bootData (world_of r)) = 2
      /\ eeprom (world_of r) = eeprom stored_four)
  /\ (returned r1 = true
      /\ current (system_ports (device (world_of r1))) = 2
      /\ n_ports (bootData (world_of r1)) = 0)
  /\ (returned r2 = true
      /\ current (system_ports (device (world_of r2))) = 4
      /\ configured (system_ports (device (world_of r2))) = 4
      /\ n_ports (bootData (world_of r2)) = 0).
Proof.
  split; [vm_compute; reflexivity |].
  refine (C9_reboot_ports_apply_to_one_startup reboot_with_two stored_four
            (mkMetadata (Some "Example") (Some "Device") None None) None
            0x1209 0xe000 1 (mkLocalSection 0 0 None)
            (mkStartup false 777 "aa") (mkStartup false 888 "aa")
            _ _ _ _ _ _ _); vm_compute; reflexivity.
Defined.


(** C6 as the specification words it does not hold: the escaped reply
    document of [verbose] does not fit a message, and [getAll] still has a
    message transmitted. *)
Lemma C6_reply_is_transmitted_on_overflow :
  let json := request [("method", Json.Str "getAll")] in
  let r := handleRequest json verbose in
  let json_buffer :=
    serializeJson (replyDocument (device verbose) readings0) sysex_max_size in
  zlength json_buffer = 5369
  /\ Escaper.esc_len
       (Escaper.escapeJSON (fun _ => 0) json_buffer (zlength json_buffer)
          20000) = 14169
  /\ sent (events verbose r) = [[0xf0; 0x7d; 0xf7]]
  /\ sent (events verbose r) <> [].
Proof.
  vm_compute. split; [reflexivity |]. split; [reflexivity |].
  split; [reflexivity | discriminate].
Defined.

Lemma C6_witness :
  let uninit := uninitialized (readings verbose) in
  let json_buffer :=
    serializeJson (replyDocument (device verbose) (readings verbose))
      sysex_max_size in
  Escaper.esc_len
    (Escaper.escapeJSON uninit json_buffer (zlength json_buffer) 20000)
  = 14169
  /\ Escaper.esc_len
       (Escaper.escapeJSON uninit json_buffer (zlength json_buffer)
          (sysex_max_size - 2)) = 0
  /\ sendReply verbose
     = Returns tt
         (log (SendSystemExclusive [SystemExclusive; 0x7d; SystemExclusiveEnd])
            verbose)
  /\ sent (events verbose (sendReply verbose))
     = [[SystemExclusive; 0x7d; SystemExclusiveEnd]].
Proof.
  split; [vm_compute; reflexivity |].
  refine (C6_overflow_sends_the_bare_frame verbose 20000 _ _);
    vm_compute; (reflexivity || discriminate).
Defined.

(** Names through [writeConfiguration]: six characters are stored, one
    character or none clears what was stored. *)
Lemma names_on_the_reference_platform :
  name_after [name_request "Studio"] = bytes_of_string "Studio"
  /\ name_after [name_request "Studio"; name_request "A"] = []
  /\ name_after [name_request "Studio"; name_request ""] = []
  /\ name_after [name_request "Studio"; name_request "Ab"]
     = bytes_of_string "Ab".
Proof. vm_compute. repeat split. Qed.

End Runs.

(** * Further properties *)

Module Utf8Facts.
Import Escaper EscaperFacts.
Local Open Scope list_scope.
Local Open Scope Z_scope.

Definition bytes256 : list Z := map Z.of_nat (seq 0 256).

(** A Boolean fact checked on all 256 byte values holds of every byte. *)
Lemma for_all_bytes (P : Z -> bool) :
  forallb P bytes256 = true -> forall b, 0 <= b < 256 -> P b = true.
Proof.
  intros H b Hb. rewrite forallb_forall in H. apply H.
  unfold bytes256. apply in_map_iff. exists (Z.to_nat b).
  split; [lia |]. apply in_seq. lia.
Qed.

Lemma utf8Length_table b :
  0 <= b < 256 ->
  utf8Length b
  = if b <? 0x80 then 1 else if b <? 0xc0 then -1
    else if b <? 0xe0 then 2 else if b <? 0xf0 then 3
    else if b <? 0xf8 then 4 else if b <? 0xfc then 5
    else if b <? 0xfe then 6 else -1.
Proof.
  intros Hb. apply Z.eqb_eq. revert b Hb. apply for_all_bytes.
  vm_compute. reflexivity.
Qed.

Lemma utf8Lead_table b :
  0 <= b < 256 -> utf8Length b <> -1 ->
  utf8Lead (utf8Length b) b = b - leadMarker (utf8Length b)
  /\ 0 <= b - leadMarker (utf8Length b)
  /\ (b - leadMarker (utf8Length b) + 1) * 64 ^ (utf8Length b - 1)
     <= 2147483648.
Proof.
  intros Hb Hl.
  assert (H : (utf8Length b =? -1)
              || ((utf8Lead (utf8Length b) b =? b - leadMarker (utf8Length b))
                  && (0 <=? b - leadMarker (utf8Length b))
                  && ((b - leadMarker (utf8Length b) + 1)
                        * 64 ^ (utf8Length b - 1) <=? 2147483648)) = true).
  { revert b Hb Hl. intros b Hb _. revert b Hb. apply for_all_bytes.
    vm_compute. reflexivity. }
  apply orb_true_iff in H. destruct H as [H | H]; [apply Z.eqb_eq in H; tauto |].
  apply andb_true_iff in H. destruct H as [H H3].
  apply andb_true_iff in H. destruct H as [H1 H2].
  apply Z.eqb_eq in H1. apply Z.leb_le in H2, H3. tauto.
Qed.

Lemma continuation_table b :
  0 <= b < 256 ->
  (Z.land b 0xc0 =? 0x80) = (0x80 <=? b) && (b <=? 0xbf)
  /\ ((Z.land b 0xc0 =? 0x80) = true -> Z.land b 0x3f = b - 0x80).
Proof.
  intros Hb.
  assert (H : (Bool.eqb (Z.land b 0xc0 =? 0x80) ((0x80 <=? b) && (b <=? 0xbf)))
              && (negb (Z.land b 0xc0 =? 0x80)
                  || (Z.land b 0x3f =? b - 0x80)) = true).
  { revert b Hb. apply for_all_bytes. vm_compute. reflexivity. }
  apply andb_true_iff in H. destruct H as [H1 H2].
  apply Bool.eqb_prop in H1. split; [exact H1 |].
  intros E. rewrite E in H2. cbn in H2. apply Z.eqb_eq in H2. exact H2.
Qed.

(** Six fresh low bits: or-ing them in is adding them. *)
Lemma lor_shifted (acc y : Z) :
  0 <= acc -> 0 <= y < 64 -> Z.lor (Z.shiftl acc 6) y = acc * 64 + y.
Proof.
  intros Ha Hy.
  assert (D : Z.land (Z.shiftl acc 6) y = 0).
  { apply Z.bits_inj'. intros i Hi. rewrite Z.land_spec, Z.bits_0.
    destruct (Z.lt_ge_cases i 6) as [L | G].
    - rewrite Z.shiftl_spec_low by exact L. reflexivity.
    - rewrite <- (Z.mod_small y (2 ^ 6)) by (change (2 ^ 6) with 64; lia).
      rewrite Z.mod_pow2_bits_high by lia. apply andb_false_r. }
  rewrite <- Z.lxor_lor by exact D.
  rewrite <- Z.add_nocarry_lxor by exact D.
  rewrite Z.shiftl_mul_pow2 by lia. reflexivity.
Qed.

Lemma byte_at_app_right (pre l : list Z) (i : Z) :
  0 <= i -> byte_at (pre ++ l) (zlength pre + i) = byte_at l i.
Proof.
  intros Hi. unfold byte_at, zlength.
  rewrite app_nth2 by lia. f_equal. lia.
Qed.

(** The continuation loop on well-formed continuation bytes. *)
Lemma utf8Continue_decodes (pre : list Z) (conts : list Z) :
  forall (skipped rest : list Z) (acc : Z),
    Forall (fun b => 0x80 <= b <= 0xbf) conts ->
    0 <= acc ->
    (acc + 1) * 64 ^ Z.of_nat (List.length conts) <= 4294967296 ->
    utf8Continue (pre ++ skipped ++ conts ++ rest) (zlength pre)
      (zlength skipped) (List.length conts) acc
    = Some (utf8Value acc conts)
    /\ 0 <= utf8Value acc conts
    /\ utf8Value acc conts + 1
       <= (acc + 1) * 64 ^ Z.of_nat (List.length conts).
Proof.
  induction conts as [| b conts IH]; intros skipped rest acc Hf Ha Hb.
  - cbn. split; [reflexivity |]. lia.
  - inversion Hf as [| ? ? Hb0 Hf']; subst.
    cbn [utf8Continue List.length]. cbv zeta.
    assert (B : byte_at (pre ++ skipped ++ (b :: conts) ++ rest)
                  (zlength pre + zlength skipped) = b).
    { rewrite byte_at_app_right by apply zlength_nonneg.
      replace (zlength skipped) with (zlength skipped + 0) by lia.
      rewrite byte_at_app_right by lia. reflexivity. }
    rewrite !B.
    destruct (continuation_table b ltac:(lia)) as [T1 T2].
    assert (E : (Z.land b 192 =? 128) = true).
    { rewrite T1. apply andb_true_iff. split; apply Z.leb_le; lia. }
    rewrite E. cbn [negb]. rewrite (T2 E).
    cbn [List.length] in Hb.
    rewrite Nat2Z.inj_succ, Z.pow_succ_r in Hb by lia.
    assert (P : 0 < 64 ^ Z.of_nat (List.length conts))
      by (apply Z.pow_pos_nonneg; lia).
    assert (S6 : 0 <= Z.shiftl acc 6 < 4294967296).
    { rewrite Z.shiftl_mul_pow2 by lia. change (2 ^ 6) with 64. nia. }
    rewrite (u32_small _ S6), lor_shifted by lia.
    specialize (IH (skipped ++ [b]) rest (acc * 64 + (b - 128)) Hf').
    rewrite <- app_assoc in IH. cbn [app] in IH.
    replace (zlength (skipped ++ [b])) with (zlength skipped + 1) in IH
      by (rewrite zlength_app; reflexivity).
    destruct IH as (I1 & I2 & I3); [lia | nia |].
    change (utf8Value acc (b :: conts))
      with (utf8Value (acc * 64 + (b - 128)) conts).
    split; [exact I1 |]. split; [exact I2 |].
    rewrite Nat2Z.inj_succ, Z.pow_succ_r by lia. nia.
Qed.


(** The continuation loop stops at the first byte that is not a
    continuation byte. *)
Lemma utf8Continue_rejects (pre : list Z) (good : list Z) :
  forall (skipped rest : list Z) (bad acc : Z) (n : nat),
    Forall (fun b => 0x80 <= b <= 0xbf) good ->
    0 <= bad < 256 -> bad < 0x80 \/ 0xbf < bad ->
    (List.length good < n)%nat ->
    utf8Continue (pre ++ skipped ++ good ++ bad :: rest) (zlength pre)
      (zlength skipped) n acc = None.
Proof.
  induction good as [| b good IH]; intros skipped rest bad acc n Hf Hb Hbad Hn.
  - destruct n as [| n]; [cbn in Hn; lia |].
    cbn [utf8Continue app]. cbv zeta.
    assert (B : byte_at (pre ++ skipped ++ bad :: rest)
                  (zlength pre + zlength skipped) = bad).
    { rewrite byte_at_app_right by apply zlength_nonneg.
      replace (zlength skipped) with (zlength skipped + 0) by lia.
      rewrite byte_at_app_right by lia. reflexivity. }
    rewrite !B. destruct (continuation_table bad Hb) as [T1 _].
    rewrite T1.
    destruct (Z.leb_spec 128 bad); destruct (Z.leb_spec bad 191);
      cbn; reflexivity || lia.
  - inversion Hf as [| ? ? Hb0 Hf']; subst.
    destruct n as [| n]; [cbn in Hn; lia |].
    cbn [utf8Continue]. cbv zeta.
    assert (B : byte_at (pre ++ skipped ++ (b :: good) ++ bad :: rest)
                  (zlength pre + zlength skipped) = b).
    { rewrite byte_at_app_right by apply zlength_nonneg.
      replace (zlength skipped) with (zlength skipped + 0) by lia.
      rewrite byte_at_app_right by lia. reflexivity. }
    rewrite !B. destruct (continuation_table b ltac:(lia)) as [T1 _].
    rewrite T1.
    destruct (Z.leb_spec 128 b); [| lia]. destruct (Z.leb_spec b 191); [| lia].
    cbn [andb negb].
    specialize (IH (skipped ++ [b]) rest bad
                  (Z.lor (u32 (Z.shiftl acc 6)) (Z.land b 63)) n Hf' Hb Hbad).
    rewrite <- app_assoc in IH. cbn [app] in IH.
    replace (zlength (skipped ++ [b])) with (zlength skipped + 1) in IH
      by (rewrite zlength_app; reflexivity).
    apply IH. cbn in Hn. lia.
Qed.

Lemma utf8Codepoint_well_formed (pre rest conts : list Z) (b0 : Z) :
  0 <= b0 < 256 ->
  utf8Length b0 <> -1 ->
  Z.of_nat (List.length conts) = utf8Length b0 - 1 ->
  Forall (fun b => 0x80 <= b <= 0xbf) conts ->
  let codepoint := utf8Value (b0 - leadMarker (utf8Length b0)) conts in
  utf8Codepoint (pre ++ b0 :: conts ++ rest) (zlength pre)
  = (utf8Length b0, Some codepoint)
  /\ 0 <= codepoint < 2147483648.
Proof.
  intros Hb Hl Hn Hf codepoint.
  destruct (utf8Lead_table b0 Hb Hl) as (L1 & L2 & L3).
  unfold utf8Codepoint.
  assert (B : byte_at (pre ++ b0 :: conts ++ rest) (zlength pre) = b0).
  { replace (zlength pre) with (zlength pre + 0) by lia.
    rewrite byte_at_app_right by lia. reflexivity. }
  rewrite B. cbv zeta.
  destruct (Z.eqb_spec (utf8Length b0) (-1)); [tauto |].
  rewrite L1.
  replace (Z.to_nat (utf8Length b0 - 1)) with (List.length conts) by lia.
  rewrite <- Hn in L3.
  destruct (utf8Continue_decodes pre conts [b0] rest
              (b0 - leadMarker (utf8Length b0)) Hf L2) as (D1 & D2 & D3);
    [lia |].
  cbn [app] in D1. change (zlength [b0]) with 1 in D1.
  rewrite D1. split; [reflexivity |]. fold codepoint in D2, D3. lia.
Qed.

(** X1.  What [utf8Codepoint] rejects: a first byte that is a continuation byte
    (0x80..0xBF) or 0xFE or 0xFF, and a sequence in which a byte that should
    continue it is not in 0x80..0xBF.  It returns -1 and stores nothing. *)
Theorem utf8Codepoint_rejects_malformed
  (pre rest good : list Z) (b0 bad : Z) :
  0 <= b0 < 256 ->
  (0x80 <= b0 <= 0xbf \/ 0xfe <= b0
   -> utf8Codepoint (pre ++ b0 :: rest) (zlength pre) = (-1, None))
  /\ (Forall (fun b => 0x80 <= b <= 0xbf) good ->
      Z.of_nat (List.length good) < utf8Length b0 - 1 ->
      0 <= bad < 256 -> bad < 0x80 \/ 0xbf < bad ->
      utf8Codepoint (pre ++ b0 :: good ++ bad :: rest) (zlength pre)
      = (-1, None)).
Proof.
  intros Hb. split.
  - intros Hr. unfold utf8Codepoint.
    assert (B : byte_at (pre ++ b0 :: rest) (zlength pre) = b0).
    { replace (zlength pre) with (zlength pre + 0) by lia.
      rewrite byte_at_app_right by lia. reflexivity. }
    rewrite B. cbv zeta. rewrite (utf8Length_table b0 Hb).
    repeat match goal with
           | |- context [?x <? ?y] => destruct (Z.ltb_spec x y); try lia
           end; reflexivity.
  - intros Hf Hn Hbad Hrange. unfold utf8Codepoint.
    assert (B : byte_at (pre ++ b0 :: good ++ bad :: rest) (zlength pre) = b0).
    { replace (zlength pre) with (zlength pre + 0) by lia.
      rewrite byte_at_app_right by lia. reflexivity. }
    rewrite B. cbv zeta.
    destruct (Z.eqb_spec (utf8Length b0) (-1)); [reflexivity |].
    pose proof (utf8Continue_rejects pre good [b0] rest bad
                  (utf8Lead (utf8Length b0) b0)
                  (Z.to_nat (utf8Length b0 - 1)) Hf Hbad Hrange) as R.
    cbn [app] in R. change (zlength [b0]) with 1 in R.
    rewrite R by lia. reflexivity.
Qed.

(** X2.  A well-formed sequence: a lead byte of length [n] and [n - 1]
    continuation bytes.  [utf8Codepoint] returns [n] and stores the value
    the payload bits denote, which is below 2^31. *)
Theorem utf8Codepoint_decodes_well_formed
  (pre rest conts : list Z) (b0 : Z) :
  0 <= b0 < 256 ->
  utf8Length b0 <> -1 ->
  Z.of_nat (List.length conts) = utf8Length b0 - 1 ->
  Forall (fun b => 0x80 <= b <= 0xbf) conts ->
  let codepoint := utf8Value (b0 - leadMarker (utf8Length b0)) conts in
  utf8Codepoint (pre ++ b0 :: conts ++ rest) (zlength pre)
  = (utf8Length b0, Some codepoint)
  /\ 0 <= codepoint < 2147483648.
Proof. exact (utf8Codepoint_well_formed pre rest conts b0). Qed.

End Utf8Facts.

Module EscaperMore.
Import Escaper EscaperFacts EscaperClaims Utf8Facts.
Local Open Scope list_scope.
Local Open Scope Z_scope.

Lemma byte_at_nonneg (buf : list Z) (i : Z) :
  Forall (fun b => 0 <= b) buf -> 0 <= byte_at buf i.
Proof.
  intros H. unfold byte_at.
  destruct (nth_in_or_default (Z.to_nat i) buf 0) as [I | ->]; [| lia].
  rewrite Forall_forall in H. apply H. exact I.
Qed.

Lemma rendering_seven_bit v : Forall (fun b => 0 <= b < 0x80) (rendering v).
Proof.
  apply Forall_forall. intros c H. apply rendering_chars in H. lia.
Qed.

Lemma escapeLoop_seven_bit uninit buf json_len size :
  Forall (fun b => 0 <= b) buf ->
  forall fuel i out e,
    Forall (fun b => 0 <= b < 0x80) out ->
    escapeLoop uninit buf json_len size fuel i out = Some e ->
    Forall (fun b => 0 <= b < 0x80) (esc_buffer e).
Proof.
  intros Hbuf. induction fuel as [| fuel IH]; intros i out e Ho;
    cbn [escapeLoop]; [discriminate |].
  destruct (negb (i <? json_len)); [intros [= <-]; exact Ho |].
  destruct (Z.gtb_spec (byte_at buf i) 127) as [G | G].
  - destruct (_ <? 0); [apply IH; exact Ho |].
    destruct (_ <? 65535).
    + destruct (_ >? size); [intros [= <-]; exact Ho |].
      apply IH. apply Forall_app. split; [exact Ho |].
      apply Forall_forall. intros c H. apply escapeU_chars in H. lia.
    + destruct (_ >? size); [intros [= <-]; exact Ho |].
      apply IH. apply Forall_app. split; [exact Ho |].
      apply Forall_app. split; apply Forall_forall; intros c H;
        apply escapeU_chars in H; lia.
  - destruct (_ >=? size); [intros [= <-]; exact Ho |].
    apply IH. apply Forall_app. split; [exact Ho |].
    constructor; [| constructor].
    pose proof (byte_at_nonneg buf i Hbuf). lia.
Qed.

Lemma escapeJSON_seven_bit uninit buf json_len size :
  Forall (fun b => 0 <= b) buf ->
  Forall (fun b => 0 <= b < 0x80)
    (esc_buffer (escapeJSON uninit buf json_len size)).
Proof.
  intros Hbuf. unfold escapeJSON.
  destruct (escapeLoop uninit buf json_len size _ 0 []) as [e |] eqn:E.
  - revert E. apply escapeLoop_seven_bit; [exact Hbuf | constructor].
  - constructor.
Qed.

(** X3.  Whatever the input bytes are, well-formed or not, and whether the
    escaping succeeds or not, every byte [escapeJSON] stores is in
    0..0x7F. *)
Theorem escapeJSON_output_is_seven_bit uninit buf json_len size :
  Forall (fun b => 0 <= b) buf ->
  Forall (fun b => 0 <= b < 0x80)
    (esc_buffer (escapeJSON uninit buf json_len size)).
Proof. exact (escapeJSON_seven_bit uninit buf json_len size). Qed.

Lemma escapeLoop_within uninit buf json_len size :
  0 <= size <= 4294967282 ->
  forall fuel i out e,
    zlength out <= size ->
    escapeLoop uninit buf json_len size fuel i out = Some e ->
    zlength (esc_buffer e) <= size
    /\ (esc_len e = 0 \/ esc_len e = zlength (esc_buffer e)).
Proof.
  intros Hs. induction fuel as [| fuel IH]; intros i out e Ho;
    cbn [escapeLoop]; [discriminate |].
  pose proof (zlength_nonneg out) as Hp.
  destruct (negb (i <? json_len)).
  { intros [= <-]. cbn. split; [exact Ho | right; reflexivity]. }
  destruct (byte_at buf i >? 127).
  - destruct (u8 (fst (utf8Codepoint buf i)) <? 0); [apply IH; exact Ho |].
    destruct (_ <? 65535).
    + rewrite (u32_small (zlength out + 7)) by lia.
      destruct (Z.gtb_spec (zlength out + 7) size) as [G | G];
        [intros [= <-]; cbn; split; [exact Ho | left; reflexivity] |].
      apply IH. rewrite zlength_app, zlength_escapeU. lia.
    + rewrite (u32_small (zlength out + 13)) by lia.
      destruct (Z.gtb_spec (zlength out + 13) size) as [G | G];
        [intros [= <-]; cbn; split; [exact Ho | left; reflexivity] |].
      apply IH. rewrite !zlength_app, !zlength_escapeU. lia.
  - destruct (Z.geb_spec (zlength out) size) as [G | G];
      [intros [= <-]; cbn; split; [exact Ho | left; reflexivity] |].
    apply IH. rewrite zlength_app. change (zlength [byte_at buf i]) with 1.
    lia.
Qed.

Lemma escapeJSON_within uninit buf json_len size :
  0 <= size <= 4294967282 ->
  let e := escapeJSON uninit buf json_len size in
  zlength (esc_buffer e) <= size
  /\ esc_len e <= size
  /\ (esc_len e = 0 \/ esc_len e = zlength (esc_buffer e)).
Proof.
  intros Hs e. subst e. unfold escapeJSON.
  destruct (escapeLoop uninit buf json_len size _ 0 []) as [e |] eqn:E.
  - assert (H0 : zlength (@nil Z) <= size) by (unfold zlength; cbn; lia).
    destruct (escapeLoop_within uninit buf json_len size Hs _ _ _ _ H0 E)
      as [W [Z0 | L]]; repeat split; auto; lia.
  - cbn. unfold zlength. cbn. repeat split; auto; lia.
Qed.

(** X4.  [escapeJSON] stays inside its buffer: what it stores, and the length it
    returns, never exceed [size]; the length is that of what was stored, or
    0. *)
Theorem escapeJSON_stays_within_size uninit buf json_len size :
  0 <= size <= 4294967282 ->
  let e := escapeJSON uninit buf json_len size in
  zlength (esc_buffer e) <= size
  /\ esc_len e <= size
  /\ (esc_len e = 0 \/ esc_len e = zlength (esc_buffer e)).
Proof. exact (escapeJSON_within uninit buf json_len size). Qed.

End EscaperMore.

Module EscaperWellFormed.
Import Escaper EscaperFacts EscaperClaims Utf8Facts.
Local Open Scope list_scope.
Local Open Scope Z_scope.

Lemma item_nonempty (item : list Z) :
  wellFormedItem item -> 1 <= zlength item <= 6.
Proof.
  destruct item as [| b0 conts]; cbn; [tauto |].
  intros (Hb & Hl & Hn & _).
  destruct (utf8Length_range b0) as [? | ?]; [tauto |].
  unfold zlength. cbn [List.length]. lia.
Qed.

Lemma zlength_concat_items (items : list (list Z)) :
  Forall wellFormedItem items ->
  Z.of_nat (List.length items) <= zlength (List.concat items).
Proof.
  induction 1 as [| item items Hi _ IH]; cbn [List.concat List.length].
  - unfold zlength. cbn. lia.
  - rewrite zlength_app. pose proof (item_nonempty item Hi). lia.
Qed.

(** The loop over well-formed items. *)
Lemma escapeLoop_items uninit json_len size (items : list (list Z)) :
  json_len <= 4294967040 -> 0 <= size <= 4294967282 ->
  Forall wellFormedItem items ->
  forall (pre out : list Z) (fuel : nat),
    json_len = zlength pre + zlength (List.concat items) ->
    (List.length items < fuel)%nat ->
    zlength out + zlength (flat_map itemOutput items) < size ->
    escapeLoop uninit (pre ++ List.concat items) json_len size fuel
      (zlength pre) out
    = Some (mkEscaped (zlength (out ++ flat_map itemOutput items))
              (out ++ flat_map itemOutput items)).
Proof.
  intros Hlen Hsize Hf. induction Hf as [| item items Hi Hf IH];
    intros pre out fuel Hj Hfuel Hroom.
  - cbn [List.concat flat_map] in *. rewrite !app_nil_r.
    destruct fuel as [| fuel]; [lia |]. cbn [escapeLoop].
    change (zlength (@nil Z)) with 0 in Hj.
    destruct (Z.ltb_spec (zlength pre) json_len); [lia |]. reflexivity.
  - destruct fuel as [| fuel]; [cbn in Hfuel; lia |].
    pose proof (zlength_nonneg pre) as Hpre.
    pose proof (zlength_nonneg out) as Hout.
    pose proof (zlength_nonneg (flat_map itemOutput items)) as Hrest.
    pose proof (zlength_nonneg (List.concat items)) as Hci.
    pose proof (item_nonempty item Hi) as Hitem.
    cbn [List.concat flat_map] in *. rewrite zlength_app in Hj, Hroom.
    specialize (IH (pre ++ item) (out ++ itemOutput item) fuel).
    rewrite !zlength_app in IH.
    rewrite <- (app_assoc pre item), <- (app_assoc out (itemOutput item)) in IH.
    destruct item as [| b0 conts]; [contradiction |].
    destruct Hi as (Hb & Hl & Hn & Hc).
    assert (B : byte_at (pre ++ (b0 :: conts) ++ List.concat items)
                  (zlength pre) = b0).
    { replace (zlength pre) with (zlength pre + 0) by lia.
      rewrite byte_at_app_right by lia. reflexivity. }
    destruct (Z.ltb_spec b0 128) as [La | Ga].
    + (* a byte below 0x80 *)
      assert (N1 : utf8Length b0 = 1)
        by (rewrite (utf8Length_table b0 Hb);
            destruct (Z.ltb_spec b0 128); [reflexivity | lia]).
      rewrite N1 in Hn. destruct conts; [| cbn in Hn; lia].
      rewrite escapeLoop_below_0x80; [| lia | lia |].
      2:{ rewrite B. destruct (Z.gtb_spec b0 127); [lia | reflexivity]. }
      rewrite B.
      assert (O : itemOutput [b0] = [b0])
        by (cbn; destruct (Z.ltb_spec b0 128); [reflexivity | lia]).
      rewrite O in *. change (zlength [b0]) with 1 in *.
      destruct (Z.geb_spec (zlength out) size); [lia |].
      rewrite IH by (lia || (cbn in Hfuel; lia)).
      do 2 f_equal. rewrite !zlength_app, ?zlength_rendering.
      change (zlength [b0]) with 1. lia.
    + (* a lead byte and its continuation bytes *)
      rewrite escapeLoop_above_0x7f; [| lia | lia |].
      2:{ rewrite B. destruct (Z.gtb_spec b0 127); [reflexivity | lia]. }
      cbv zeta.
      destruct (utf8Codepoint_well_formed pre (List.concat items) conts b0
                  Hb Hl Hn Hc) as [D _].
      change (pre ++ b0 :: conts ++ List.concat items)
        with (pre ++ (b0 :: conts) ++ List.concat items) in D.
      rewrite D. cbn [fst snd].
      destruct (utf8Length_range b0) as [? | R]; [tauto |].
      unfold u8. rewrite Z.mod_small by lia.
      assert (O : itemOutput (b0 :: conts)
                  = rendering
                      (utf8Value (b0 - leadMarker (utf8Length b0)) conts))
        by (cbn; destruct (Z.ltb_spec b0 128); [lia | reflexivity]).
      rewrite O in *. rewrite zlength_rendering in Hroom, IH.
      assert (Hr : 7 <= room (utf8Value (b0 - leadMarker (utf8Length b0)) conts)
                   <= 13) by (unfold room; destruct (_ <? 65535); lia).
      rewrite u32_small by lia.
      destruct (Z.gtb_spec
                  (zlength out
                   + room (utf8Value (b0 - leadMarker (utf8Length b0)) conts))
                  size); [lia |].
      replace (zlength pre + utf8Length b0)
        with (zlength pre + zlength (b0 :: conts))
        by (unfold zlength; cbn [List.length]; lia).
      rewrite IH by (lia || (cbn in Hfuel; lia)).
      do 2 f_equal. rewrite !zlength_app, ?zlength_rendering.
      change (zlength [b0]) with 1. lia.
Qed.

(** X5.  On well-formed input [escapeJSON] is a map over the items: bytes below
    0x80 are copied, every multi-byte sequence is replaced by the escape of
    the codepoint it encodes, and the length returned is that of the result.
    The uninitialised local is not read. *)
Theorem escapeJSON_on_well_formed_input uninit (items : list (list Z)) size :
  Forall wellFormedItem items ->
  zlength (List.concat items) <= 4294967040 ->
  0 <= size <= 4294967282 ->
  zlength (flat_map itemOutput items) < size ->
  escapeJSON uninit (List.concat items) (zlength (List.concat items)) size
  = mkEscaped (zlength (flat_map itemOutput items))
      (flat_map itemOutput items).
Proof.
  intros Hf Hlen Hsize Hroom. unfold escapeJSON.
  pose proof (zlength_concat_items items Hf) as Hn.
  rewrite (escapeLoop_items uninit (zlength (List.concat items)) size items
             Hlen Hsize Hf [] []); [reflexivity | reflexivity | lia |].
  change (zlength (@nil Z)) with 0. lia.
Qed.

Lemma unhexDigit_hexDigit d :
  0 <= d < 16 -> unhexDigit (hexDigit d) = Some d.
Proof.
  intros H. unfold unhexDigit, hexDigit.
  destruct (Z.ltb_spec d 10).
  - destruct (Z.leb_spec 48 (48 + d)); [| lia].
    destruct (Z.leb_spec (48 + d) 57); [| lia].
    cbn [andb]. f_equal. lia.
  - destruct (Z.leb_spec (87 + d) 57); [lia |].
    rewrite Bool.andb_false_r.
    destruct (Z.leb_spec 97 (87 + d)); [| lia].
    destruct (Z.leb_spec (87 + d) 102); [| lia].
    cbn [andb]. f_equal. lia.
Qed.

Lemma unescapeU_escapeU v : 0 <= v < 65536 -> unescapeU (escapeU v) = Some v.
Proof.
  intros H. unfold escapeU, hex4, unescapeU.
  rewrite !unhexDigit_hexDigit by (apply Z.mod_pos_bound; lia).
  f_equal.
  pose proof (Z.div_mod v 16 ltac:(lia)).
  pose proof (Z.div_mod (v / 16) 16 ltac:(lia)).
  pose proof (Z.div_mod (v / 16 / 16) 16 ltac:(lia)).
  rewrite !Z.div_div in * by lia. change (16 * 16) with 256 in *.
  change (256 * 16) with 4096 in *.
  assert (0 <= v / 4096 < 16).
  { split; [apply Z.div_pos; lia |]. apply Z.div_lt_upper_bound; lia. }
  rewrite (Z.mod_small (v / 4096)) by lia.
  lia.
Qed.

(** X6.  What [escapeJSON] writes for a codepoint, read back as a JSON
    parser reads escapes: the codepoint itself for the codepoints below
    0xFFFF that are not surrogates (one escape) and for 0x10000..0x10FFFF
    (a high and a low surrogate); no codepoint at all for the surrogates
    D800..DFFF, written as one lone surrogate escape, and for U+FFFF,
    written as a pair whose first escape is not a high surrogate. *)
Theorem rendering_reads_back codepoint :
  (0 <= codepoint < 0xd800 \/ 0xe000 <= codepoint < 0xffff
   \/ 0x10000 <= codepoint <= 0x10ffff ->
   unescape (rendering codepoint) = Some codepoint)
  /\ (0xd800 <= codepoint <= 0xdfff \/ codepoint = 0xffff ->
      unescape (rendering codepoint) = None).
Proof.
  assert (Single : 0 <= codepoint < 0xffff ->
            unescape (rendering codepoint)
            = if (0xd800 <=? codepoint) && (codepoint <=? 0xdfff) then None
              else Some codepoint).
  { intros H. rewrite rendering_single by lia. unfold unescape.
    change (List.length (escapeU codepoint) =? 6)%nat with true. cbv iota.
    rewrite unescapeU_escapeU by lia. reflexivity. }
  split.
  - intros [H | [H | H]].
    + rewrite Single by lia.
      destruct (Z.leb_spec 0xd800 codepoint); [lia | reflexivity].
    + rewrite Single by lia.
      destruct (Z.leb_spec codepoint 0xdfff); [lia |].
      rewrite Bool.andb_false_r. reflexivity.
    + rewrite rendering_pair by exact H. unfold unescape.
      change 1023 with (Z.ones 10).
      rewrite Z.land_ones, Z.shiftr_div_pow2 by lia.
      change (2 ^ 10) with 1024.
      pose proof (Z.mod_pos_bound (codepoint - 65536) 1024 ltac:(lia)).
      assert (0 <= (codepoint - 65536) / 1024 <= 1023).
      { split; [apply Z.div_pos; lia |].
        apply Z.lt_succ_r, Z.div_lt_upper_bound; lia. }
      change (List.length (escapeU ?a ++ escapeU ?b) =? 6)%nat with false.
      change (List.length (escapeU ?a ++ escapeU ?b) =? 12)%nat with true.
      cbv iota.
      change (firstn 6 (escapeU ((codepoint - 65536) / 1024 + 55296)
                        ++ escapeU ((codepoint - 65536) mod 1024 + 56320)))
        with (escapeU ((codepoint - 65536) / 1024 + 55296)).
      change (skipn 6 (escapeU ((codepoint - 65536) / 1024 + 55296)
                       ++ escapeU ((codepoint - 65536) mod 1024 + 56320)))
        with (escapeU ((codepoint - 65536) mod 1024 + 56320)).
      rewrite !unescapeU_escapeU by lia.
      destruct (Z.leb_spec 55296 ((codepoint - 65536) / 1024 + 55296));
        [| lia].
      destruct (Z.leb_spec ((codepoint - 65536) / 1024 + 55296) 56319);
        [| lia].
      destruct (Z.leb_spec 56320 ((codepoint - 65536) mod 1024 + 56320));
        [| lia].
      destruct (Z.leb_spec ((codepoint - 65536) mod 1024 + 56320) 57343);
        [| lia].
      cbn [andb]. f_equal.
      pose proof (Z.div_mod (codepoint - 65536) 1024 ltac:(lia)). lia.
  - intros [H | ->]; [| vm_compute; reflexivity].
    rewrite Single by lia.
    destruct (Z.leb_spec 0xd800 codepoint); [| lia].
    destruct (Z.leb_spec codepoint 0xdfff); [| lia].
    reflexivity.
Qed.

End EscaperWellFormed.

(** ** Byte memory *)

Module MemoryFacts.
Local Open Scope list_scope.
Local Open Scope Z_scope.

Lemma mem_write_shape (dst : list Z) (off : Z) (src : list Z) :
  mem_write dst off src
  = firstn (Z.to_nat off) dst ++ src
      ++ skipn (Z.to_nat off + List.length src) dst.
Proof. reflexivity. Qed.

Lemma length_mem_write_within (dst : list Z) (off : Z) (src : list Z) :
  (Z.to_nat off + List.length src <= List.length dst)%nat ->
  List.length (mem_write dst off src) = List.length dst.
Proof.
  intros H. unfold mem_write.
  rewrite !length_app, length_firstn, length_skipn. lia.
Qed.

(** Reading a byte after a write: the written byte inside the written
    range, the old byte outside. *)
Lemma byte_at_mem_write (dst : list Z) (off : Z) (src : list Z) (k : Z) :
  0 <= off -> 0 <= k ->
  (Z.to_nat off + List.length src <= List.length dst)%nat ->
  byte_at (mem_write dst off src) k
  = if (off <=? k) && (k <? off + zlength src) then byte_at src (k - off)
    else byte_at dst k.
Proof.
  intros Ho Hk Hl. unfold mem_write, byte_at, zlength.
  destruct (Z.leb_spec off k) as [L | L]; cbn [andb].
  - rewrite app_nth2 by (rewrite length_firstn; lia).
    rewrite length_firstn, Nat.min_l by lia.
    destruct (Z.ltb_spec k (off + Z.of_nat (List.length src))) as [I | I].
    + rewrite app_nth1 by lia. f_equal. lia.
    + rewrite app_nth2 by lia. rewrite nth_skipn. f_equal. lia.
  - rewrite app_nth1 by (rewrite length_firstn; lia).
    rewrite nth_firstn.
    destruct (Nat.ltb_spec (Z.to_nat k) (Z.to_nat off)); [reflexivity | lia].
Qed.

Lemma byte_at_app_left (a b : list Z) (k : Z) :
  0 <= k < zlength a -> byte_at (a ++ b) k = byte_at a k.
Proof.
  intros H. unfold byte_at, zlength in *. apply app_nth1. lia.
Qed.

Lemma le32_app_left (a b : list Z) (k : Z) :
  0 <= k -> k + 4 <= zlength a -> le32 (a ++ b) k = le32 a k.
Proof.
  intros H0 H. unfold le32. rewrite !byte_at_app_left by lia. reflexivity.
Qed.

Lemma le32_le32_bytes (v : Z) :
  0 <= v < 4294967296 -> le32 (le32_bytes v) 0 = v.
Proof.
  intros H. unfold le32, le32_bytes, byte_at.
  change (Z.to_nat 0) with 0%nat.
  change (Z.to_nat (0 + 1)) with 1%nat. change (Z.to_nat (0 + 2)) with 2%nat.
  change (Z.to_nat (0 + 3)) with 3%nat. cbn [nth].
  replace (v / 65536) with (v / 256 / 256)
    by (rewrite Z.div_div by lia; reflexivity).
  replace (v / 16777216) with (v / 256 / 256 / 256)
    by (rewrite !Z.div_div by lia; reflexivity).
  pose proof (Z.div_mod v 256 ltac:(lia)).
  pose proof (Z.div_mod (v / 256) 256 ltac:(lia)).
  pose proof (Z.div_mod (v / 256 / 256) 256 ltac:(lia)).
  assert (0 <= v / 256 / 256 / 256 < 256).
  { rewrite !Z.div_div by lia. split; [apply Z.div_pos; lia |].
    apply Z.div_lt_upper_bound; lia. }
  rewrite (Z.mod_small (v / 256 / 256 / 256)) by lia. lia.
Qed.

(** A word written is the word read; a word elsewhere is untouched. *)
Lemma le32_mem_write_same (dst : list Z) (off v : Z) :
  0 <= off -> 0 <= v < 4294967296 ->
  (Z.to_nat off + 4 <= List.length dst)%nat ->
  le32 (mem_write dst off (le32_bytes v)) off = v.
Proof.
  intros Ho Hv Hl. rewrite <- (le32_le32_bytes v Hv) at 2.
  unfold le32.
  rewrite !byte_at_mem_write by (cbn [List.length le32_bytes]; lia).
  change (zlength (le32_bytes v)) with 4.
  repeat match goal with
         | |- context [(?a <=? ?b) && (?c <? ?d)] =>
             destruct (Z.leb_spec a b); destruct (Z.ltb_spec c d);
             cbn [andb]; try lia
         end.
  repeat (f_equal; try lia).
Qed.

Lemma le32_mem_write_other (dst : list Z) (off : Z) (src : list Z) (k : Z) :
  0 <= off -> 0 <= k ->
  (Z.to_nat off + List.length src <= List.length dst)%nat ->
  k + 4 <= off \/ off + zlength src <= k ->
  le32 (mem_write dst off src) k = le32 dst k.
Proof.
  intros Ho Hk Hl Hd. unfold le32.
  rewrite !byte_at_mem_write by lia.
  repeat match goal with
         | |- context [(?a <=? ?b) && (?c <? ?d)] =>
             destruct (Z.leb_spec a b); destruct (Z.ltb_spec c d);
             cbn [andb]; try lia
         end.
  all: reflexivity.
Qed.

End MemoryFacts.

(** ** The configuration store: reading back *)

Section StoreFacts.
Context {C : Collaborators}.
Import MemoryFacts.
Local Open Scope string_scope.
Local Open Scope list_scope.
Local Open Scope Z_scope.

(** [readEEPROM] past its three guards, field by field. *)
Lemma readEEPROM_accepted (eeprom : list Z) (d : Device) :
  Configuration.header_magic eeprom
  = Configuration.header_magic (_configuration d) ->
  Configuration.sizeof_Header < Configuration.header_size eeprom
  <= Configuration.sizeof ->
  let c :=
    mem_write (_configuration d) 0
      (mem_read eeprom 0 (Configuration.header_size eeprom)) in
  readEEPROM eeprom d
  = mkDevice (metadata d)
      (if byte_at c 8 =? 0 then system_name d else NameOfConfiguration)
      (if Configuration.ports c >? 1
       then set_ports_configured (Configuration.ports c) (system_ports d)
       else system_ports d)
      (system_download d) (usb_vid d) (usb_pid d)
      match local_data (configuration d) with
      | None => configuration d
      | Some data =>
          if (Configuration.local_magic eeprom =? local_magic (configuration d))
             && negb (Configuration.local_size eeprom =? 0)
             && (Configuration.local_size eeprom
                 <=? local_size (configuration d))
          then
            mkLocalSection (local_magic (configuration d))
              (local_size (configuration d))
              (Some (mem_write data 0
                       (mem_read eeprom (Configuration.header_size eeprom)
                          (Configuration.local_size eeprom))))
          else configuration d
      end
      c (_boot_id d) (_firmware_hash d).
Proof.
  intros Hm Hs c. unfold readEEPROM. rewrite Hm, Z.eqb_refl. cbn [negb].
  destruct (Z.leb_spec (Configuration.header_size eeprom)
              Configuration.sizeof_Header); [lia |].
  destruct (Z.gtb_spec (Configuration.header_size eeprom)
              Configuration.sizeof); [lia |].
  cbv zeta. fold c.
  destruct d as [md n [cf a u r] dl v p [lm ls ld] cfg id h].
  cbn [set__configuration _configuration].
  destruct (byte_at c 8 =? 0); cbn [negb];
    cbn [set__configuration set_system_name set_system_ports
         set_configuration set_ports_configured _configuration configuration
         system_ports system_name metadata system_download usb_vid usb_pid
         _boot_id _firmware_hash local_data local_magic local_size];
    destruct (Configuration.ports c >? 1);
    cbn [set__configuration set_system_name set_system_ports
         set_configuration set_ports_configured _configuration configuration
         system_ports system_name metadata system_download usb_vid usb_pid
         _boot_id _firmware_hash local_data local_magic local_size];
    destruct ld as [data |]; try reflexivity;
    destruct (Configuration.local_magic eeprom =? lm); cbn [negb andb];
    try reflexivity;
    destruct (Configuration.local_size eeprom =? 0); cbn [negb andb];
    try reflexivity;
    rewrite Z.gtb_ltb, Z.ltb_antisym;
    destruct (Configuration.local_size eeprom <=? ls); reflexivity.
Qed.


(** What [writeConfiguration()] leaves in the object and in the EEPROM. *)
Lemma writeConfiguration_result (w : World) :
  let c := stamped (configuration (device w)) (_configuration (device w)) in
  let payload :=
    mem_read
      match local_data (configuration (device w)) with
      | Some data => data
      | None => []
      end 0 (local_size (configuration (device w))) in
  let w' := world_of (writeConfiguration w) in
  returned (writeConfiguration w) = true
  /\ device w' = set__configuration c (device w)
  /\ eeprom w'
     = (if local_size (configuration (device w)) >? 0
        then mem_write (mem_write (eeprom w) 0 c) Configuration.sizeof payload
        else mem_write (eeprom w) 0 c)
  /\ bootData w' = bootData w /\ secondary w' = secondary w.
Proof.
  cbv zeta. unfold writeConfiguration, EEPROM_store, update_device, modify,
    get, bind, ret.
  cbn [world_of device set_device log set_eeprom eeprom configuration
       _configuration set__configuration].
  fold (stamped (configuration (device w)) (_configuration (device w))).
  destruct (local_size (configuration (device w)) >? 0);
    cbn [world_of returned device set_device log set_eeprom eeprom bootData
         secondary configuration _configuration set__configuration];
    repeat split.
Qed.

(** The stamped record: its length, its header and what it keeps. *)
Lemma stamped_record (section : LocalSection) (c : list Z) :
  List.length c = 52%nat ->
  0 <= local_magic section < 4294967296 ->
  0 <= local_size section < 4294967296 ->
  let c' := stamped section c in
  List.length c' = 52%nat
  /\ Configuration.header_magic c' = Configuration.header_magic c
  /\ Configuration.header_size c' = Configuration.sizeof
  /\ Configuration.local_magic c' = local_magic section
  /\ Configuration.local_size c' = local_size section
  /\ (forall k, 8 <= k < 44 -> byte_at c' k = byte_at c k).
Proof.
  intros Hc Hm Hs. cbv zeta. unfold stamped, Configuration.set_local_size,
    Configuration.set_local_magic, Configuration.set_header_size.
  set (c1 := mem_write c 4 (le32_bytes Configuration.sizeof)).
  assert (L1 : List.length c1 = 52%nat).
  { unfold c1. rewrite length_mem_write_within; [exact Hc |].
    rewrite Hc. cbn. lia. }
  set (c2 := mem_write c1 44 (le32_bytes (local_magic section))).
  assert (L2 : List.length c2 = 52%nat).
  { unfold c2. rewrite length_mem_write_within; [exact L1 |].
    rewrite L1. cbn. lia. }
  set (c3 := mem_write c2 48 (le32_bytes (local_size section))).
  assert (L3 : List.length c3 = 52%nat).
  { unfold c3. rewrite length_mem_write_within; [exact L2 |].
    rewrite L2. cbn. lia. }
  assert (W4 : forall v, (Z.to_nat 4 + List.length (le32_bytes v) <= 52)%nat)
    by (intros; cbn; lia).
  assert (W44 : forall v, (Z.to_nat 44 + List.length (le32_bytes v) <= 52)%nat)
    by (intros; cbn; lia).
  assert (W48 : forall v, (Z.to_nat 48 + List.length (le32_bytes v) <= 52)%nat)
    by (intros; cbn; lia).
  unfold Configuration.header_magic, Configuration.header_size,
    Configuration.local_magic, Configuration.local_size.
  split; [exact L3 |]. split; [| split; [| split; [| split]]].
  - unfold c3. rewrite le32_mem_write_other;
      [| lia | lia | rewrite L2; apply W48 | left; lia].
    unfold c2. rewrite le32_mem_write_other;
      [| lia | lia | rewrite L1; apply W44 | left; lia].
    unfold c1. rewrite le32_mem_write_other;
      [reflexivity | lia | lia | rewrite Hc; apply W4 | left; lia].
  - unfold c3. rewrite le32_mem_write_other;
      [| lia | lia | rewrite L2; apply W48 | left; lia].
    unfold c2. rewrite le32_mem_write_other;
      [| lia | lia | rewrite L1; apply W44 | left; lia].
    unfold c1. apply le32_mem_write_same;
      [lia | unfold Configuration.sizeof; lia | rewrite Hc; lia].
  - unfold c3. rewrite le32_mem_write_other;
      [| lia | lia | rewrite L2; apply W48 | left; lia].
    unfold c2. apply le32_mem_write_same; [lia | exact Hm | rewrite L1; lia].
  - unfold c3. apply le32_mem_write_same; [lia | exact Hs | rewrite L2; lia].
  - intros k Hk.
    unfold c3. rewrite byte_at_mem_write; [| lia | lia | rewrite L2; apply W48].
    change (zlength (le32_bytes (local_size section))) with 4.
    destruct (Z.leb_spec 48 k); [lia |]. cbn [andb].
    unfold c2. rewrite byte_at_mem_write; [| lia | lia | rewrite L1; apply W44].
    change (zlength (le32_bytes (local_magic section))) with 4.
    destruct (Z.leb_spec 44 k); [lia |]. cbn [andb].
    unfold c1. rewrite byte_at_mem_write; [| lia | lia | rewrite Hc; apply W4].
    change (zlength (le32_bytes Configuration.sizeof)) with 4.
    destruct (Z.leb_spec 4 k); [| lia]. cbn [andb].
    destruct (Z.ltb_spec k (4 + 4)); [lia | reflexivity].
Qed.


Lemma mem_read_prefix (c rest : list Z) (n : Z) :
  Z.to_nat n = List.length c -> mem_read (c ++ rest) 0 n = c.
Proof.
  intros H. unfold mem_read. change (Z.to_nat 0) with 0%nat.
  rewrite skipn_O, H, firstn_app, Nat.sub_diag, firstn_all.
  cbn [firstn]. apply app_nil_r.
Qed.

Lemma mem_write_at_0 (dst c : list Z) :
  mem_write dst 0 c = c ++ skipn (List.length c) dst.
Proof. reflexivity. Qed.

(** The EEPROM after [writeConfiguration()]: the stamped record, then the
    payload of the device-specific section, then what was there. *)
Lemma eeprom_after_write (w : World) :
  List.length (_configuration (device w)) = 52%nat ->
  0 <= local_magic (configuration (device w)) < 4294967296 ->
  0 <= local_size (configuration (device w)) < 4294967296 ->
  (52 + Z.to_nat (local_size (configuration (device w)))
   <= List.length (eeprom w))%nat ->
  let c := stamped (configuration (device w)) (_configuration (device w)) in
  let payload :=
    mem_read
      match local_data (configuration (device w)) with
      | Some data => data
      | None => []
      end 0 (local_size (configuration (device w))) in
  exists rest,
    eeprom (world_of (writeConfiguration w))
    = c ++ (if local_size (configuration (device w)) >? 0
            then payload else []) ++ rest.
Proof.
  intros Hc Hm Hs He c payload.
  destruct (writeConfiguration_result w) as (_ & _ & E & _).
  cbv zeta in E. fold c payload in E. rewrite E.
  destruct (stamped_record (configuration (device w))
              (_configuration (device w)) Hc Hm Hs) as (L & _).
  fold c in L.
  rewrite mem_write_at_0, L.
  destruct (local_size (configuration (device w)) >? 0).
  - unfold mem_write at 1. change (Z.to_nat Configuration.sizeof) with 52%nat.
    rewrite firstn_app, L, Nat.sub_diag, firstn_all2 by (rewrite L; lia).
    cbn [firstn]. rewrite app_nil_r. eexists. reflexivity.
  - cbn [app]. eexists. reflexivity.
Qed.

Lemma stored_record_is_read (w : World)
  (md : Metadata) (download : option string) (vid pid ports_announce : Z)
  (section0 : LocalSection) :
  List.length (_configuration (device w)) = 52%nat ->
  Configuration.header_magic (_configuration (device w))
  = Configuration.magic_default ->
  0 <= local_magic (configuration (device w)) < 4294967296 ->
  0 <= local_size (configuration (device w)) < 4294967296 ->
  (52 + Z.to_nat (local_size (configuration (device w)))
   <= List.length (eeprom w))%nat ->
  let w' := world_of (writeConfiguration w) in
  let c := stamped (configuration (device w)) (_configuration (device w)) in
  let d0 := V2Device_new md download vid pid ports_announce section0 in
  Configuration.header_magic (eeprom w') = Configuration.header_magic
                                             (_configuration d0)
  /\ Configuration.header_size (eeprom w') = Configuration.sizeof
  /\ Configuration.local_magic (eeprom w')
     = local_magic (configuration (device w))
  /\ Configuration.local_size (eeprom w')
     = local_size (configuration (device w))
  /\ mem_write (_configuration d0) 0
       (mem_read (eeprom w') 0 (Configuration.header_size (eeprom w'))) = c.
Proof.
  intros Hc Hmagic Hm Hs He w' c d0.
  destruct (eeprom_after_write w Hc Hm Hs He) as [rest E].
  cbv zeta in E. fold w' c in E.
  destruct (stamped_record (configuration (device w))
              (_configuration (device w)) Hc Hm Hs)
    as (L & S1 & S2 & S3 & S4 & _).
  fold c in L, S1, S2, S3, S4.
  assert (Z52 : zlength c = 52) by (unfold zlength; rewrite L; reflexivity).
  unfold Configuration.header_magic, Configuration.header_size,
    Configuration.local_magic, Configuration.local_size in *.
  rewrite E. rewrite !le32_app_left by lia.
  rewrite S1, S2, S3, S4, Hmagic.
  split; [reflexivity |]. split; [reflexivity |]. split; [reflexivity |].
  split; [reflexivity |].
  rewrite mem_read_prefix by (rewrite L; reflexivity).
  rewrite mem_write_at_0, L. unfold d0, V2Device_new. cbn [_configuration].
  change (skipn 52 Configuration.default) with (@nil Z). apply app_nil_r.
Qed.

(** X7.  Write, then read: a device that starts with the EEPROM
    [writeConfiguration()] left behind has the written record in memory,
    byte for byte, with the name and the port count of the writer. *)
Theorem written_record_is_read_back (w : World)
  (md : Metadata) (download : option string) (vid pid ports_announce : Z)
  (section0 : LocalSection) :
  List.length (_configuration (device w)) = 52%nat ->
  Configuration.header_magic (_configuration (device w))
  = Configuration.magic_default ->
  0 <= local_magic (configuration (device w)) < 4294967296 ->
  0 <= local_size (configuration (device w)) < 4294967296 ->
  (52 + Z.to_nat (local_size (configuration (device w)))
   <= List.length (eeprom w))%nat ->
  let w' := world_of (writeConfiguration w) in
  let d :=
    readEEPROM (eeprom w')
      (V2Device_new md download vid pid ports_announce section0) in
  _configuration d = _configuration (device w')
  /\ (forall k, 8 <= k < 44 ->
      byte_at (_configuration d) k = byte_at (_configuration (device w)) k)
  /\ system_name d
     = (if byte_at (_configuration (device w)) 8 =? 0 then NameNull
        else NameOfConfiguration)
  /\ configured (system_ports d)
     = (if Configuration.ports (_configuration (device w)) >? 1
        then Configuration.ports (_configuration (device w)) else 1).
Proof.
  intros Hc Hmagic Hm Hs He w' d.
  destruct (stored_record_is_read w md download vid pid ports_announce
              section0 Hc Hmagic Hm Hs He) as (R1 & R2 & _ & _ & R5).
  cbv zeta in R1, R2, R5. fold w' in R1, R2, R5.
  destruct (stamped_record (configuration (device w))
              (_configuration (device w)) Hc Hm Hs) as (_ & _ & _ & _ & _ & K).
  cbv zeta in K.
  destruct (writeConfiguration_result w) as (_ & D & _).
  cbv zeta in D. fold w' in D.
  subst d. rewrite readEEPROM_accepted;
    [| exact R1 | rewrite R2; unfold Configuration.sizeof,
                    Configuration.sizeof_Header; lia].
  cbv zeta. rewrite R5. rewrite D.
  cbn [_configuration set__configuration system_name system_ports configured
       V2Device_new set_ports_configured].
  split; [reflexivity |]. split; [exact K |].
  unfold Configuration.ports. rewrite !K by lia.
  split; [reflexivity |].
  destruct (byte_at (_configuration (device w)) 40 >? 1); reflexivity.
Qed.

(** X8.  The payload of the device-specific section comes back too: a reader
    that registers the same magic and a buffer of at least the stored size
    gets the stored bytes at the start of its buffer. *)
Theorem written_payload_is_read_back (w : World)
  (md : Metadata) (download : option string) (vid pid ports_announce : Z)
  (data buffer : list Z) (capacity : Z) :
  List.length (_configuration (device w)) = 52%nat ->
  Configuration.header_magic (_configuration (device w))
  = Configuration.magic_default ->
  0 <= local_magic (configuration (device w)) < 4294967296 ->
  0 < local_size (configuration (device w)) < 4294967296 ->
  (52 + Z.to_nat (local_size (configuration (device w)))
   <= List.length (eeprom w))%nat ->
  local_data (configuration (device w)) = Some data ->
  (Z.to_nat (local_size (configuration (device w))) <= List.length data)%nat ->
  local_size (configuration (device w)) <= capacity ->
  let size := local_size (configuration (device w)) in
  let w' := world_of (writeConfiguration w) in
  let d :=
    readEEPROM (eeprom w')
      (V2Device_new md download vid pid ports_announce
         (mkLocalSection (local_magic (configuration (device w))) capacity
            (Some buffer))) in
  local_data (configuration d)
  = Some (mem_write buffer 0 (mem_read data 0 size))
  /\ mem_read (mem_write buffer 0 (mem_read data 0 size)) 0 size
     = mem_read data 0 size.
Proof.
  intros Hc Hmagic Hm Hs He Hd Hl Hcap size w' d.
  assert (Hs' : 0 <= local_size (configuration (device w)) < 4294967296)
    by lia.
  destruct (stored_record_is_read w md download vid pid ports_announce
              (mkLocalSection (local_magic (configuration (device w)))
                 capacity (Some buffer)) Hc Hmagic Hm Hs' He)
    as (R1 & R2 & R3 & R4 & R5).
  cbv zeta in R1, R2, R3, R4, R5. fold w' in R1, R2, R3, R4, R5.
  destruct (eeprom_after_write w Hc Hm Hs' He) as [rest E].
  cbv zeta in E. fold w' size in E. rewrite Hd in E.
  destruct (Z.gtb_spec size 0) as [_ | ?]; [| unfold size in *; lia].
  destruct (stamped_record (configuration (device w))
              (_configuration (device w)) Hc Hm Hs') as (L & _).
  cbv zeta in L.
  assert (P : List.length (mem_read data 0 size) = Z.to_nat size).
  { unfold mem_read. cbn [Z.to_nat skipn]. rewrite length_firstn.
    unfold size. lia. }
  assert (Rd : mem_read (eeprom w') (Configuration.header_size (eeprom w'))
                 (Configuration.local_size (eeprom w'))
               = mem_read data 0 size).
  { rewrite R2, R4. fold size. rewrite E. unfold mem_read at 1.
    change (Z.to_nat Configuration.sizeof) with 52%nat.
    rewrite skipn_app, L, Nat.sub_diag, skipn_all2 by (rewrite L; lia).
    cbn [skipn app]. rewrite firstn_app, P, Nat.sub_diag, firstn_all2
      by (rewrite P; lia).
    cbn [firstn]. apply app_nil_r. }
  subst d. rewrite readEEPROM_accepted;
    [| exact R1 | rewrite R2; unfold Configuration.sizeof,
                    Configuration.sizeof_Header; lia].
  cbv zeta. unfold V2Device_new.
  cbn [configuration local_data local_magic local_size].
  rewrite Rd, R3, R4, Z.eqb_refl. fold size.
  destruct (Z.eqb_spec size 0); [lia |].
  destruct (Z.leb_spec size capacity); [| lia].
  cbn [negb andb configuration local_data].
  split; [reflexivity |].
  rewrite mem_write_at_0. apply mem_read_prefix. rewrite P. reflexivity.
Qed.

End StoreFacts.

(** ** The reply message and the serial number *)

Section ReplyMore.
Context {C : Collaborators}.
Import Escaper EscaperMore.
Local Open Scope list_scope.
Local Open Scope Z_scope.

Lemma Forall_firstn_of {A} (P : A -> Prop) (n : nat) (l : list A) :
  Forall P l -> Forall P (firstn n l).
Proof.
  revert l. induction n as [| n IH]; intros [| x l] H; cbn [firstn];
    try constructor.
  - inversion H; assumption.
  - apply IH. inversion H; assumption.
Qed.

(** X9.  The full-state reply is a frame F0 7D payload F7 whose payload holds
    only bytes below 0x80, and the message is at most sysex_max_size + 1
    bytes long. *)
Theorem reply_is_a_seven_bit_frame (w : World) :
  Forall (fun b => 0 <= b)
    (serializeJson (replyDocument (device w) (readings w)) sysex_max_size) ->
  exists payload,
    fullStateMessage w
    = SystemExclusive :: 0x7d :: payload ++ [SystemExclusiveEnd]
    /\ Forall (fun b => 0 <= b < 0x80) payload
    /\ zlength (fullStateMessage w) <= sysex_max_size + 1.
Proof.
  intros Hb. unfold fullStateMessage, replyMessage. cbv zeta.
  set (doc := serializeJson _ _) in *.
  set (e := escapeJSON _ doc _ _).
  exists (firstn (Z.to_nat (esc_len e)) (esc_buffer e)).
  split; [reflexivity |]. split.
  - apply Forall_firstn_of. apply escapeJSON_seven_bit. exact Hb.
  - assert (Hs : 0 <= sysex_max_size - 2 <= 4294967282)
      by (unfold sysex_max_size; lia).
    destruct (escapeJSON_within (uninitialized (readings w)) doc (zlength doc)
                (sysex_max_size - 2) Hs) as (L & _ & _).
    fold e in L. unfold zlength in *.
    cbn [app List.length]. rewrite length_app, length_firstn.
    cbn [List.length]. unfold sysex_max_size in *. lia.
Qed.

End ReplyMore.

Module SerialFacts.
Local Open Scope list_scope.
Local Open Scope Z_scope.

Lemma hexDigitUpper_upperHex (d : Z) :
  0 <= d < 16 -> upperHex (hexDigitUpper d) = true.
Proof.
  intros H. unfold upperHex, hexDigitUpper.
  destruct (Z.ltb_spec d 10); apply orb_true_iff; [left | right];
    apply andb_true_iff; split; apply Z.leb_le; lia.
Qed.

Lemma hexDigitUpper_inj (d d' : Z) :
  0 <= d < 16 -> 0 <= d' < 16 -> hexDigitUpper d = hexDigitUpper d' -> d = d'.
Proof.
  unfold hexDigitUpper. intros H H'.
  destruct (Z.ltb_spec d 10); destruct (Z.ltb_spec d' 10); lia.
Qed.

Lemma hex2Upper_inj (b b' : Z) :
  0 <= b < 256 -> 0 <= b' < 256 -> hex2Upper b = hex2Upper b' -> b = b'.
Proof.
  intros H H'. unfold hex2Upper. intros [= E1 E2].
  apply hexDigitUpper_inj in E1; [| apply Z.mod_pos_bound; lia ..].
  apply hexDigitUpper_inj in E2; [| apply Z.mod_pos_bound; lia ..].
  rewrite (Z.mod_small (b / 16)) in E1
    by (split; [apply Z.div_pos; lia | apply Z.div_lt_upper_bound; lia]).
  rewrite (Z.mod_small (b' / 16)) in E1
    by (split; [apply Z.div_pos; lia | apply Z.div_lt_upper_bound; lia]).
  rewrite (Z.div_mod b 16), (Z.div_mod b' 16) by lia. lia.
Qed.

(** X10.  The serial number is 32 characters, each a digit or a letter A to
    F. *)
Theorem readSerial_is_32_upper_hex_digits (memory : Z -> Z) :
  (forall a, 0 <= memory a < 256) ->
  List.length (readSerial memory) = 32%nat
  /\ Forall (fun c => upperHex c = true) (readSerial memory).
Proof.
  intros H. split; [reflexivity |].
  unfold readSerial, serialWords, hex2Upper. cbn [flat_map app].
  repeat constructor; apply hexDigitUpper_upperHex; apply Z.mod_pos_bound;
    lia.
Qed.

(** X11.  The serial number determines the sixteen bytes it is printed from:
    two memories with the same serial number agree on every byte of the four
    words. *)
Theorem readSerial_determines_the_bytes (m1 m2 : Z -> Z) :
  (forall a, 0 <= m1 a < 256) -> (forall a, 0 <= m2 a < 256) ->
  readSerial m1 = readSerial m2 ->
  forall word k, In word serialWords -> 0 <= k < 4 ->
    m1 (word + k) = m2 (word + k).
Proof.
  intros H1 H2 E word k I K.
  unfold readSerial, serialWords in E. cbn [flat_map app] in E.
  unfold hex2Upper in E. cbn [app] in E.
  assert (P : forall a x y,
             hexDigitUpper (m1 a / 16 mod 16) = x ->
             hexDigitUpper (m1 a mod 16) = y ->
             hexDigitUpper (m2 a / 16 mod 16) = x ->
             hexDigitUpper (m2 a mod 16) = y -> m1 a = m2 a).
  { intros a x y A B A' B'. apply hex2Upper_inj; [apply H1 | apply H2 |].
    unfold hex2Upper. congruence. }
  injection E as ?; intros.
  assert (K' : k = 0 \/ k = 1 \/ k = 2 \/ k = 3) by lia.
  unfold serialWords in I. cbn [In] in I.
  destruct I as [<- | [<- | [<- | [<- | []]]]];
    destruct K' as [-> | [-> | [-> | ->]]];
    rewrite ?Z.add_0_r; eapply P; eauto.
Qed.

End SerialFacts.

(** ** The dispatcher as a whole *)

Section DispatchFacts.
Context {C : Collaborators}.
Local Open Scope string_scope.
Local Open Scope list_scope.
Local Open Scope Z_scope.

Ltac run :=
  unfold Secondary_write, Secondary_copy, Secondary_check, Secondary_reset,
    Firmware_reset, sendFirmwareStatus, writeConfiguration, overrun,
    EEPROM_store, sendSystemExclusive, call, update_device, modify, get,
    bind, ret;
  rewrite ?sendReply_sends;
  cbn [world_of returned trace device secondary bootData eeprom readings
       log set_secondary set_device set_bootData set_eeprom
       configuration _configuration system_ports system_name _boot_id
       set__configuration set_system_name set_system_ports set_configuration
       set_ports_configured current local_size local_magic local_data].

Ltac traced :=
  cbn [world_of];
  repeat first [rewrite trace_log | rewrite trace_set_secondary
               | rewrite trace_set_device | rewrite trace_set_bootData
               | rewrite trace_set_eeprom];
  rewrite <- ?app_assoc; cbn [app];
  first [reflexivity | symmetry; apply app_nil_r].

Ltac innermost_case :=
  match goal with
  | |- context [if ?c then _ else _] =>
      lazymatch c with
      | context [if _ then _ else _] => fail
      | context [match _ with Some _ => _ | None => _ end] => fail
      | _ => destruct c eqn:?
      end
  | |- context [match Json.as_cstr ?v with Some _ => _ | None => _ end] =>
      destruct (Json.as_cstr v) eqn:?
  end.

Lemma framed_status (token : Z) (status : string) :
  framed (firmwareStatusMessage token status).
Proof. eexists. reflexivity. Qed.

Lemma framed_reply (w : World) : framed (fullStateMessage w).
Proof. eexists. reflexivity. Qed.

Lemma handleRequest_orderly (json : Json.value) (w : World) :
  orderly (events w (handleRequest json w)).
Proof.
  unfold handleRequest, handleMethod, handleWriteConfiguration,
    handleWriteFirmware.
  cbv zeta. run.
  repeat (innermost_case; run);
    (erewrite events_log by traced);
    unfold orderly; cbn [sent flat_map app List.length In];
    (split; [lia |]);
    (split; [intros m Hm; repeat destruct Hm as [<- | Hm]; try contradiction;
             first [apply framed_status | apply framed_reply
                   | eexists; reflexivity] |]);
    (split; [intros Hm; repeat destruct Hm as [Hm | Hm];
             try discriminate; try contradiction;
             do 2 eexists; do 4 right; left; reflexivity |]);
    intros len hash ok Hm; repeat destruct Hm as [Hm | Hm];
    try discriminate; try contradiction; do 3 right; left; reflexivity.
Qed.


(** The return from the handler makes no call. *)
Lemma events_handleDocument (json : Json.value) (w : World) :
  events w (handleDocument json w) = events w (handleRequest json w).
Proof.
  unfold handleDocument, release, update_device, modify, bind, events.
  destruct (handleRequest json w); reflexivity.
Qed.

Lemma handleSystemExclusive_cases (buffer : list Z) (len : Z) (w : World) :
  handleSystemExclusive buffer len w = Returns tt w
  \/ exists json, handleSystemExclusive buffer len w = handleDocument json w.
Proof.
  unfold handleSystemExclusive.
  repeat innermost_case; try (left; reflexivity).
  destruct (deserializeJson _); [| left; reflexivity].
  right. eexists. reflexivity.
Qed.

Lemma handleSystemExclusive_orderly (buffer : list Z) (len : Z) (w : World) :
  orderly (events w (handleSystemExclusive buffer len w)).
Proof.
  destruct (handleSystemExclusive_cases buffer len w) as [E | [json E]];
    rewrite E.
  - rewrite (events_log w []) by (symmetry; apply app_nil_r).
    repeat split; cbn; try lia; try contradiction.
  - rewrite events_handleDocument. apply handleRequest_orderly.
Qed.

(** X12.  Whatever the message, the handler hands at most one message to the
    transport, and that message is framed F0 7D ... F7. *)
Theorem message_gets_at_most_one_framed_answer
  (buffer : list Z) (len : Z) (w : World) :
  let answers := sent (events w (handleSystemExclusive buffer len w)) in
  (List.length answers <= 1)%nat /\ forall m, In m answers -> framed m.
Proof.
  destruct (handleSystemExclusive_orderly buffer len w) as (H1 & H2 & _).
  split; assumption.
Qed.

(** X13.  The secondary bank is verified only after the bootloader was
    copied into it, whatever the request. *)
Theorem verification_follows_the_bootloader_copy
  (json : Json.value) (w : World) (n : Z) (hash : string) (ok : bool) :
  let l := events w (handleRequest json w) in
  In (Secondary_verify n hash ok) l -> In Secondary_copyBootloader l.
Proof.
  destruct (handleRequest_orderly json w) as (_ & _ & _ & H).
  apply H.
Qed.

(** X14.  No request activates the secondary bank unless a verification
    made for that same request matched. *)
Theorem activation_only_after_matching_verification
  (json : Json.value) (w : World) :
  let l := events w (handleRequest json w) in
  In Secondary_activate l ->
  exists n hash, In (Secondary_verify n hash true) l.
Proof.
  destruct (handleRequest_orderly json w) as (_ & _ & H & _).
  exact H.
Qed.

(** X15.  A message that is too short, or does not carry the research ID, or
    is not enclosed in braces, or does not parse, changes nothing and makes
    no call. *)
Theorem unframed_message_is_ignored (buffer : list Z) (len : Z) (w : World) :
  len < 24 \/ byte_at buffer 1 <> 0x7d \/ byte_at buffer 2 <> 123
  \/ byte_at buffer (len - 2) <> 125
  \/ deserializeJson (mem_read buffer 2 (len - 1)) = None ->
  handleSystemExclusive buffer len w = Returns tt w
  /\ events w (handleSystemExclusive buffer len w) = [].
Proof.
  intros H.
  assert (E : handleSystemExclusive buffer len w = Returns tt w).
  { unfold handleSystemExclusive.
    destruct (Z.ltb_spec len 24); [reflexivity |].
    destruct (Z.eqb_spec (byte_at buffer 1) 0x7d); [| reflexivity].
    destruct (Z.eqb_spec (byte_at buffer 2) 123); [| reflexivity].
    destruct (Z.eqb_spec (byte_at buffer (len - 2)) 125); [| reflexivity].
    cbn [negb orb].
    destruct H as [H | [H | [H | [H | H]]]]; try lia; try contradiction.
    rewrite H. reflexivity. }
  split; [exact E |].
  rewrite E. apply events_log. symmetry. apply app_nil_r.
Qed.

(** The state a request leaves behind, method by method. *)
Lemma handleRequest_frame (json : Json.value) (w : World) :
  let w' := world_of (handleRequest json w) in
  let section := configuration (device w) in
  readings w' = readings w
  /\ _boot_id (device w') = _boot_id (device w)
  /\ current (system_ports (device w')) = current (system_ports (device w))
  /\ (configuration (device w') = section
      \/ method_is json "writeConfiguration" = true
         /\ configuration (device w')
            = mkLocalSection (local_magic section) (local_size section)
                (option_map
                   (importConfiguration
                      (Json.get (json_device_of json) "configuration"))
                   (local_data section)))
  /\ (method_is json "writeFirmware" = false -> secondary w' = secondary w)
  /\ (method_is json "reboot" = false -> bootData w' = bootData w)
  /\ (method_is json "writeConfiguration" = false -> device w' = device w)
  /\ (method_is json "writeConfiguration" = false ->
      method_is json "eraseConfiguration" = false -> eeprom w' = eeprom w).
Proof.
  unfold method_is, json_device_of, handleRequest, handleMethod,
    handleWriteConfiguration, handleWriteFirmware.
  cbv zeta. run.
  repeat (innermost_case; run);
    (split; [reflexivity |]); (split; [reflexivity |]);
    (split; [reflexivity |]);
    (split; [first [left; reflexivity
                   | right; split; [first [assumption | reflexivity]
                                   | reflexivity]] |]);
    repeat split; intros; try reflexivity; try congruence.
Qed.

(** X16.  No request changes the session token, the number of ports in use
    or what the hardware reports; and the registered device-specific section
    changes in one way only: a [writeConfiguration] request hands its
    configuration object to the import hook, which works on the data of the
    section. *)
Theorem requests_leave_the_session_alone (json : Json.value) (w : World) :
  let w' := world_of (handleRequest json w) in
  let section := configuration (device w) in
  _boot_id (device w') = _boot_id (device w)
  /\ current (system_ports (device w')) = current (system_ports (device w))
  /\ readings w' = readings w
  /\ (configuration (device w') = section
      \/ method_is json "writeConfiguration" = true
         /\ configuration (device w')
            = mkLocalSection (local_magic section) (local_size section)
                (option_map
                   (importConfiguration
                      (Json.get (json_device_of json) "configuration"))
                   (local_data section))).
Proof.
  destruct (handleRequest_frame json w) as (H1 & H2 & H3 & H4 & _).
  repeat split; assumption.
Qed.

(** X17.  Each method keeps to its own state: the secondary bank is touched
    only by writeFirmware, the retained boot data only by reboot, the device
    object only by writeConfiguration, the EEPROM only by writeConfiguration
    and eraseConfiguration. *)
Theorem methods_keep_to_their_state (json : Json.value) (w : World) :
  let w' := world_of (handleRequest json w) in
  (method_is json "writeFirmware" = false -> secondary w' = secondary w)
  /\ (method_is json "reboot" = false -> bootData w' = bootData w)
  /\ (method_is json "writeConfiguration" = false -> device w' = device w)
  /\ (method_is json "writeConfiguration" = false ->
      method_is json "eraseConfiguration" = false -> eeprom w' = eeprom w).
Proof.
  destruct (handleRequest_frame json w) as (_ & _ & _ & _ & H).
  exact H.
Qed.

(** X18.  A request outside the interface, or with none of the six methods,
    or a writeFirmware without a firmware object, is ignored: nothing
    changes, nothing is sent. *)
Theorem unknown_requests_are_ignored (json : Json.value) (w : World) :
  Json.isObject (json_device_of json) = false
  \/ (method_is json "getAll" = false
      /\ method_is json "eraseConfiguration" = false
      /\ method_is json "switchChannel" = false
      /\ method_is json "reboot" = false
      /\ method_is json "writeConfiguration" = false
      /\ method_is json "writeFirmware" = false)
  \/ (method_is json "writeFirmware" = true
      /\ Json.isObject (Json.get (json_device_of json) "firmware") = false) ->
  handleRequest json w = Returns tt w.
Proof.
  unfold method_is, json_device_of, handleRequest.
  intros [H | [(H1 & H2 & H3 & H4 & H5 & H6) | [H1 H2]]].
  - rewrite H. reflexivity.
  - destruct (negb (Json.isObject _)); [reflexivity |]. run.
    destruct (_ && _); [reflexivity |].
    unfold handleMethod. cbv zeta. rewrite H1, H2, H3, H4, H5, H6.
    reflexivity.
  - destruct (negb (Json.isObject _)); [reflexivity |]. run.
    destruct (_ && _); [reflexivity |].
    fold (json_device_of json).
    rewrite (method_writeFirmware json w H1).
    unfold handleWriteFirmware, json_device_of. cbv zeta. rewrite H2.
    reflexivity.
Qed.

(** X19.  The requests getAll, switchChannel without a channel, and
    writeConfiguration without a configuration object only report: the one
    call made is the transmission of the full-state reply, and the state is
    as before. *)
Theorem reporting_requests_change_nothing (json : Json.value) (w : World) :
  accepted json w = true ->
  method_is json "getAll" = true
  \/ (method_is json "switchChannel" = true
      /\ Json.isNull (Json.get (json_device_of json) "channel") = true)
  \/ (method_is json "writeConfiguration" = true
      /\ Json.isObject (Json.get (json_device_of json) "configuration")
         = false) ->
  handleRequest json w
  = Returns tt (log (SendSystemExclusive (fullStateMessage w)) w).
Proof.
  intros Ha H. rewrite (accepted_dispatch json w Ha).
  destruct H as [H | [[H1 H2] | [H1 H2]]].
  - unfold method_is in H. unfold handleMethod. cbv zeta. rewrite H.
    reflexivity.
  - unfold method_is in H1. unfold handleMethod. cbv zeta.
    rewrite (eq_str_other _ _ "getAll" H1) by discriminate.
    rewrite (eq_str_other _ _ "eraseConfiguration" H1) by discriminate.
    rewrite H1, H2. reflexivity.
  - rewrite (method_writeConfiguration json w H1).
    unfold handleWriteConfiguration. cbv zeta. rewrite H2. reflexivity.
Qed.

(** X20.  A chunk that is not the final one (aligned offset, no hash, data
    that fits a block) is written as one full block, the data followed by
    0xFF, between the two LED calls, and acknowledged with the status
    document that says success; nothing is verified or activated and the
    handler returns. *)
Theorem chunk_without_hash_is_written_and_acknowledged
  (json : Json.value) (w : World) :
  let firmware := Json.get (json_device_of json) "firmware" in
  let offset := as_uint32 (Json.get firmware "offset") in
  let bytes := base64_decode (Json.as_cstr (Json.get firmware "data")) in
  let block := bytes ++ repeat 0xff (Z.to_nat (getBlockSize - zlength bytes)) in
  let reply (status : string) :=
    [0xf0; 0x7d]
      ++ serializeJson
           (Json.Obj [("com.versioduo.device",
              Json.Obj [("token", Json.Num (_boot_id (device w)));
                        ("firmware",
                         Json.Obj [("status", Json.Str status)])])])
           1024
      ++ [0xf7] in
  let r := handleRequest json w in
  accepted json w = true ->
  method_is json "writeFirmware" = true ->
  Json.isObject firmware = true ->
  offset mod getBlockSize = 0 ->
  Json.as_cstr (Json.get firmware "hash") = None ->
  zlength bytes <= getBlockSize < 4294967296 ->
  events w r
  = [LED true; Secondary_writeBlock offset block; LED false;
     SendSystemExclusive (reply "success")]
  /\ returned r = true
  /\ secondary (world_of r) = writeBlock offset block (secondary w)
  /\ zlength block = getBlockSize.
Proof.
  intros firmware offset bytes block reply r Ha Hm Hf Ho Hh Hl. subst r.
  rewrite (accepted_dispatch json w Ha), (method_writeFirmware json w Hm).
  unfold handleWriteFirmware. cbv zeta.
  fold firmware. rewrite Hf. fold offset. rewrite Ho, Hh.
  change (negb (0 =? 0)) with false. cbv iota. fold bytes.
  destruct (Z.gtb_spec (zlength bytes) getBlockSize) as [? | _]; [lia |].
  pose proof (EscaperFacts.zlength_nonneg bytes) as Hp.
  rewrite (EscaperFacts.u32_small (zlength bytes)) by lia. fold block.
  run. split; [apply events_log; traced |].
  split; [reflexivity |]. split; [reflexivity |].
  unfold block. rewrite EscaperFacts.zlength_app. unfold zlength at 2.
  rewrite repeat_length. lia.
Qed.

Lemma stamped_keeps (section : LocalSection) (c : list Z) :
  List.length c = 52%nat ->
  List.length (stamped section c) = 52%nat
  /\ forall k, 8 <= k < 44 -> byte_at (stamped section c) k = byte_at c k.
Proof.
  intros Hc. unfold stamped, Configuration.set_local_size,
    Configuration.set_local_magic, Configuration.set_header_size.
  set (c1 := mem_write c 4 (le32_bytes Configuration.sizeof)).
  assert (L1 : List.length c1 = 52%nat).
  { unfold c1. rewrite length_mem_write; [exact Hc |]. rewrite Hc. cbn. lia. }
  set (c2 := mem_write c1 44 (le32_bytes (local_magic section))).
  assert (L2 : List.length c2 = 52%nat).
  { unfold c2. rewrite length_mem_write; [exact L1 |]. rewrite L1. cbn. lia. }
  set (c3 := mem_write c2 48 (le32_bytes (local_size section))).
  assert (L3 : List.length c3 = 52%nat).
  { unfold c3. rewrite length_mem_write; [exact L2 |]. rewrite L2. cbn. lia. }
  split; [exact L3 |]. intros k Hk.
  unfold c3. rewrite MemoryFacts.byte_at_mem_write;
    [| lia | lia | rewrite L2; cbn; lia].
  change (zlength (le32_bytes (local_size section))) with 4.
  destruct (Z.leb_spec 48 k); [lia |]. cbn [andb].
  unfold c2. rewrite MemoryFacts.byte_at_mem_write;
    [| lia | lia | rewrite L1; cbn; lia].
  change (zlength (le32_bytes (local_magic section))) with 4.
  destruct (Z.leb_spec 44 k); [lia |]. cbn [andb].
  unfold c1. rewrite MemoryFacts.byte_at_mem_write;
    [| lia | lia | rewrite Hc; cbn; lia].
  change (zlength (le32_bytes Configuration.sizeof)) with 4.
  destruct (Z.leb_spec 4 k); [| lia]. cbn [andb].
  destruct (Z.ltb_spec k (4 + 4)); [lia | reflexivity].
Qed.

(** A write into the name field leaves the ports byte alone. *)
Lemma ports_after_name_write (c src : list Z) :
  List.length c = 52%nat -> (List.length src <= 32)%nat ->
  List.length (mem_write c 8 src) = 52%nat
  /\ Configuration.ports (mem_write c 8 src) = Configuration.ports c.
Proof.
  intros Hc Hs. split.
  - rewrite length_mem_write; [exact Hc |]. rewrite Hc.
    change (Z.to_nat 8) with 8%nat. lia.
  - unfold Configuration.ports. rewrite MemoryFacts.byte_at_mem_write;
      [| lia | lia | rewrite Hc; change (Z.to_nat 8) with 8%nat; lia].
    destruct (Z.ltb_spec 40 (8 + zlength src)) as [L | L];
      [unfold zlength in L; lia |].
    cbn [andb]. rewrite Bool.andb_false_r. reflexivity.
Qed.

Lemma ports_after_set_ports (c : list Z) (p : Z) :
  List.length c = 52%nat ->
  List.length (Configuration.set_ports p c) = 52%nat
  /\ Configuration.ports (Configuration.set_ports p c) = p.
Proof.
  intros Hc. unfold Configuration.set_ports. split.
  - rewrite length_mem_write; [exact Hc |]. rewrite Hc. cbn. lia.
  - unfold Configuration.ports. rewrite MemoryFacts.byte_at_mem_write;
      [| lia | lia | rewrite Hc; cbn; lia].
    reflexivity.
Qed.

End DispatchFacts.

(** ** The configuration requests *)

Section ConfigurationRequests.
Context {C : Collaborators}.
Local Open Scope string_scope.
Local Open Scope list_scope.
Local Open Scope Z_scope.

Ltac run :=
  unfold Secondary_write, Secondary_copy, Secondary_check, Secondary_reset,
    Firmware_reset, sendFirmwareStatus, writeConfiguration,
    EEPROM_store, sendSystemExclusive, call, update_device, modify, get,
    bind, ret;
  rewrite ?sendReply_sends;
  cbn [world_of returned trace device secondary bootData eeprom readings
       log set_secondary set_device set_bootData set_eeprom].

Ltac traced :=
  cbn [world_of];
  repeat first [rewrite trace_log | rewrite trace_set_secondary
               | rewrite trace_set_device | rewrite trace_set_bootData
               | rewrite trace_set_eeprom];
  rewrite <- ?app_assoc; cbn [app];
  first [reflexivity | symmetry; apply app_nil_r].

Ltac simplify :=
  cbn [configuration _configuration system_ports system_name
       set__configuration set_system_name set_system_ports set_configuration
       set_ports_configured configured current announce reboot
       local_size local_magic local_data].

Lemma ports_of_stamped (section : LocalSection) (c : list Z) :
  List.length c = 52%nat ->
  Configuration.ports (stamped section c) = Configuration.ports c.
Proof.
  intros Hc. unfold Configuration.ports.
  apply (proj2 (stamped_keeps section c Hc)). lia.
Qed.

Lemma length_name_bytes (n : string) :
  (strlen n <? 32) = true ->
  (List.length (c_str (bytes_of_string n) ++ [0%Z]) <= 32)%nat.
Proof.
  intros H. apply Z.ltb_lt in H. unfold strlen, zlength in H.
  rewrite length_app. cbn [List.length]. lia.
Qed.

(** The record and the port count after the name and ports members of a
    request were imported. *)
Lemma imported_ports (c src : list Z) (p : Z) :
  List.length c = 52%nat -> (List.length src <= 32)%nat ->
  List.length (Configuration.set_ports p (mem_write c 8 src)) = 52%nat
  /\ Configuration.ports (Configuration.set_ports p (mem_write c 8 src)) = p.
Proof.
  intros Hc Hs. apply ports_after_set_ports.
  apply (ports_after_name_write c src Hc Hs).
Qed.

(** X21.  The ports member of a writeConfiguration request: a value from 1 to
    16 becomes the configured port count and the ports byte of the record,
    any other value changes neither; the record is then written to the
    EEPROM at offset 0 and the reply reports the state after the change. The
    port count in use stays as it is. *)
Theorem ports_of_a_request_are_stored_when_in_range
  (json : Json.value) (w : World) :
  let config := Json.get (json_device_of json) "configuration" in
  let usb := Json.get config "usb" in
  let p := as_uint8 (Json.get usb "ports") in
  let r := handleRequest json w in
  let d := device w in
  let d' := device (world_of r) in
  accepted json w = true ->
  method_is json "writeConfiguration" = true ->
  Json.isObject config = true ->
  Json.isObject usb = true ->
  Json.isNull (Json.get usb "ports") = false ->
  List.length (_configuration d) = 52%nat ->
  returned r = true
  /\ configured (system_ports d')
     = (if (p >=? 1) && (p <=? 16) then p else configured (system_ports d))
  /\ Configuration.ports (_configuration d')
     = (if (p >=? 1) && (p <=? 16) then p
        else Configuration.ports (_configuration d))
  /\ current (system_ports d') = current (system_ports d)
  /\ In (EEPROM_write 0 (_configuration d')) (events w r)
  /\ sent (events w r) = [fullStateMessage (world_of r)].
Proof.
  intros config usb p r d d' Ha Hm Hc Hu Hn Hl. subst r d d'.
  rewrite (accepted_dispatch json w Ha), (method_writeConfiguration json w Hm).
  unfold handleWriteConfiguration. cbv zeta.
  fold config. rewrite Hc. fold usb. rewrite Hu, Hn. cbn [negb]. fold p.
  destruct (Json.as_cstr (Json.get usb "name")) as [n |];
    [destruct ((strlen n >? 1) && (strlen n <? 32)) eqn:En |];
    destruct ((p >=? 1) && (p <=? 16)); run; simplify.
  all: destruct (local_size (configuration (device w)) >? 0) eqn:El; run;
    simplify; rewrite ?El; run; simplify;
    repeat match goal with
           | |- context [Configuration.set_local_size (local_size ?s)
                           (Configuration.set_local_magic (local_magic ?s)
                              (Configuration.set_header_size
                                 Configuration.sizeof ?c))] =>
               change (Configuration.set_local_size (local_size s)
                         (Configuration.set_local_magic (local_magic s)
                            (Configuration.set_header_size
                               Configuration.sizeof c)))
                 with (stamped s c)
           end.
  all: try (apply andb_true_iff in En; destruct En as [_ En];
            apply length_name_bytes in En).
  all: assert (R32 : (List.length (repeat 0%Z 32) <= 32)%nat)
         by (rewrite repeat_length; lia).
  all: split; [reflexivity |]; split; [reflexivity |]; split;
    [| split; [reflexivity |]; split;
       [erewrite events_log by traced; cbn [In]; auto
       | erewrite events_log by traced; reflexivity]].
  all: rewrite ports_of_stamped;
    first [ apply (proj2 (imported_ports _ _ p Hl En))
          | apply (proj1 (imported_ports _ _ p Hl En))
          | apply (proj2 (imported_ports _ _ p Hl R32))
          | apply (proj1 (imported_ports _ _ p Hl R32))
          | apply (proj2 (ports_after_name_write _ _ Hl En))
          | apply (proj1 (ports_after_name_write _ _ Hl En))
          | apply (proj2 (ports_after_name_write _ _ Hl R32))
          | apply (proj1 (ports_after_name_write _ _ Hl R32))
          | apply (proj2 (ports_after_set_ports _ p Hl))
          | apply (proj1 (ports_after_set_ports _ p Hl))
          | exact Hl | reflexivity ].
Qed.

End ConfigurationRequests.

(** ** The configuration store: partial and foreign records *)

Section StoreMore.
Context {C : Collaborators}.
Local Open Scope string_scope.
Local Open Scope list_scope.
Local Open Scope Z_scope.

(** X22.  When the device registers no section, or the stored section has
    another magic, is empty or is larger than the registered one, the
    section is not loaded; the common record is copied all the same. *)
Theorem foreign_section_is_not_loaded (eeprom : list Z) (d : Device) :
  Configuration.header_magic eeprom
  = Configuration.header_magic (_configuration d) ->
  Configuration.sizeof_Header < Configuration.header_size eeprom
  <= Configuration.sizeof ->
  local_data (configuration d) = None
  \/ Configuration.local_magic eeprom <> local_magic (configuration d)
  \/ Configuration.local_size eeprom = 0
  \/ Configuration.local_size eeprom > local_size (configuration d) ->
  configuration (readEEPROM eeprom d) = configuration d
  /\ _configuration (readEEPROM eeprom d)
     = mem_write (_configuration d) 0
         (mem_read eeprom 0 (Configuration.header_size eeprom)).
Proof.
  intros Hm Hs H. rewrite (readEEPROM_accepted eeprom d Hm Hs). cbv zeta.
  cbn [configuration _configuration]. split; [| reflexivity].
  destruct (local_data (configuration d)) as [data |]; [| reflexivity].
  destruct H as [H | [H | [H | H]]]; [discriminate | | |].
  - destruct (Z.eqb_spec (Configuration.local_magic eeprom)
                (local_magic (configuration d))); [contradiction |].
    reflexivity.
  - rewrite H, Bool.andb_false_r. reflexivity.
  - destruct (Z.leb_spec (Configuration.local_size eeprom)
                (local_size (configuration d))); [lia |].
    rewrite Bool.andb_false_r. reflexivity.
Qed.

Lemma byte_at_mem_read_0 (mem : list Z) (n k : Z) :
  0 <= k < n -> byte_at (mem_read mem 0 n) k = byte_at mem k.
Proof.
  intros H. unfold byte_at, mem_read. change (Z.to_nat 0) with 0%nat.
  rewrite skipn_O, nth_firstn.
  destruct (Nat.ltb_spec (Z.to_nat k) (Z.to_nat n)); [reflexivity | lia].
Qed.

(** X23.  A stored record that declares fewer bytes than the structure has
    replaces only that many bytes; the rest of the record in memory keeps
    what it held. *)
Theorem shorter_record_keeps_the_tail (eeprom : list Z) (d : Device) :
  Configuration.header_magic eeprom
  = Configuration.header_magic (_configuration d) ->
  Configuration.sizeof_Header < Configuration.header_size eeprom
  <= Configuration.sizeof ->
  List.length (_configuration d) = 52%nat ->
  Configuration.header_size eeprom <= zlength eeprom ->
  List.length (_configuration (readEEPROM eeprom d)) = 52%nat
  /\ forall k, 0 <= k ->
       byte_at (_configuration (readEEPROM eeprom d)) k
       = if k <? Configuration.header_size eeprom then byte_at eeprom k
         else byte_at (_configuration d) k.
Proof.
  intros Hm Hs Hl He. rewrite (readEEPROM_accepted eeprom d Hm Hs). cbv zeta.
  cbn [_configuration].
  set (size := Configuration.header_size eeprom) in *.
  unfold Configuration.sizeof, Configuration.sizeof_Header in Hs.
  assert (L : List.length (mem_read eeprom 0 size) = Z.to_nat size).
  { unfold mem_read. change (Z.to_nat 0) with 0%nat.
    rewrite skipn_O, length_firstn. unfold zlength in He. lia. }
  split.
  - rewrite length_mem_write; [exact Hl |]. rewrite L, Hl.
    change (Z.to_nat 0) with 0%nat. lia.
  - intros k Hk.
    rewrite MemoryFacts.byte_at_mem_write;
      [| lia | exact Hk | rewrite L, Hl; change (Z.to_nat 0) with 0%nat; lia].
    destruct (Z.leb_spec 0 k); [| lia]. cbn [andb].
    unfold zlength. rewrite L, Z2Nat.id by lia.
    rewrite Z.add_0_l, Z.sub_0_r.
    destruct (Z.ltb_spec k size); [| reflexivity].
    apply byte_at_mem_read_0. lia.
Qed.

End StoreMore.

(** ** Startup *)

Section StartupMore.
Context {C : Collaborators}.
Local Open Scope string_scope.
Local Open Scope list_scope.
Local Open Scope Z_scope.

Ltac run :=
  unfold Firmware_reset, sendSystemExclusive, call, update_device, modify,
    get, bind, ret;
  cbn [world_of returned trace device secondary bootData eeprom readings
       log set_secondary set_device set_bootData set_eeprom].

Ltac traced :=
  cbn [world_of];
  repeat first [rewrite trace_log | rewrite trace_set_secondary
               | rewrite trace_set_device | rewrite trace_set_bootData
               | rewrite trace_set_eeprom];
  rewrite <- ?app_assoc; cbn [app];
  first [reflexivity | symmetry; apply app_nil_r].

(** X24.  The USB device version is the four low decimal digits of the
    firmware version, one per hexadecimal digit (815 reads 0x0815). *)
Theorem bcdVersion_is_the_four_low_decimal_digits (v : Z) :
  0 <= v < 65536 ->
  bcdVersion v
  = v mod 10 + 16 * (v / 10 mod 10) + 256 * (v / 100 mod 10)
    + 4096 * (v / 1000 mod 10).
Proof.
  intros H. unfold bcdVersion, bcdLoop, u16, u8.
  rewrite (Z.mod_small v 65536) by lia.
  change ((0 + 4) mod 256) with 4. change ((4 + 4) mod 256) with 8.
  change ((8 + 4) mod 256) with 12.
  rewrite !Z.shiftl_mul_pow2 by lia.
  change (2 ^ 0) with 1. change (2 ^ 4) with 16. change (2 ^ 8) with 256.
  change (2 ^ 12) with 4096.
  rewrite !Z.div_div by lia. change (10 * 10) with 100.
  change (100 * 10) with 1000.
  pose proof (Z.mod_pos_bound v 10 ltac:(lia)).
  pose proof (Z.mod_pos_bound (v / 10) 10 ltac:(lia)).
  pose proof (Z.mod_pos_bound (v / 100) 10 ltac:(lia)).
  pose proof (Z.mod_pos_bound (v / 1000) 10 ltac:(lia)).
  rewrite (Z.mod_small (0 + v mod 10 * 1)) by lia.
  rewrite (Z.mod_small (0 + v mod 10 * 1 + _)) by lia.
  rewrite (Z.mod_small (0 + v mod 10 * 1 + _ + _)) by lia.
  rewrite Z.mod_small by lia. lia.
Qed.


(** The calls of a startup that is not cut short, and the device it leaves
    behind. *)
Lemma begin_calls (s : Startup) (w : World) :
  userPage_updated s = false ->
  let r := begin s w in
  let d1 := readEEPROM (eeprom w) (device w) in
  let p0 := system_ports d1 in
  let rb :=
    if n_ports (bootData w) >? 1 then n_ports (bootData w) else reboot p0 in
  let ports :=
    if rb >? 1 then rb else if configured p0 >? 1 then configured p0 else 1 in
  events w r
  = [USB_setConfigurationBuffer 1024;
     USB_setDeviceVersion (bcdVersion (fw_version (firmware (readings w))))]
    ++ match name_string (readings w) d1 with
       | Some n => [USB_setProductDescriptor n]
       | None =>
           match product (metadata d1) with
           | Some n => [USB_setProductDescriptor n]
           | None => []
           end
       end
    ++ (if ports >? 1 then [USB_setPorts ports] else [])
    ++ [USB_setID (usb_vid d1) (u16 (usb_pid d1 + ports - 1));
        USB_begin; SetSleepModeIdle].
Proof.
  intros Hs. cbv zeta. unfold begin. rewrite Hs. run.
  destruct (n_ports (bootData w) >? 1) eqn:Hn; run;
    rewrite ?readEEPROM_set_ports_reboot,
      ?readEEPROM_set__firmware_hash, ?readEEPROM_set__boot_id.
  all: destruct (readEEPROM (eeprom w) (device w))
         as [md n [c a u rb0] dl v p sec cfg id h];
    unfold name_string;
    cbn [system_ports set_system_ports set__firmware_hash set__boot_id
         set_ports_reboot set_ports_configured set_ports_current
         configured announce current reboot metadata system_name
         _configuration usb_vid usb_pid product];
    try rewrite Hn;
    repeat match goal with
           | |- context [match ?c with Some _ => _ | None => _ end] =>
               is_var c; destruct c; run
           | |- context [match ?c with NameNull => _ | _ => _ end] =>
               is_var c; destruct c; run
           | |- context [match ?c with Some _ => _ | None => _ end] =>
               destruct c eqn:?; run
           | |- context [if ?c then _ else _] =>
               lazymatch c with
               | context [if _ then _ else _] => fail
               | _ => destruct c eqn:?; run
               end
           end;
    cbn [system_ports set_system_ports set__firmware_hash set__boot_id
         set_ports_reboot set_ports_configured set_ports_current
         configured announce current reboot metadata system_name
         _configuration usb_vid usb_pid product];
    erewrite events_log by traced; reflexivity.
Qed.

(** [readEEPROM] leaves alone what is not stored. *)
Lemma readEEPROM_keeps (eeprom : list Z) (d : Device) :
  usb_vid (readEEPROM eeprom d) = usb_vid d
  /\ usb_pid (readEEPROM eeprom d) = usb_pid d
  /\ metadata (readEEPROM eeprom d) = metadata d
  /\ _boot_id (readEEPROM eeprom d) = _boot_id d.
Proof.
  destruct (Z.eq_dec (Configuration.header_magic eeprom)
              (Configuration.header_magic (_configuration d))) as [Hm | Hm];
    [| rewrite readEEPROM_rejects by (left; exact Hm); repeat split].
  destruct (Z_le_gt_dec (Configuration.header_size eeprom)
              Configuration.sizeof_Header) as [H1 | H1];
    [rewrite readEEPROM_rejects by (right; left; exact H1); repeat split |].
  destruct (Z_le_gt_dec (Configuration.header_size eeprom)
              Configuration.sizeof) as [H2 | H2];
    [| rewrite readEEPROM_rejects by (right; right; exact H2); repeat split].
  rewrite readEEPROM_accepted by (exact Hm || lia). repeat split.
Qed.

(** X25.  The product ID a startup announces follows the port count it puts
    in use: it is pid + n - 1 (as a 16-bit number) for the n ports in use
    afterwards, n is at least 1, and setPorts is called exactly when n is
    above 1, with n. *)
Theorem startup_product_id_follows_the_ports (s : Startup) (w : World) :
  userPage_updated s = false ->
  current (system_ports (device w)) = 1 ->
  let r := begin s w in
  let n := current (system_ports (device (world_of r))) in
  1 <= n
  /\ In (USB_setID (usb_vid (device w)) (u16 (usb_pid (device w) + n - 1)))
       (events w r)
  /\ (forall v p, In (USB_setID v p) (events w r) ->
      v = usb_vid (device w) /\ p = u16 (usb_pid (device w) + n - 1))
  /\ (forall k, In (USB_setPorts k) (events w r) <-> k = n /\ 1 < n).
Proof.
  intros Hs Hc r n. subst r n.
  destruct (begin_ports s w Hs) as (_ & _ & _ & P). cbv zeta in P.
  pose proof (begin_calls s w Hs) as E. cbv zeta in E.
  rewrite P, E. clear P E.
  destruct (readEEPROM_keeps (eeprom w) (device w)) as (-> & -> & _ & _).
  rewrite (readEEPROM_system_ports (eeprom w) (device w)).
  cbn [current configured reboot set_ports_configured]. rewrite Hc.
  set (ports :=
         if (if n_ports (bootData w) >? 1 then n_ports (bootData w)
             else reboot (system_ports (device w))) >? 1
         then if n_ports (bootData w) >? 1 then n_ports (bootData w)
              else reboot (system_ports (device w))
         else if configured (system_ports (readEEPROM (eeprom w) (device w)))
                 >? 1
              then configured (system_ports (readEEPROM (eeprom w) (device w)))
              else 1).
  assert (Hp : 1 <= ports).
  { unfold ports.
    repeat match goal with
           | |- context [?a >? ?b] => destruct (Z.gtb_spec a b)
           end; lia. }
  assert (Hn : (if ports >? 1 then ports else 1) = ports)
    by (destruct (Z.gtb_spec ports 1); lia).
  rewrite Hn.
  set (descriptor := match name_string _ _ with Some _ => _ | None => _ end).
  assert (Hd : forall e, In e descriptor ->
                 exists t, e = USB_setProductDescriptor t).
  { intros e. unfold descriptor.
    destruct (name_string _ _); [| destruct (product _)]; cbn [In];
      intros I; try contradiction; destruct I as [<- | []]; eexists;
      reflexivity. }
  split; [exact Hp |]. split; [| split].
  - cbn [app]. do 2 right. apply in_or_app. right.
    apply in_or_app. right. left. reflexivity.
  - intros v p I. cbn [app] in I.
    destruct I as [I | [I | I]]; try discriminate.
    apply in_app_or in I. destruct I as [I | I];
      [apply Hd in I; destruct I as [t I]; discriminate |].
    apply in_app_or in I. destruct I as [I | I].
    + destruct (ports >? 1); cbn [In] in I; destruct I as [I | []] || tauto;
        discriminate.
    + cbn [In] in I. destruct I as [I | [I | [I | []]]]; try discriminate.
      injection I as <- <-. split; reflexivity.
  - intros k. split.
    + intros I. cbn [app] in I.
      destruct I as [I | [I | I]]; try discriminate.
      apply in_app_or in I. destruct I as [I | I];
        [apply Hd in I; destruct I as [t I]; discriminate |].
      apply in_app_or in I. destruct I as [I | I].
      * destruct (Z.gtb_spec ports 1); cbn [In] in I; [| tauto].
        destruct I as [I | []]. injection I as <-. split; [reflexivity | lia].
      * cbn [In] in I. destruct I as [I | [I | [I | []]]]; discriminate.
    + intros [-> H1]. cbn [app]. do 2 right. apply in_or_app. right.
      apply in_or_app. left.
      destruct (Z.gtb_spec ports 1); [left; reflexivity | lia].
Qed.


(** The record and the identity a startup leaves in the object. *)
Lemma begin_record (s : Startup) (w : World) :
  userPage_updated s = false ->
  let d' := device (world_of (begin s w)) in
  let d1 := readEEPROM (eeprom w) (device w) in
  _configuration d' = _configuration d1
  /\ system_name d' = system_name d1
  /\ configuration d' = configuration d1
  /\ _boot_id d' = random s
  /\ _firmware_hash d' = running_hash s.
Proof.
  intros Hs. cbv zeta. unfold begin. rewrite Hs. run.
  destruct (n_ports (bootData w) >? 1) eqn:Hn; run;
    rewrite ?readEEPROM_set_ports_reboot,
      ?readEEPROM_set__firmware_hash, ?readEEPROM_set__boot_id.
  all: destruct (readEEPROM (eeprom w) (device w))
         as [md n [c a u rb0] dl v p sec cfg id h];
    unfold name_string;
    cbn [system_ports set_system_ports set__firmware_hash set__boot_id
         set_ports_reboot set_ports_configured set_ports_current
         configured announce current reboot metadata system_name
         _configuration usb_vid usb_pid product];
    try rewrite Hn;
    repeat match goal with
           | |- context [match ?c with Some _ => _ | None => _ end] =>
               is_var c; destruct c; run
           | |- context [match ?c with NameNull => _ | _ => _ end] =>
               is_var c; destruct c; run
           | |- context [match ?c with Some _ => _ | None => _ end] =>
               destruct c eqn:?; run
           | |- context [if ?c then _ else _] =>
               lazymatch c with
               | context [if _ then _ else _] => fail
               | _ => destruct c eqn:?; run
               end
           end;
    repeat split.
Qed.

(** X26.  After a cold start (the retained memory does not hold the magic)
    whatever the retained port count held is not used: no override is in
    effect, the port count in use is the stored one when that is above 1 and
    1 otherwise, and the retained record holds the magic and no ports. *)
Theorem cold_start_ignores_the_retained_memory (w : World)
  (md : Metadata) (download : option string) (vid pid ports_announce : Z)
  (section : LocalSection) (s : Startup) :
  let d0 := V2Device_new md download vid pid ports_announce section in
  let r := restart d0 s w in
  let persisted := configured (system_ports (readEEPROM (eeprom w) d0)) in
  _magic (bootData w) <> BootData_magic ->
  userPage_updated s = false ->
  returned r = true
  /\ reboot (system_ports (device (world_of r))) = 0
  /\ current (system_ports (device (world_of r)))
     = (if persisted >? 1 then persisted else 1)
  /\ bootData (world_of r) = mkBootData 0 BootData_magic.
Proof.
  intros d0 r persisted Hmagic Hs.
  pose proof (begin_ports s
                (mkWorld d0 (BootData_new (bootData w)) (eeprom w)
                   (secondary w) (readings w) (trace w)) Hs) as B.
  cbv zeta in B. fold (restart d0 s w) in B. fold r in B.
  cbn [eeprom bootData device] in B.
  assert (Eb : BootData_new (bootData w) = mkBootData 0 BootData_magic).
  { unfold BootData_new.
    destruct (Z.eqb_spec (_magic (bootData w)) BootData_magic);
      [contradiction | reflexivity]. }
  assert (Hd0 : system_ports (readEEPROM (eeprom w) d0)
                = mkPorts persisted ports_announce 1 0).
  { rewrite readEEPROM_system_ports. reflexivity. }
  rewrite Eb, Hd0 in B. cbn [n_ports configured announce current reboot] in B.
  do 2 (change (0 >? 1) with false in B; cbv iota in B).
  destruct B as (R & D & _ & P).
  rewrite P, D. cbn [reboot current]. repeat split; try assumption.
  destruct (Z.gtb_spec persisted 1) as [G | G].
  - destruct (Z.gtb_spec persisted 1); [reflexivity | lia].
  - reflexivity.
Qed.

(** X27.  A port override survives a startup that is cut short by the
    user-page update: that startup only waits and resets, the retained
    record is as the request left it, and the startup after it puts the
    requested port count in use and clears the record. *)
Theorem override_survives_a_startup_cut_short
  (json : Json.value) (w : World) (md : Metadata) (download : option string)
  (vid pid ports_announce : Z) (section : LocalSection)
  (s1 s2 : Startup) :
  let d0 := V2Device_new md download vid pid ports_announce section in
  let ports := Json.get (Json.get (json_device_of json) "reboot") "ports" in
  let r := handleRequest json w in
  let r1 := restart d0 s1 (world_of r) in
  let r2 := restart d0 s2 (world_of r1) in
  accepted json w = true ->
  method_is json "reboot" = true ->
  Json.isNull ports = false ->
  as_uint8 ports > 1 ->
  _magic (bootData w) = BootData_magic ->
  userPage_updated s1 = true ->
  userPage_updated s2 = false ->
  (returned r1 = false
   /\ events (world_of r) r1 = [Delay 100; Firmware_reboot]
   /\ n_ports (bootData (world_of r1)) = as_uint8 ports)
  /\ (returned r2 = true
      /\ current (system_ports (device (world_of r2))) = as_uint8 ports
      /\ n_ports (bootData (world_of r2)) = 0).
Proof.
  intros d0 ports r r1 r2 Ha Hm Hn Hp Hmagic Hs1 Hs2.
  assert (Er : r = Resets
                     (log Firmware_reboot
                        (set_bootData
                           (mkBootData (as_uint8 ports) (_magic (bootData w)))
                           w))).
  { subst r. rewrite accepted_dispatch, method_reboot by assumption.
    fold ports. rewrite Hn. reflexivity. }
  assert (Eb : BootData_new (bootData (world_of r))
               = mkBootData (as_uint8 ports) BootData_magic).
  { rewrite Er. cbn. unfold BootData_new. cbn. rewrite Hmagic.
    rewrite Z.eqb_refl. reflexivity. }
  assert (E1 : r1 = Resets
                      (log Firmware_reboot
                         (log (Delay 100)
                            (mkWorld d0 (BootData_new (bootData (world_of r)))
                               (eeprom (world_of r)) (secondary (world_of r))
                               (readings (world_of r))
                               (trace (world_of r)))))).
  { subst r1. unfold restart, begin. rewrite Hs1. reflexivity. }
  split.
  { rewrite E1. split; [reflexivity |]. split.
    - apply events_log. cbn [world_of]. rewrite !trace_log.
      rewrite <- app_assoc. reflexivity.
    - cbn [world_of log bootData]. rewrite Eb. reflexivity. }
  pose proof (begin_ports s2
                (mkWorld d0 (BootData_new (bootData (world_of r1)))
                   (eeprom (world_of r1)) (secondary (world_of r1))
                   (readings (world_of r1)) (trace (world_of r1))) Hs2)
    as B2.
  cbv zeta in B2. fold (restart d0 s2 (world_of r1)) in B2. fold r2 in B2.
  cbn [eeprom bootData device] in B2.
  assert (Eb1 : BootData_new (bootData (world_of r1))
                = mkBootData (as_uint8 ports) BootData_magic).
  { rewrite E1. cbn [world_of log bootData]. rewrite Eb. reflexivity. }
  rewrite Eb1 in B2. cbn [n_ports] in B2.
  assert (Hgt : (as_uint8 ports >? 1) = true) by (apply Z.gtb_lt; lia).
  rewrite !Hgt in B2.
  destruct B2 as (R2 & D2 & _ & P2).
  rewrite P2, D2. repeat split; assumption || reflexivity.
Qed.

Lemma erased_magic (n : nat) :
  Configuration.header_magic (repeat 0xff n) <> Configuration.magic_default.
Proof.
  unfold Configuration.header_magic, Configuration.magic_default, le32.
  assert (B : forall k, byte_at (repeat 0xff n) k = 0
                        \/ byte_at (repeat 0xff n) k = 0xff).
  { intros k. unfold byte_at.
    destruct (nth_in_or_default (Z.to_nat k) (repeat 0xff n) 0) as [I | ->];
      [right; exact (repeat_spec _ _ _ I) | left; reflexivity]. }
  destruct (B 0) as [-> | ->]; destruct (B (0 + 1)) as [-> | ->];
    destruct (B (0 + 2)) as [-> | ->]; destruct (B (0 + 3)) as [-> | ->];
    discriminate.
Qed.

(** X28.  EraseConfiguration fills the EEPROM with 0xFF and resets without a
    reply; the startup that follows finds no record and runs on the
    defaults: the record of the initialisers, no custom name, one configured
    port. *)
Theorem erased_configuration_gives_the_defaults
  (json : Json.value) (w : World) (md : Metadata) (download : option string)
  (vid pid ports_announce : Z) (section : LocalSection) (s : Startup) :
  let d0 := V2Device_new md download vid pid ports_announce section in
  let r := handleRequest json w in
  let r' := restart d0 s (world_of r) in
  accepted json w = true ->
  method_is json "eraseConfiguration" = true ->
  userPage_updated s = false ->
  (returned r = false
   /\ events w r = [EEPROM_erase; Firmware_reboot]
   /\ eeprom (world_of r) = repeat 0xff (List.length (eeprom w)))
  /\ (returned r' = true
      /\ _configuration (device (world_of r')) = Configuration.default
      /\ system_name (device (world_of r')) = NameNull
      /\ configured (system_ports (device (world_of r'))) = 1
      /\ configuration (device (world_of r')) = section).
Proof.
  intros d0 r r' Ha Hm Hs.
  assert (Er : r = Resets
                     (log Firmware_reboot
                        (log EEPROM_erase
                           (set_eeprom
                              (repeat 0xff (List.length (eeprom w))) w)))).
  { subst r. rewrite (accepted_dispatch json w Ha).
    unfold method_is in Hm. unfold handleMethod. cbv zeta.
    rewrite (eq_str_other _ _ "getAll" Hm) by discriminate.
    rewrite Hm. reflexivity. }
  split.
  { rewrite Er. split; [reflexivity |]. split; [| reflexivity].
    apply events_log. traced. }
  assert (Ee : eeprom (world_of r) = repeat 0xff (List.length (eeprom w)))
    by (rewrite Er; reflexivity).
  assert (Rd : readEEPROM (eeprom (world_of r)) d0 = d0).
  { apply readEEPROM_rejects. left. rewrite Ee. apply erased_magic. }
  set (w0 := mkWorld d0 (BootData_new (bootData (world_of r)))
               (eeprom (world_of r)) (secondary (world_of r))
               (readings (world_of r)) (trace (world_of r))).
  destruct (begin_ports s w0 Hs) as (R & _ & _ & P).
  destruct (begin_record s w0 Hs) as (B1 & B2 & B3 & _).
  cbv zeta in P, B1, B2, B3. subst r'.
  change (restart d0 s (world_of r)) with (begin s w0).
  split; [exact R |]. rewrite B1, B2, B3, P.
  unfold w0. cbn [eeprom device]. rewrite Rd. repeat split.
Qed.

End StartupMore.

(** ** Further runs on the reference platform *)

Module FurtherRuns.
Import Reference Samples.
Import Escaper.
Local Open Scope string_scope.
Local Open Scope list_scope.
Local Open Scope Z_scope.

Ltac settle :=
  first [ reflexivity
        | vm_compute; reflexivity
        | cbn; lia
        | vm_compute; lia
        | vm_compute; intuition discriminate
        | vm_compute; repeat constructor; intuition discriminate ].

Lemma Forall_nonneg_checked (l : list Z) :
  forallb (fun b => 0 <=? b) l = true -> Forall (fun b => 0 <= b) l.
Proof.
  intros H. apply Forall_forall. intros x I. apply Z.leb_le.
  exact (proj1 (forallb_forall _ l) H x I).
Qed.

Lemma euro_sign_is_decoded :
  utf8Codepoint ([65] ++ 0xe2 :: [0x82; 0xac] ++ [66]) (zlength [65])
  = (utf8Length 0xe2, Some (utf8Value (0xe2 - leadMarker (utf8Length 0xe2))
                              [0x82; 0xac]))
  /\ 0 <= utf8Value (0xe2 - leadMarker (utf8Length 0xe2)) [0x82; 0xac]
     < 2147483648.
Proof.
  refine (Utf8Facts.utf8Codepoint_decodes_well_formed [65] [66] [0x82; 0xac]
            0xe2 _ _ _ _).
  - lia.
  - vm_compute. discriminate.
  - reflexivity.
  - repeat constructor; lia.
Defined.

Lemma cut_short_sign_is_rejected :
  utf8Codepoint ([65] ++ 0x80 :: [66]) (zlength [65]) = (-1, None)
  /\ utf8Codepoint ([65] ++ 0xe2 :: [0x82] ++ 0x41 :: [66]) (zlength [65])
     = (-1, None).
Proof.
  split.
  - refine (proj1 (Utf8Facts.utf8Codepoint_rejects_malformed [65] [66] []
                     0x80 0 _) _); [lia | left; lia].
  - refine (proj2 (Utf8Facts.utf8Codepoint_rejects_malformed [65] [66] [0x82]
                     0xe2 0x41 _) _ _ _ _);
      [lia | repeat constructor; lia | vm_compute; reflexivity | lia
      | left; lia].
Defined.

Lemma escaped_text_is_seven_bit :
  Forall (fun b => 0 <= b < 0x80)
    (esc_buffer
       (escapeJSON (fun _ => 0) (List.concat text_items)
          (zlength (List.concat text_items)) 100)).
Proof.
  refine (EscaperMore.escapeJSON_output_is_seven_bit _ _ _ _ _).
  repeat constructor; lia.
Defined.

Lemma escaped_text_stays_within_ten :
  zlength (esc_buffer (escapeJSON (fun _ => 0) (List.concat text_items) 9 10))
  <= 10
  /\ esc_len (escapeJSON (fun _ => 0) (List.concat text_items) 9 10) <= 10
  /\ (esc_len (escapeJSON (fun _ => 0) (List.concat text_items) 9 10) = 0
      \/ esc_len (escapeJSON (fun _ => 0) (List.concat text_items) 9 10)
         = zlength
             (esc_buffer
                (escapeJSON (fun _ => 0) (List.concat text_items) 9 10))).
Proof.
  refine (EscaperMore.escapeJSON_stays_within_size _ _ _ 10 _). lia.
Defined.

Lemma text_is_escaped_item_by_item :
  escapeJSON (fun _ => 0) (List.concat text_items)
    (zlength (List.concat text_items)) 100
  = mkEscaped (zlength (flat_map itemOutput text_items))
      (flat_map itemOutput text_items).
Proof.
  refine (EscaperWellFormed.escapeJSON_on_well_formed_input _ text_items 100
            _ _ _ _).
  - repeat constructor; try lia; vm_compute; discriminate.
  - vm_compute. discriminate.
  - lia.
  - vm_compute. reflexivity.
Defined.

Lemma escapes_read_back :
  unescape (rendering 0x20ac) = Some 0x20ac
  /\ unescape (rendering 0x1f600) = Some 0x1f600
  /\ unescape (rendering 0xd83d) = None
  /\ unescape (rendering 0xffff) = None.
Proof.
  split; [| split; [| split]].
  - refine (proj1 (EscaperWellFormed.rendering_reads_back 0x20ac) _).
    left. lia.
  - refine (proj1 (EscaperWellFormed.rendering_reads_back 0x1f600) _).
    right. right. lia.
  - refine (proj2 (EscaperWellFormed.rendering_reads_back 0xd83d) _).
    left. lia.
  - refine (proj2 (EscaperWellFormed.rendering_reads_back 0xffff) _).
    right. reflexivity.
Defined.

Lemma stored_four_is_read_back :
  let w' := world_of (writeConfiguration stored_four) in
  let d := readEEPROM (eeprom w') device0 in
  _configuration d = _configuration (device w')
  /\ (forall k, 8 <= k < 44 ->
      byte_at (_configuration d) k
      = byte_at (_configuration (device stored_four)) k)
  /\ system_name d
     = (if byte_at (_configuration (device stored_four)) 8 =? 0 then NameNull
        else NameOfConfiguration)
  /\ configured (system_ports d)
     = (if Configuration.ports (_configuration (device stored_four)) >? 1
        then Configuration.ports (_configuration (device stored_four))
        else 1).
Proof.
  refine (written_record_is_read_back stored_four
            (mkMetadata (Some "Example") (Some "Device") None None) None
            0x1209 0xe000 1 (mkLocalSection 0 0 None) _ _ _ _ _); settle.
Defined.

Lemma section_is_read_back :
  let w' := world_of (writeConfiguration sectioned) in
  let d :=
    readEEPROM (eeprom w')
      (V2Device_new (mkMetadata None None None None) None 0x1209 0xe000 1
         (mkLocalSection 0x1234 6 (Some [0; 0; 0; 0; 0; 0]))) in
  local_data (configuration d)
  = Some (mem_write [0; 0; 0; 0; 0; 0] 0 (mem_read [1; 2; 3; 4] 0 4))
  /\ mem_read (mem_write [0; 0; 0; 0; 0; 0] 0 (mem_read [1; 2; 3; 4] 0 4)) 0 4
     = mem_read [1; 2; 3; 4] 0 4.
Proof.
  refine (written_payload_is_read_back sectioned
            (mkMetadata None None None None) None 0x1209 0xe000 1
            [1; 2; 3; 4] [0; 0; 0; 0; 0; 0] 6 _ _ _ _ _ _ _ _); settle.
Defined.

Lemma section_of_another_device_is_not_loaded :
  let e := eeprom (world_of (writeConfiguration sectioned)) in
  let d :=
    V2Device_new (mkMetadata None None None None) None 0x1209 0xe000 1
      (mkLocalSection 0x9999 4 (Some [0; 0; 0; 0])) in
  configuration (readEEPROM e d) = configuration d
  /\ _configuration (readEEPROM e d)
     = mem_write (_configuration d) 0
         (mem_read e 0 (Configuration.header_size e)).
Proof.
  refine (foreign_section_is_not_loaded _ _ _ _ _);
    [settle | settle | right; left; vm_compute; discriminate].
Defined.

Lemma short_record_is_read :
  List.length (_configuration (readEEPROM short_record device0)) = 52%nat
  /\ forall k, 0 <= k ->
       byte_at (_configuration (readEEPROM short_record device0)) k
       = if k <? Configuration.header_size short_record
         then byte_at short_record k
         else byte_at (_configuration device0) k.
Proof.
  refine (shorter_record_keeps_the_tail short_record device0 _ _ _ _); settle.
Defined.

Lemma reply_of_the_reference_device :
  exists payload,
    fullStateMessage world0
    = SystemExclusive :: 0x7d :: payload ++ [SystemExclusiveEnd]
    /\ Forall (fun b => 0 <= b < 0x80) payload
    /\ zlength (fullStateMessage world0) <= sysex_max_size + 1.
Proof.
  refine (reply_is_a_seven_bit_frame world0 _).
  apply Forall_nonneg_checked. vm_compute. reflexivity.
Defined.

Lemma serial_of_the_sample_memory :
  List.length (readSerial serial_memory) = 32%nat
  /\ Forall (fun c => upperHex c = true) (readSerial serial_memory).
Proof.
  refine (SerialFacts.readSerial_is_32_upper_hex_digits serial_memory _).
  intros a. unfold serial_memory. apply Z.mod_pos_bound. lia.
Defined.

Lemma memories_with_one_serial_agree :
  serial_memory (0x008061FC + 3) = other_memory (0x008061FC + 3).
Proof.
  refine (SerialFacts.readSerial_determines_the_bytes serial_memory
            other_memory _ _ _ 0x008061FC 3 _ _).
  - intros a. unfold serial_memory. apply Z.mod_pos_bound. lia.
  - intros a. unfold other_memory.
    destruct (a <? 0x00806000); [lia | apply Z.mod_pos_bound; lia].
  - vm_compute. reflexivity.
  - left. reflexivity.
  - lia.
Defined.


Ltac among := vm_compute; repeat (first [left; reflexivity | right]).

Lemma bad_chunk_is_verified_after_the_copy :
  In Secondary_copyBootloader
    (events world0 (handleRequest final_chunk_bad world0)).
Proof.
  refine (verification_follows_the_bootloader_copy final_chunk_bad world0
            (8192 + 4) "ffff" false _).
  among.
Defined.

Lemma good_chunk_is_activated_after_its_verification :
  exists n hash,
    In (Secondary_verify n hash true)
      (events world0 (handleRequest final_chunk_good world0)).
Proof.
  refine (activation_only_after_matching_verification final_chunk_good
            world0 _).
  among.
Defined.

Lemma bare_frame_is_ignored :
  handleSystemExclusive [0xf0; 0x7d; 0xf7] 3 world0 = Returns tt world0
  /\ events world0 (handleSystemExclusive [0xf0; 0x7d; 0xf7] 3 world0) = [].
Proof.
  refine (unframed_message_is_ignored [0xf0; 0x7d; 0xf7] 3 world0 _).
  left. lia.
Defined.

Lemma get_all_keeps_the_state :
  let w' := world_of (handleRequest get_all world0) in
  secondary w' = secondary world0 /\ bootData w' = bootData world0
  /\ device w' = device world0 /\ eeprom w' = eeprom world0.
Proof.
  destruct (methods_keep_to_their_state get_all world0) as (A & B & D & E).
  cbv zeta.
  split; [apply A; reflexivity |].
  split; [apply B; reflexivity |].
  split; [apply D; reflexivity | apply E; reflexivity].
Defined.

Lemma unknown_method_is_ignored :
  handleRequest unknown_method world0 = Returns tt world0.
Proof.
  refine (unknown_requests_are_ignored unknown_method world0 _).
  right. left. repeat split; reflexivity.
Defined.

Lemma get_all_only_reports :
  handleRequest get_all world0
  = Returns tt
      (log (SendSystemExclusive (fullStateMessage world0)) world0).
Proof.
  refine (reporting_requests_change_nothing get_all world0 _ _);
    [reflexivity | left; reflexivity].
Defined.

Lemma middle_chunk_is_written :
  let block := [65; 66; 67; 68] ++ repeat 0xff (Z.to_nat (8192 - 4)) in
  let r := handleRequest middle_chunk world0 in
  events world0 r
  = [LED true; Secondary_writeBlock 8192 block; LED false;
     SendSystemExclusive (status_reply "success")]
  /\ returned r = true
  /\ secondary (world_of r) = writeBlock 8192 block (secondary world0)
  /\ zlength block = 8192.
Proof.
  refine (chunk_without_hash_is_written_and_acknowledged middle_chunk world0
            _ _ _ _ _ _); settle.
Defined.

Lemma four_ports_are_stored :
  let r := handleRequest four_ports world0 in
  let d' := device (world_of r) in
  returned r = true
  /\ configured (system_ports d') = 4
  /\ Configuration.ports (_configuration d') = 4
  /\ current (system_ports d') = 1
  /\ In (EEPROM_write 0 (_configuration d')) (events world0 r)
  /\ sent (events world0 r) = [fullStateMessage (world_of r)].
Proof.
  refine (ports_of_a_request_are_stored_when_in_range four_ports world0
            _ _ _ _ _ _); settle.
Defined.

Lemma version_815_reads_0815 : bcdVersion 815 = 0x0815.
Proof.
  refine (bcdVersion_is_the_four_low_decimal_digits 815 _). lia.
Defined.

Lemma four_ports_are_announced :
  let s := mkStartup false 777 "aa" in
  let r := begin s before_startup in
  let n := current (system_ports (device (world_of r))) in
  1 <= n
  /\ In (USB_setID 0x1209 (u16 (0xe000 + n - 1))) (events before_startup r)
  /\ (forall v p, In (USB_setID v p) (events before_startup r) ->
      v = 0x1209 /\ p = u16 (0xe000 + n - 1))
  /\ (forall k, In (USB_setPorts k) (events before_startup r) <->
      k = n /\ 1 < n).
Proof.
  refine (startup_product_id_follows_the_ports (mkStartup false 777 "aa")
            before_startup _ _); reflexivity.
Defined.

Lemma power_on_starts_with_the_stored_ports :
  let r := restart device0 (mkStartup false 777 "aa") powered_on in
  let persisted :=
    configured (system_ports (readEEPROM (eeprom powered_on) device0)) in
  returned r = true
  /\ reboot (system_ports (device (world_of r))) = 0
  /\ current (system_ports (device (world_of r)))
     = (if persisted >? 1 then persisted else 1)
  /\ bootData (world_of r) = mkBootData 0 BootData_magic.
Proof.
  refine (cold_start_ignores_the_retained_memory powered_on
            (mkMetadata (Some "Example") (Some "Device") None None) None
            0x1209 0xe000 1 (mkLocalSection 0 0 None)
            (mkStartup false 777 "aa") _ _);
    [vm_compute; discriminate | reflexivity].
Defined.

Lemma two_ports_survive_the_user_page_update :
  let r := handleRequest reboot_with_two stored_four in
  let r1 := restart device0 (mkStartup true 777 "aa") (world_of r) in
  let r2 := restart device0 (mkStartup false 888 "aa") (world_of r1) in
  (returned r1 = false
   /\ events (world_of r) r1 = [Delay 100; Firmware_reboot]
   /\ n_ports (bootData (world_of r1))
      = as_uint8
          (Json.get (Json.get (json_device_of reboot_with_two) "reboot")
             "ports"))
  /\ (returned r2 = true
      /\ current (system_ports (device (world_of r2)))
         = as_uint8
             (Json.get (Json.get (json_device_of reboot_with_two) "reboot")
                "ports")
      /\ n_ports (bootData (world_of r2)) = 0).
Proof.
  refine (override_survives_a_startup_cut_short reboot_with_two stored_four
            (mkMetadata (Some "Example") (Some "Device") None None) None
            0x1209 0xe000 1 (mkLocalSection 0 0 None)
            (mkStartup true 777 "aa") (mkStartup false 888 "aa")
            _ _ _ _ _ _ _); settle.
Defined.

Lemma erased_device_runs_on_the_defaults :
  let r := handleRequest erase stored_four in
  let r' := restart device0 (mkStartup false 777 "aa") (world_of r) in
  (returned r = false
   /\ events stored_four r = [EEPROM_erase; Firmware_reboot]
   /\ eeprom (world_of r) = repeat 0xff (List.length (eeprom stored_four)))
  /\ (returned r' = true
      /\ _configuration (device (world_of r')) = Configuration.default
      /\ system_name (device (world_of r')) = NameNull
      /\ configured (system_ports (device (world_of r'))) = 1
      /\ configuration (device (world_of r')) = mkLocalSection 0 0 None).
Proof.
  refine (erased_configuration_gives_the_defaults erase stored_four
            (mkMetadata (Some "Example") (Some "Device") None None) None
            0x1209 0xe000 1 (mkLocalSection 0 0 None)
            (mkStartup false 777 "aa") _ _ _); settle.
Defined.

End FurtherRuns.

